(** * k6-balance-reader: payday, weekday and top-up logic

    A shallow embedding of the two server files of the repository,
    [src/index.js] and its near-duplicate sibling (called [Part000]
    below), together with the properties their specification states.

    Modelling conventions.
    - A [moment] wraps a JavaScript [Date]: one integer, the local time
      value in milliseconds.  The host's UTC offset is taken as constant
      (no daylight-saving jump), and the moment stays valid (a [Date]
      range overflow is not modelled).
    - [moment] objects are mutable and passed by reference: they live in
      a store, and every function that touches one threads the store.
    - [moment()] reads the wall clock.  The clock is a sequence of
      readings; the n-th call takes the n-th reading.
    - [while] loops run on fuel; the theorems show how much is enough.
    - JavaScript numbers are exact rationals extended with NaN and the
      two infinities: IEEE rounding, overflow and negative zero are not
      modelled.  A theorem that depends on it says so in its hypotheses:
      it is stated for whole numbers in the range where the arithmetic
      of the code is exact, or about the text a number is read from.
    - [PAYMENT_DAY_IN_MONTH] is taken as set to the text of an integer,
      and is kept as that integer; an unset or non-numeric variable is
      not modelled.
    - The browser session of [getK6Balance] is outside the model: the
      function starts from the two texts the session read off the page.
      [Session] below adds the case of a session that throws. *)

From Stdlib Require Import ZArith QArith Qround Qpower Lia Lqa Bool Ascii.
From Stdlib Require Import String.
From Stdlib Require Import DecimalString DecimalN.
From stdpp Require Import base tactics option list.

Local Open Scope Z_scope.

(** * Part I: the program

    The library functions the two files call, then the two files. *)

(** ** Calendar arithmetic behind [Date]

    ECMAScript defines [Day], [WeekDay], [YearFromTime], [MonthFromTime],
    [DateFromTime] and [MakeDay] over the proleptic Gregorian calendar.
    The two directions, from a day number to a civil date and back, are
    written here on the 400-year cycle. *)

Module Calendar.

Definition msPerDay : Z := 86400000.

(** Days in a 400-year cycle, in a century and in four years, and the
    shift that makes a 400-year cycle start on 1 March of a year
    divisible by 400. *)
Definition daysPerEra : Z := 146097.
Definition daysPerCentury : Z := 36524.
Definition daysPerFourYears : Z := 1461.
Definition epochShift : Z := 719468.

(** Year of the 400-year cycle, counted from 1 March, and day of that
    year, from the day of the cycle: by centuries, groups of four years
    and years, the last of each possibly one day longer. *)
Definition year_and_day_of_era (doe : Z) : Z * Z :=
  let century := Z.min (doe / daysPerCentury) 3 in
  let doc := doe - century * daysPerCentury in
  let group := Z.min (doc / daysPerFourYears) 24 in
  let dog := doc - group * daysPerFourYears in
  let year := Z.min (dog / 365) 3 in
  (100 * century + 4 * group + year, dog - year * 365).

(** First day of the year [yoe] of the cycle. *)
Definition doe_of_yoe (yoe : Z) : Z := yoe * 365 + yoe / 4 - yoe / 100.

(** March-based month index 0..11, from the day of the year. *)
Definition mp_of_doy (doy : Z) : Z := (5 * doy + 2) / 153.

(** First day of the March-based month [mp], counted from 1 March. *)
Definition doy_of_mp (mp : Z) : Z := (153 * mp + 2) / 5.

(** [civil_from_days z] is the civil date (year, month 1..12, day 1..31)
    of day number [z], day 0 being 1970-01-01. *)
Definition civil_from_days (z : Z) : Z * Z * Z :=
  let z' := z + epochShift in
  let era := z' / daysPerEra in
  let doe := z' mod daysPerEra in
  let (yoe, doy) := year_and_day_of_era doe in
  let mp := mp_of_doy doy in
  let d := doy - doy_of_mp mp + 1 in
  let m := if mp <? 10 then mp + 3 else mp - 9 in
  let y := yoe + era * 400 in
  (if m <=? 2 then y + 1 else y, m, d).

(** [days_from_civil y m d]: the day number of year [y], month [m] in
    1..12, day [d]; linear in [d], so a day outside the month overflows
    into the neighbouring months as [Date] does. *)
Definition days_from_civil (y m d : Z) : Z :=
  let y' := if m <=? 2 then y - 1 else y in
  let era := y' / 400 in
  let yoe := y' mod 400 in
  let mp := if 2 <? m then m - 3 else m + 9 in
  let doy := doy_of_mp mp + d - 1 in
  let doe := doe_of_yoe yoe + doy in
  era * daysPerEra + doe - epochShift.

Definition year_of_day (z : Z) : Z := fst (fst (civil_from_days z)).
Definition month_of_day (z : Z) : Z := snd (fst (civil_from_days z)).
Definition date_of_day (z : Z) : Z := snd (civil_from_days z).

(** ECMAScript [WeekDay]: 0 is Sunday, 6 is Saturday; 1970-01-01 was a
    Thursday. *)
Definition WeekDay (z : Z) : Z := (z + 4) mod 7.

Definition isLeapYear (y : Z) : bool :=
  ((y mod 4 =? 0) && negb (y mod 100 =? 0)) || (y mod 400 =? 0).

(** moment's [daysInMonth(year, month)], [month] zero-based and possibly
    outside 0..11. *)
Definition daysInMonth (year month : Z) : Z :=
  let modMonth := month mod 12 in
  let year' := year + (month - modMonth) / 12 in
  if modMonth =? 1 then (if isLeapYear year' then 29 else 28)
  else 31 - ((modMonth mod 7) mod 2).

(** ECMAScript [MakeDay(year, month, date)], [month] zero-based. *)
Definition MakeDay (year month date : Z) : Z :=
  let ym := year + month / 12 in
  let mn := month mod 12 in
  days_from_civil ym (mn + 1) 1 + date - 1.

End Calendar.

(** ** Text

    Strings are sequences of code units below 256.  The helpers here
    stand for [String.prototype] and moment's number padding. *)

Module Text.

Local Open Scope string_scope.

(** [n] copies of the character "0". *)
Fixpoint zeros (n : nat) : string :=
  match n with
  | O => ""
  | S k => String "0" (zeros k)
  end.

(** ['' + Math.abs(number)] for an integer. *)
Definition absDigits (number : Z) : string :=
  NilZero.string_of_uint (N.to_uint (Z.abs_N number)).

(** moment's [zeroFill(number, targetLength)]: the sign, then zeros up
    to the target length, then the digits. *)
Definition zeroFill (number : Z) (targetLength : nat) : string :=
  let absNumber := absDigits number in
  let zerosToFill := (targetLength - String.length absNumber)%nat in
  (if (0 <=? number)%Z then "" else "-") ++ zeros zerosToFill ++ absNumber.

(** Reading a padded number back. *)
Definition unfill (s : string) : option Z :=
  match NilEmpty.uint_of_string s with
  | Some d => Some (Z.of_N (N.of_uint d))
  | None =>
      match s with
      | String "-" r =>
          match NilEmpty.uint_of_string r with
          | Some d => Some (- Z.of_N (N.of_uint d))
          | None => None
          end
      | _ => None
      end
  end.

(** [p] holds of the [n] integers from [z] on. *)
Fixpoint all_from (n : nat) (z : Z) (p : Z -> bool) : bool :=
  match n with
  | O => true
  | S k => p z && all_from k (z + 1) p
  end.

End Text.

(** ** The [Date] object

    Pure functions on a local time value [t] in milliseconds. *)

Module DateObj.

Import Calendar.
Local Open Scope string_scope.

Definition Day (t : Z) : Z := t / msPerDay.
Definition TimeWithinDay (t : Z) : Z := t mod msPerDay.
Definition MakeDate (day time : Z) : Z := day * msPerDay + time.

Definition HourFromTime (t : Z) : Z := TimeWithinDay t / 3600000.
Definition MinFromTime (t : Z) : Z := (TimeWithinDay t / 60000) mod 60.
Definition SecFromTime (t : Z) : Z := (TimeWithinDay t / 1000) mod 60.
Definition msFromTime (t : Z) : Z := TimeWithinDay t mod 1000.
Definition MakeTime (hour min sec ms : Z) : Z :=
  hour * 3600000 + min * 60000 + sec * 1000 + ms.

Definition getFullYear (t : Z) : Z := year_of_day (Day t).
(** Zero-based, as in JavaScript. *)
Definition getMonth (t : Z) : Z := month_of_day (Day t) - 1.
Definition getDate (t : Z) : Z := date_of_day (Day t).
Definition getDay (t : Z) : Z := WeekDay (Day t).

Definition setDate (t date : Z) : Z :=
  MakeDate (MakeDay (getFullYear t) (getMonth t) date) (TimeWithinDay t).
Definition setMonth (t month date : Z) : Z :=
  MakeDate (MakeDay (getFullYear t) month date) (TimeWithinDay t).
Definition setHours (t hour : Z) : Z :=
  MakeDate (Day t)
    (MakeTime hour (MinFromTime t) (SecFromTime t) (msFromTime t)).
Definition setMinutes (t min : Z) : Z :=
  MakeDate (Day t)
    (MakeTime (HourFromTime t) min (SecFromTime t) (msFromTime t)).
Definition setSeconds (t sec : Z) : Z :=
  MakeDate (Day t)
    (MakeTime (HourFromTime t) (MinFromTime t) sec (msFromTime t)).

(** The local time value of a civil date and time of day. *)
Definition local (y m d hh mm ss ms : Z) : Z :=
  MakeDate (days_from_civil y m d) (MakeTime hh mm ss ms).

(** moment's [format('YYYY-MM-DD')]. *)
Definition format_YYYY_MM_DD (t : Z) : string :=
  Text.zeroFill (getFullYear t) 4 ++ "-"
  ++ Text.zeroFill (getMonth t + 1) 2 ++ "-"
  ++ Text.zeroFill (getDate t) 2.

(** moment's [diff(that, 'days')]: the elapsed time in days, cut
    towards zero ([absFloor]). *)
Definition diff_days (this that : Z) : Z := Z.quot (this - that) msPerDay.

End DateObj.

(** ** The store of moment objects and the clock *)

Module Heap.

(** A moment object: its [_d] field, the wrapped time value. *)
Record Moment := mkMoment { valueOf : Z }.

(** A reference to a moment object: its index in the store. *)
Definition ref := nat.

Record World := mkWorld {
  heap : list Moment;   (** the moment objects allocated so far *)
  reads : nat           (** how many times the clock was read *)
}.

(** A computation reads and changes the world; [None] stands for a loop
    out of fuel or a reference outside the store. *)
Definition M (A : Type) : Type := World -> option (A * World).

Definition ret {A} (a : A) : M A := fun w => Some (a, w).

Definition bind {A B} (c : M A) (k : A -> M B) : M B :=
  fun w => match c w with
           | Some (a, w') => k a w'
           | None => None
           end.

Definition fail {A} : M A := fun _ => None.

Declare Scope js_scope.
Delimit Scope js_scope with js.
Notation "'let!' x ':=' c 'in' k" := (bind c (fun x => k))
  (at level 10, x pattern, c at level 100, k at level 200) : js_scope.
Notation "c ';;' k" := (bind c (fun _ => k))
  (at level 100, k at level 200, right associativity) : js_scope.

Local Open Scope js_scope.

Definition alloc (m : Moment) : M ref :=
  fun w => Some (length (heap w),
                 {| heap := heap w ++ [m]; reads := reads w |}).

Definition load (r : ref) : M Moment :=
  fun w => match heap w !! r with
           | Some m => Some (m, w)
           | None => None
           end.

Definition store (r : ref) (m : Moment) : M unit :=
  fun w => match heap w !! r with
           | Some _ => Some (tt, {| heap := <[r := m]> (heap w);
                                    reads := reads w |})
           | None => None
           end.

(** Change the time value of the object in place. *)
Definition update (r : ref) (f : Z -> Z) : M unit :=
  let! m := load r in store r (mkMoment (f (valueOf m))).

(** Loops.  [while fuel cond body s] runs [body] on the loop's local
    variables [s] as long as [cond] holds. *)
Fixpoint while {S} (fuel : nat) (cond : S -> M bool) (body : S -> M S)
    (s : S) : M S :=
  match fuel with
  | O => fail
  | Datatypes.S fuel' =>
      let! b := cond s in
      if b then (let! s' := body s in while fuel' cond body s') else ret s
  end.

(** [Array.prototype.includes] on numbers and on strings. *)
Definition includes (l : list Z) (x : Z) : bool := existsb (Z.eqb x) l.
Definition includes_str (l : list string) (x : string) : bool :=
  existsb (String.eqb x) l.

Section Clock.

(** The n-th reading of the host's clock, as a local time value. *)
Variable clock : nat -> Z.

Definition Date_now : M Z :=
  fun w => Some (clock (reads w),
                 {| heap := heap w; reads := S (reads w) |}).

(** [moment()]: a new object holding the current time. *)
Definition moment : M ref :=
  let! t := Date_now in alloc (mkMoment t).

(** [m.set('date', v)], [m.set('hour', v)], ...: in place, returning
    the object for chaining. *)
Definition set_date (r : ref) (v : Z) : M ref :=
  update r (fun t => DateObj.setDate t v);; ret r.
Definition set_hour (r : ref) (v : Z) : M ref :=
  update r (fun t => DateObj.setHours t v);; ret r.
Definition set_minute (r : ref) (v : Z) : M ref :=
  update r (fun t => DateObj.setMinutes t v);; ret r.
Definition set_second (r : ref) (v : Z) : M ref :=
  update r (fun t => DateObj.setSeconds t v);; ret r.

(** [m.isBefore()]: compares with the current time. *)
Definition isBefore (r : ref) : M bool :=
  let! m := load r in
  let! now := Date_now in
  ret (valueOf m <? now).

(** [m.add(n, 'months')]: the month moves, the day of the month is cut
    to the length of the new month. *)
Definition add_months (r : ref) (n : Z) : M ref :=
  update r (fun t =>
    let value := DateObj.getMonth t + n in
    let dayOfMonth :=
      Z.min (DateObj.getDate t)
            (Calendar.daysInMonth (DateObj.getFullYear t) value) in
    DateObj.setMonth t value dayOfMonth);;
  ret r.

(** [m.subtract(n, 'day')]: through the day of the month. *)
Definition subtract_days (r : ref) (n : Z) : M ref :=
  update r (fun t => DateObj.setDate t (DateObj.getDate t - n));; ret r.

Definition day (r : ref) : M Z :=
  let! m := load r in ret (DateObj.getDay (valueOf m)).

Definition format_YYYY_MM_DD (r : ref) : M string :=
  let! m := load r in ret (DateObj.format_YYYY_MM_DD (valueOf m)).

(** [m.format('Y')], kept as the number it prints. *)
Definition format_Y (r : ref) : M Z :=
  let! m := load r in ret (DateObj.getFullYear (valueOf m)).

(** [this.diff(that, 'days')]. *)
Definition diff_days (this that : ref) : M Z :=
  let! a := load this in
  let! b := load that in
  ret (DateObj.diff_days (valueOf a) (valueOf b)).

End Clock.

End Heap.

(** ** Numbers and their text

    A JavaScript number is NaN, an infinity or a finite value, kept
    here as an exact reduced fraction. *)

Module Num.

Local Open Scope Q_scope.

Inductive number :=
| NaN
| Finite (q : Q)
| PosInf
| NegInf.

Definition of_Z (z : Z) : number := Finite (inject_Z z).

Definition neg (a : number) : number :=
  match a with
  | NaN => NaN
  | Finite q => Finite (Qred (- q))
  | PosInf => NegInf
  | NegInf => PosInf
  end.

Definition inf_of_sign (positive : bool) : number :=
  if positive then PosInf else NegInf.

(** [a / b] *)
Definition div (a b : number) : number :=
  match a, b with
  | NaN, _ | _, NaN => NaN
  | Finite x, Finite y =>
      if Qeq_bool y 0 then
        (if Qeq_bool x 0 then NaN else inf_of_sign (Qle_bool 0 x))
      else Finite (Qred (x / y))
  | Finite _, (PosInf | NegInf) => Finite 0
  | PosInf, Finite y => inf_of_sign (Qle_bool 0 y)
  | NegInf, Finite y => inf_of_sign (negb (Qle_bool 0 y))
  | (PosInf | NegInf), (PosInf | NegInf) => NaN
  end.

(** [Math.floor(a)] *)
Definition floor (a : number) : number :=
  match a with
  | Finite x => Finite (inject_Z (Qfloor x))
  | _ => a
  end.

(** [a - b] *)
Definition sub (a b : number) : number :=
  match a, b with
  | NaN, _ | _, NaN => NaN
  | Finite x, Finite y => Finite (Qred (x - y))
  | Finite _, PosInf => NegInf
  | Finite _, NegInf => PosInf
  | PosInf, PosInf | NegInf, NegInf => NaN
  | PosInf, _ => PosInf
  | NegInf, _ => NegInf
  end.

(** [a * b] *)
Definition mul (a b : number) : number :=
  match a, b with
  | NaN, _ | _, NaN => NaN
  | Finite x, Finite y => Finite (Qred (x * y))
  | Finite x, PosInf | PosInf, Finite x =>
      if Qeq_bool x 0 then NaN else inf_of_sign (Qle_bool 0 x)
  | Finite x, NegInf | NegInf, Finite x =>
      if Qeq_bool x 0 then NaN else inf_of_sign (negb (Qle_bool 0 x))
  | PosInf, PosInf | NegInf, NegInf => PosInf
  | PosInf, NegInf | NegInf, PosInf => NegInf
  end.

(** A finite number or an infinity: what [isFinite] and a JSON writer
    tell apart. *)
Definition is_finite (a : number) : bool :=
  match a with Finite _ => true | _ => false end.

End Num.

Module NumText.

Import Num.
Local Open Scope string_scope.

Definition code (c : ascii) : N := N_of_ascii c.

Definition is_digit (c : ascii) : bool :=
  (48 <=? code c)%N && (code c <=? 57)%N.
Definition digit_value (c : ascii) : Z := Z.of_N (code c) - 48.

(** [A-Z] under the [i] flag: a letter of either case. *)
Definition is_letter (c : ascii) : bool :=
  ((65 <=? code c)%N && (code c <=? 90)%N)
  || ((97 <=? code c)%N && (code c <=? 122)%N).
Definition is_upper (c : ascii) : bool :=
  (65 <=? code c)%N && (code c <=? 90)%N.

(** White space and line terminators among the code units below 256. *)
Definition is_line_terminator (c : ascii) : bool :=
  (code c =? 10)%N || (code c =? 13)%N.
Definition is_white (c : ascii) : bool :=
  (code c =? 9)%N || (code c =? 11)%N || (code c =? 12)%N
  || (code c =? 32)%N || (code c =? 160)%N || is_line_terminator c.

Definition to_lower (c : ascii) : ascii :=
  if is_upper c then ascii_of_N (code c + 32) else c.

Fixpoint span_digits (s : string) : string * string :=
  match s with
  | String c r =>
      if is_digit c then
        let (d, rest) := span_digits r in (String c d, rest)
      else ("", s)
  | "" => ("", "")
  end.

Fixpoint digits_value_from (acc : Z) (s : string) : Z :=
  match s with
  | String c r => digits_value_from (10 * acc + digit_value c) r
  | "" => acc
  end.

(** The value of a run of decimal digits. *)
Definition digits_value (s : string) : Z := digits_value_from 0 s.

Fixpoint trim_start (s : string) : string :=
  match s with
  | String c r => if is_white c then trim_start r else s
  | "" => ""
  end.

Fixpoint trim_end (s : string) : string :=
  match s with
  | String c r =>
      match trim_end r with
      | "" => if is_white c then "" else String c ""
      | r' => String c r'
      end
  | "" => ""
  end.

Definition starts_with (p s : string) : bool := String.prefix p s.

Fixpoint drop (n : nat) (s : string) : string :=
  match n, s with
  | S k, String _ r => drop k r
  | _, _ => s
  end.

(** [ExponentPart]: [e] or [E], a sign if any, digits.  Gives the
    exponent and the rest, or nothing when no exponent part starts
    here. *)
Definition exponent_part (s : string) : option (Z * string) :=
  match s with
  | String c r =>
      if (code c =? 101)%N || (code c =? 69)%N then
        let '(negative, r') :=
          match r with
          | String "-" r' => (true, r')
          | String "+" r' => (false, r')
          | _ => (false, r)
          end in
        let (ds, rest) := span_digits r' in
        match ds with
        | "" => None
        | _ => Some (if negative then (- digits_value ds)%Z
                     else digits_value ds, rest)
        end
      else None
  | "" => None
  end.

Definition decimal_value (ip fp : string) (e : Z) : Q :=
  Qred ((inject_Z (digits_value (ip ++ fp))
         / inject_Z (10 ^ Z.of_nat (String.length fp)))
        * Qpower (10 # 1) e)%Q.

(** The longest prefix of [s] that is a [StrUnsignedDecimalLiteral],
    with its value and what follows it. *)
Definition unsigned_decimal_prefix (s : string) : option (number * string) :=
  if starts_with "Infinity" s then Some (PosInf, drop 8 s)
  else
    let (ip, r1) := span_digits s in
    let (fp, r2) :=
      match r1 with
      | String "." r => span_digits r
      | _ => ("", r1)
      end in
    match ip, fp with
    | "", "" => None
    | _, _ =>
        match exponent_part r2 with
        | Some (e, r3) => Some (Finite (decimal_value ip fp e), r3)
        | None => Some (Finite (decimal_value ip fp 0), r2)
        end
    end.

(** The longest prefix that is a [StrDecimalLiteral]: a sign if any,
    then the unsigned literal. *)
Definition decimal_prefix (s : string) : option (number * string) :=
  match s with
  | String "-" r =>
      match unsigned_decimal_prefix r with
      | Some (v, rest) => Some (neg v, rest)
      | None => None
      end
  | String "+" r => unsigned_decimal_prefix r
  | _ => unsigned_decimal_prefix s
  end.

(** [parseFloat(s)]: leading white space is skipped, the longest
    decimal literal is read, anything after it is ignored. *)
Definition parseFloat (s : string) : number :=
  match decimal_prefix (trim_start s) with
  | Some (v, _) => v
  | None => NaN
  end.

Definition radix_digit (radix : Z) (c : ascii) : option Z :=
  let v :=
    if is_digit c then digit_value c
    else if is_letter c then Z.of_N (code (to_lower c)) - 87
    else 99%Z in
  if (v <? radix)%Z then Some v else None.

Fixpoint radix_value_from (radix acc : Z) (s : string) : option Z :=
  match s with
  | String c r =>
      match radix_digit radix c with
      | Some v => radix_value_from radix (radix * acc + v) r
      | None => None
      end
  | "" => Some acc
  end.

Definition radix_literal (radix : Z) (s : string) : number :=
  match s with
  | "" => NaN
  | _ => match radix_value_from radix 0 s with
         | Some v => of_Z v
         | None => NaN
         end
  end.

(** [ToNumber] on a string, as in [n * s]: the whole trimmed text must
    be a numeric literal; the empty text is 0. *)
Definition ToNumber (s : string) : number :=
  let t := trim_end (trim_start s) in
  match t with
  | "" => of_Z 0
  | String "0" (String x r) =>
      if (code x =? 120)%N || (code x =? 88)%N then radix_literal 16 r
      else if (code x =? 111)%N || (code x =? 79)%N then radix_literal 8 r
      else if (code x =? 98)%N || (code x =? 66)%N then radix_literal 2 r
      else match decimal_prefix t with
           | Some (v, "") => v
           | _ => NaN
           end
  | _ => match decimal_prefix t with
         | Some (v, "") => v
         | _ => NaN
         end
  end.

(** [parseInt(s)] on a run of decimal digits. *)
Definition parseInt_digits (s : string) : Z := digits_value s.

End NumText.

(** ** The two patterns of the balance page *)

Module Pattern.

Import NumText.
Local Open Scope string_scope.

(** A literal of the pattern against the text under the [i] flag. *)
Fixpoint strip_prefix_ci (p s : string) : option string :=
  match p, s with
  | "", _ => Some s
  | String a p', String b s' =>
      if Ascii.eqb (to_lower a) (to_lower b) then strip_prefix_ci p' s'
      else None
  | String _ _, "" => None
  end.

Fixpoint all_chars (f : ascii -> bool) (s : string) : bool :=
  match s with
  | String c r => f c && all_chars f r
  | "" => true
  end.

(** [([A-Z]{1,5})$] under the [i] flag. *)
Definition currency_tail (s : string) : bool :=
  (1 <=? String.length s)%nat && (String.length s <=? 5)%nat
  && all_chars is_letter s.

(** [.+ ([A-Z]{1,5})$] with the greedy [.+] possibly empty here: the
    longest run of non-terminators is tried first, then shorter ones.
    Gives the run and the currency text. *)
Fixpoint greedy_dots (s : string) : option (string * string) :=
  match s with
  | "" => None
  | String c r =>
      match (if is_line_terminator c then None else greedy_dots r) with
      | Some (dots, cur) => Some (String c dots, cur)
      | None =>
          if Ascii.eqb c " " && currency_tail r then Some ("", r) else None
      end
  end.

(** [balanceString.match(/^Saldo: ([0-9].+) ([A-Z]{1,5})$/i)]: the
    match array (whole match, group 1, group 2), or [None] for [null]. *)
Definition balanceMatcher (balanceString : string) : option (list string) :=
  match strip_prefix_ci "Saldo: " balanceString with
  | Some (String d r) =>
      if is_digit d then
        match greedy_dots r with
        | Some (String c dots, cur) =>
            Some [balanceString; String d (String c dots); cur]
        | _ => None
        end
      else None
  | _ => None
  end.

(** [[0-9]{1,2}] followed by something that is not a digit: two digits
    when there are two, else one. *)
Definition digits_1_2 (s : string) : option (string * string) :=
  match s with
  | String a (String b r) =>
      if is_digit a then
        if is_digit b then Some (String a (String b ""), r)
        else Some (String a "", String b r)
      else None
  | String a "" => if is_digit a then Some (String a "", "") else None
  | "" => None
  end.

(** [[0-9]{4}] *)
Definition digits_4 (s : string) : option (string * string) :=
  match s with
  | String a (String b (String c (String d r))) =>
      if is_digit a && is_digit b && is_digit c && is_digit d
      then Some (String a (String b (String c (String d ""))), r)
      else None
  | _ => None
  end.

Definition literal (c : ascii) (s : string) : option string :=
  match s with
  | String x r => if Ascii.eqb x c then Some r else None
  | "" => None
  end.

(** [dateString.match(/^([0-9]{1,2})\.([0-9]{1,2})\.([0-9]{4}) ([0-9]{1,2}):([0-9]{1,2})$/i)] *)
Definition dateMatcher (dateString : string) : option (list string) :=
  match digits_1_2 dateString with
  | Some (g1, s1) =>
  match literal "." s1 with
  | Some s2 =>
  match digits_1_2 s2 with
  | Some (g2, s3) =>
  match literal "." s3 with
  | Some s4 =>
  match digits_4 s4 with
  | Some (g3, s5) =>
  match literal " " s5 with
  | Some s6 =>
  match digits_1_2 s6 with
  | Some (g4, s7) =>
  match literal ":" s7 with
  | Some s8 =>
  match digits_1_2 s8 with
  | Some (g5, "") => Some [dateString; g1; g2; g3; g4; g5]
  | _ => None
  end | None => None end | None => None end | None => None end
      | None => None end | None => None end | None => None end
      | None => None end | None => None end.

(** [pattern.test(s)] *)
Definition test (m : string -> option (list string)) (s : string) : bool :=
  match m s with Some _ => true | None => false end.

End Pattern.

(** ** What the two files share: values, records, responses *)

Module Server.

Import Num.
Local Open Scope string_scope.
Local Open Scope Z_scope.

(** A value read out of a match array: a string, or [undefined] when
    the index is outside the array. *)
Inductive JsValue :=
| undefined
| text (s : string).

(** [array[i]] *)
Definition item (array : list string) (i : nat) : JsValue :=
  match array !! i with
  | Some s => text s
  | None => undefined
  end.

(** [ToString] *)
Definition to_string (v : JsValue) : string :=
  match v with
  | undefined => "undefined"
  | text s => s
  end.

Definition parseFloat (v : JsValue) : number :=
  NumText.parseFloat (to_string v).

(** [parseInt] of a capture group of the date pattern, which holds
    digits only. *)
Definition parseInt (v : JsValue) : Z :=
  NumText.parseInt_digits (to_string v).

(** [new Date(year, month, date, hours, minutes)] in local time, as its
    time value; a year 0..99 means 1900 + year. *)
Definition new_Date (year month date hours minutes : Z) : Z :=
  let year' := if (0 <=? year) && (year <=? 99) then 1900 + year else year in
  DateObj.MakeDate (Calendar.MakeDay year' month date)
                   (DateObj.MakeTime hours minutes 0 0).

(** What [getK6Balance] returns.  [lastToppedUpUTC] is kept as the time
    value of which [toISOString()] prints the UTC text. *)
Record BalanceRecord := mkBalance {
  currentBalance : number;
  balanceCurrencyUnit : JsValue;
  lastToppedUpUTC : Z
}.

(** The object sent on success. *)
Record Report := mkReport {
  r_currentBalance : number;
  r_currentBalanceInNumberOfMeals : number;
  r_balanceCurrencyUnit : JsValue;
  r_weekdaysUntilNextPayment : Z;
  r_pricePerMeal : number;
  r_mealsNeeded : number;
  r_topupNeeded : number;
  r_lastToppedUpUTC : Z
}.

Inductive Exception :=
| TypeError (message : string)
| Error (name message : string).

(** How a function body ends: with a value, or with a throw. *)
Inductive Completion (A : Type) :=
| Return (a : A)
| Throw (e : Exception).
Arguments Return {A} a.
Arguments Throw {A} e.

(** What the handler of [GET /] does for the client: it sends a JSON
    report, it sends the JSON object [{ error: message }], or its
    promise rejects with an exception and it sends nothing. *)
Inductive Response :=
| json_report (r : Report)
| json_error (message : string)
| unhandled_rejection (e : Exception).

(** The two texts scraped from the account page. *)
Record Page := mkPage {
  balanceString : string;
  dateString : string
}.

(** The environment variables the computation reads.  The payment day
    is kept as the integer its text denotes. *)
Record Env := mkEnv {
  PAYMENT_DAY_IN_MONTH : Z;
  PRICE_PER_MEAL : string
}.

(** An entry of the [holidays-norway] package. *)
Record Holiday := mkHoliday {
  name : string;
  date : string
}.

(** The state of the process after its top-level code ran. *)
Inductive Process :=
| listening (paymentDayInMonth : Z) (pricePerMeal : number)
| exited (message : string).

End Server.

(** ** [src/index.js] *)

Module IndexJs.

Import Heap Num Server.
Local Open Scope js_scope.
Local Open Scope string_scope.
Local Open Scope Z_scope.

Section Program.

Variable clock : nat -> Z.
(** [holidays.default(year)] *)
Variable holidays_default : Z -> list Holiday.
Variable env : Env.

Definition paymentDayInMonth : Z := PAYMENT_DAY_IN_MONTH env.
Definition pricePerMeal : number := NumText.parseFloat (PRICE_PER_MEAL env).

Definition getNextPayDate (fuel : nat) : M ref :=
  let! nextPayDate := moment clock in
  let! _ := set_date nextPayDate paymentDayInMonth in
  let! _ := set_hour nextPayDate 0 in
  let! _ := set_minute nextPayDate 0 in
  let! _ := set_second nextPayDate 0 in
  let! before := isBefore clock nextPayDate in
  (if before then add_months nextPayDate 1 else ret nextPayDate);;
  let! today := moment clock in
  let! year := format_Y today in
  let holidayArray := map date (holidays_default year) in
  while fuel
    (fun _ =>
       let! formatted := format_YYYY_MM_DD nextPayDate in
       let! weekday := day nextPayDate in
       ret (includes_str holidayArray formatted || includes [0; 6] weekday))
    (fun _ => subtract_days nextPayDate 1;; ret tt)
    tt;;
  ret nextPayDate.

Definition calculateWeekdaysBetweenDates (fuel : nat) (from to : ref) : M Z :=
  let dayCount := 0 in
  let! nextPayDate := getNextPayDate fuel in
  let! daysUntilPayment := diff_days to from in
  let! (dayCount, _) :=
    while fuel
      (fun '(_, daysUntilPayment) => ret (0 <=? daysUntilPayment))
      (fun '(dayCount, daysUntilPayment) =>
         let! weekday := day nextPayDate in
         let dayCount :=
           if negb (includes [0; 6] weekday) then dayCount + 1
           else dayCount in
         subtract_days nextPayDate 1;;
         ret (dayCount, daysUntilPayment - 1))
      (dayCount, daysUntilPayment) in
  ret dayCount.

(** The part of [getK6Balance] after the browser session: from the two
    texts of the page to the record.  Indexing [null] throws. *)
Definition getK6Balance (page : Page) : Completion BalanceRecord :=
  match Pattern.balanceMatcher (balanceString page) with
  | None => Throw (TypeError "Cannot read properties of null (reading '1')")
  | Some balanceMatches =>
      let formattedBalance := parseFloat (item balanceMatches 1) in
      let currencyUnit := item balanceMatches 2 in
      match Pattern.dateMatcher (dateString page) with
      | None =>
          Throw (TypeError "Cannot read properties of null (reading '3')")
      | Some dateMatches =>
          let dateObject :=
            new_Date (parseInt (item dateMatches 3))
                     (parseInt (item dateMatches 2) - 1)
                     (parseInt (item dateMatches 1))
                     (parseInt (item dateMatches 4))
                     (parseInt (item dateMatches 5)) in
          Return {| currentBalance := formattedBalance;
                    balanceCurrencyUnit := currencyUnit;
                    lastToppedUpUTC := dateObject |}
      end
  end.

(** The handler of [GET /]. *)
Definition handler (fuel : nat) (page : Page) : M Response :=
  let! nextPayDate := getNextPayDate fuel in
  let! now := moment clock in
  let! weekdaysUntilNextPayment :=
    calculateWeekdaysBetweenDates fuel now nextPayDate in
  match getK6Balance page with
  | Throw e => ret (unhandled_rejection e)
  | Return balance =>
      let balanceInNumberOfMeals :=
        floor (div (currentBalance balance) pricePerMeal) in
      let numberOfMealsNeeded :=
        sub (of_Z weekdaysUntilNextPayment) balanceInNumberOfMeals in
      let topupNeeded :=
        mul numberOfMealsNeeded (NumText.ToNumber (PRICE_PER_MEAL env)) in
      ret (json_report
             {| r_currentBalance := currentBalance balance;
                r_currentBalanceInNumberOfMeals := balanceInNumberOfMeals;
                r_balanceCurrencyUnit := balanceCurrencyUnit balance;
                r_weekdaysUntilNextPayment := weekdaysUntilNextPayment;
                r_pricePerMeal := pricePerMeal;
                r_mealsNeeded := numberOfMealsNeeded;
                r_topupNeeded := topupNeeded;
                r_lastToppedUpUTC := lastToppedUpUTC balance |})
  end.

(** The top-level code: read the two settings, register the handler,
    listen. *)
Definition main : Process := listening paymentDayInMonth pricePerMeal.

End Program.

End IndexJs.

(** ** The sibling file *)

Module Part000.

Import Heap Num Server.
Local Open Scope js_scope.
Local Open Scope string_scope.
Local Open Scope Z_scope.

Section Program.

Variable clock : nat -> Z.
Variable holidays_default : Z -> list Holiday.
Variable env : Env.

Definition paymentDayInMonth : Z := PAYMENT_DAY_IN_MONTH env.
Definition pricePerMeal : number := NumText.parseFloat (PRICE_PER_MEAL env).

Definition calculateWeekdaysBetweenDates (fuel : nat) (from to : ref) : M Z :=
  let dayCount := 0 in
  let! daysUntilPayment := diff_days to from in
  let! (dayCount, _) :=
    while fuel
      (fun '(_, daysUntilPayment) => ret (0 <=? daysUntilPayment))
      (fun '(dayCount, daysUntilPayment) =>
         let! weekday := day to in
         let dayCount :=
           if negb (includes [0; 6] weekday) then dayCount + 1
           else dayCount in
         subtract_days to 1;;
         ret (dayCount, daysUntilPayment - 1))
      (dayCount, daysUntilPayment) in
  ret dayCount.

Definition getNextPayDate (fuel : nat) : M ref :=
  let! nextPayDate := moment clock in
  let! _ := set_date nextPayDate paymentDayInMonth in
  let! _ := set_hour nextPayDate 0 in
  let! _ := set_minute nextPayDate 0 in
  let! _ := set_second nextPayDate 0 in
  let! before := isBefore clock nextPayDate in
  (if before then add_months nextPayDate 1 else ret nextPayDate);;
  let! today := moment clock in
  let! year := format_Y today in
  let holidayArray := map date (holidays_default year) in
  while fuel
    (fun _ =>
       let! formatted := format_YYYY_MM_DD nextPayDate in
       let! weekday := day nextPayDate in
       ret (includes_str holidayArray formatted || includes [0; 6] weekday))
    (fun _ => subtract_days nextPayDate 1;; ret tt)
    tt;;
  ret nextPayDate.

(** The part of [getK6Balance] after the browser session.  [None] is
    the [false] it returns when a pattern does not match. *)
Definition getK6Balance (page : Page) : Completion (option BalanceRecord) :=
  if negb (Pattern.test Pattern.balanceMatcher (balanceString page))
  then Return None
  else
    match Pattern.balanceMatcher (balanceString page) with
    | None => Throw (TypeError "Cannot read properties of null (reading '1')")
    | Some balanceMatches =>
        let formattedBalance := parseFloat (item balanceMatches 1) in
        let currencyUnit := item balanceMatches 80 in
        if negb (Pattern.test Pattern.dateMatcher (dateString page))
        then Return None
        else
          match Pattern.dateMatcher (dateString page) with
          | None =>
              Throw (TypeError "Cannot read properties of null (reading '3')")
          | Some dateMatches =>
              let dateObject :=
                new_Date (parseInt (item dateMatches 3))
                         (parseInt (item dateMatches 2) - 1)
                         (parseInt (item dateMatches 1))
                         (parseInt (item dateMatches 4))
                         (parseInt (item dateMatches 5)) in
              Return (Some {| currentBalance := formattedBalance;
                              balanceCurrencyUnit := currencyUnit;
                              lastToppedUpUTC := dateObject |})
          end
    end.

(** [None] is the [false] passed on from [getK6Balance]. *)
Definition generateBalanceData (fuel : nat) (page : Page)
  : M (Completion (option Report)) :=
  match getK6Balance page with
  | Throw e => ret (Throw e)
  | Return None => ret (Return None)
  | Return (Some balance) =>
      let! now := moment clock in
      let! nextPayDate := getNextPayDate fuel in
      let! weekdaysUntilNextPayment :=
        calculateWeekdaysBetweenDates fuel now nextPayDate in
      let balanceInNumberOfMeals :=
        floor (div (currentBalance balance) pricePerMeal) in
      let numberOfMealsNeeded :=
        sub (of_Z weekdaysUntilNextPayment) balanceInNumberOfMeals in
      let topupNeeded := mul numberOfMealsNeeded pricePerMeal in
      ret (Return (Some
             {| r_currentBalance := currentBalance balance;
                r_currentBalanceInNumberOfMeals := balanceInNumberOfMeals;
                r_balanceCurrencyUnit := balanceCurrencyUnit balance;
                r_weekdaysUntilNextPayment := weekdaysUntilNextPayment;
                r_pricePerMeal := pricePerMeal;
                r_mealsNeeded := numberOfMealsNeeded;
                r_topupNeeded := topupNeeded;
                r_lastToppedUpUTC := lastToppedUpUTC balance |}))
  end.

(** The handler of [GET /]. *)
Definition handler (fuel : nat) (page : Page) : M Response :=
  let! result := generateBalanceData fuel page in
  match result with
  | Throw e => ret (unhandled_rejection e)
  | Return (Some report) => ret (json_report report)
  | Return None => ret (json_error "Could not obtain account balance")
  end.

Definition main : Process := listening paymentDayInMonth pricePerMeal.

End Program.

End Part000.

(** ** The browser session

    [getK6Balance] first drives a browser: launch, log in, wait for the
    balance and read its two texts.  Each of these awaited calls may
    throw; nothing in either file catches. *)

Module Session.

Import Heap Server.
Local Open Scope js_scope.

(** How the browser session ends: with the two texts of the page, or
    with the error one of its calls threw. *)
Definition Outcome := Completion Page.

Section Program.

Variable clock : nat -> Z.
Variable holidays_default : Z -> list Holiday.
Variable env : Env.

(** The handler of [GET /] of the sibling file, the browser session
    included: [generateBalanceData] awaits [getK6Balance] before
    anything else, so a session that throws rejects the handler's
    promise before the clock is read. *)
Definition handler (fuel : nat) (session : Outcome) : M Response :=
  match session with
  | Throw e => ret (unhandled_rejection e)
  | Return page => Part000.handler clock holidays_default env fuel page
  end.

End Program.

End Session.

(** ** The loops, without the store

    The two loops of the program as functions of the time values they
    walk over.  The lemmas below tie them to the code. *)

Module Walk.

Import Heap Server.
Local Open Scope Z_scope.

(** The condition of the loop in [getNextPayDate]. *)
Definition excluded (holidayArray : list string) (t : Z) : bool :=
  includes_str holidayArray (DateObj.format_YYYY_MM_DD t)
  || includes [0; 6] (DateObj.getDay t).

(** [subtract(1, 'day')] on a time value. *)
Definition previous_day (t : Z) : Z :=
  DateObj.setDate t (DateObj.getDate t - 1).

(** The loop of [getNextPayDate]. *)
Fixpoint walk_back (fuel : nat) (holidayArray : list string) (t : Z)
  : option Z :=
  match fuel with
  | O => None
  | S fuel' =>
      if excluded holidayArray t
      then walk_back fuel' holidayArray (previous_day t)
      else Some t
  end.

(** [add(1, 'months')] on a time value. *)
Definition next_month (t : Z) : Z :=
  let value := DateObj.getMonth t + 1 in
  DateObj.setMonth t value
    (Z.min (DateObj.getDate t)
           (Calendar.daysInMonth (DateObj.getFullYear t) value)).

(** The date before the loop of [getNextPayDate]: the payment day of
    the month of [t0] at midnight, a month later when that is before
    [t1]. *)
Definition candidate (paymentDayInMonth t0 t1 : Z) : Z :=
  let c :=
    DateObj.setSeconds
      (DateObj.setMinutes
         (DateObj.setHours (DateObj.setDate t0 paymentDayInMonth) 0) 0) 0 in
  if c <? t1 then next_month c else c.

Definition is_weekday (t : Z) : bool :=
  negb (includes [0; 6] (DateObj.getDay t)).

(** The loop of [calculateWeekdaysBetweenDates] over the time value [t]
    of the walking date. *)
Fixpoint count_loop (fuel : nat) (dayCount daysUntilPayment t : Z)
  : option (Z * Z * Z) :=
  match fuel with
  | O => None
  | S fuel' =>
      if 0 <=? daysUntilPayment then
        count_loop fuel'
          (if is_weekday t then dayCount + 1 else dayCount)
          (daysUntilPayment - 1) (previous_day t)
      else Some (dayCount, daysUntilPayment, t)
  end.

(** *** What the specification calls the walk

    The count of the specification: over the [n + 1] days from [t]
    backwards, one for each day that is not a Saturday or Sunday. *)
Fixpoint weekdays_back (n : nat) (t : Z) : Z :=
  match n with
  | O => 0
  | S k => (if is_weekday t then 1 else 0)
           + weekdays_back k (t - Calendar.msPerDay)
  end.

Definition weekdaysBetween (from to : Z) : Z :=
  weekdays_back (Z.to_nat (DateObj.diff_days to from + 1)) to.

(** The Wednesdays at or before [t]: [offset] days back, then every
    seventh day. *)
Definition wednesday_offset (t : Z) : Z := (DateObj.Day t + 1) mod 7.

(** The texts of [n] Wednesdays before [t]. *)
Definition wednesdays (n : nat) (t : Z) : list string :=
  map (fun j : nat =>
         DateObj.format_YYYY_MM_DD
           (t - (wednesday_offset t + 7 * Z.of_nat j) * Calendar.msPerDay))
      (seq 0 n).

(** The fuel that is always enough for the loop of [getNextPayDate]:
    a week for every entry of the holiday list, and one more. *)
Definition walk_fuel (holidayArray : list string) : nat :=
  7 * S (length holidayArray).

End Walk.

(** ** What a call does to the world

    The worlds, dates and fuel the two files go through in one call, as
    functions of the world the call starts in. *)

Module Trace.

Import Heap Num Server Walk.
Local Open Scope js_scope.
Local Open Scope Z_scope.

(** How many times the loop of [calculateWeekdaysBetweenDates] runs. *)
Definition rounds (from to : Z) : nat :=
  Z.to_nat (DateObj.diff_days to from + 1).

Section Payday.

Variable clock : nat -> Z.
Variable holidays_default : Z -> list Holiday.
Variable env : Env.

(** The list [getNextPayDate] walks against, when called in [w]: the
    holidays of the year of the third clock reading. *)
Definition holidayArray_in (w : World) : list string :=
  map date (holidays_default
              (DateObj.getFullYear (clock (S (S (reads w)))))).

(** The date [getNextPayDate] starts its walk from, when called in [w]. *)
Definition candidate_in (w : World) : Z :=
  candidate (PAYMENT_DAY_IN_MONTH env)
            (clock (reads w)) (clock (S (reads w))).

(** The world after a [moment()] in [w]. *)
Definition after_moment (w : World) : World :=
  {| heap := heap w ++ [mkMoment (clock (reads w))]; reads := S (reads w) |}.

(** The world after a [getNextPayDate()] in [w] that returned [t']. *)
Definition after_payday (w : World) (t' : Z) : World :=
  {| heap := heap w ++ [mkMoment t'; mkMoment (clock (S (S (reads w))))];
     reads := S (S (S (reads w))) |}.

(** The date [getNextPayDate] returns when called in [w], on the fuel
    that is always enough. *)
Definition payday_in (w : World) : option Z :=
  walk_back (walk_fuel (holidayArray_in w)) (holidayArray_in w)
            (candidate_in w).

(** The report of the sibling file, from the balance record and the
    weekday count. *)
Definition report_of (balance : BalanceRecord) (weekdays : Z) : Report :=
  let balanceInNumberOfMeals :=
    floor (div (currentBalance balance) (Part000.pricePerMeal env)) in
  let numberOfMealsNeeded := sub (of_Z weekdays) balanceInNumberOfMeals in
  {| r_currentBalance := currentBalance balance;
     r_currentBalanceInNumberOfMeals := balanceInNumberOfMeals;
     r_balanceCurrencyUnit := balanceCurrencyUnit balance;
     r_weekdaysUntilNextPayment := weekdays;
     r_pricePerMeal := Part000.pricePerMeal env;
     r_mealsNeeded := numberOfMealsNeeded;
     r_topupNeeded := mul numberOfMealsNeeded (Part000.pricePerMeal env);
     r_lastToppedUpUTC := lastToppedUpUTC balance |}.

(** The fuel a request needs in the sibling file, started in [w]. *)
Definition request_fuel (w : World) (t' : Z) : nat :=
  Nat.max (walk_fuel (holidayArray_in (after_moment w)))
          (S (rounds (clock (reads w)) t')).

(** The report of [src/index.js]: the top-up multiplies by the text of
    the environment variable. *)
Definition index_report_of (balance : BalanceRecord) (weekdays : Z)
  : Report :=
  let balanceInNumberOfMeals :=
    floor (div (currentBalance balance) (IndexJs.pricePerMeal env)) in
  let numberOfMealsNeeded := sub (of_Z weekdays) balanceInNumberOfMeals in
  {| r_currentBalance := currentBalance balance;
     r_currentBalanceInNumberOfMeals := balanceInNumberOfMeals;
     r_balanceCurrencyUnit := balanceCurrencyUnit balance;
     r_weekdaysUntilNextPayment := weekdays;
     r_pricePerMeal := IndexJs.pricePerMeal env;
     r_mealsNeeded := numberOfMealsNeeded;
     r_topupNeeded :=
       mul numberOfMealsNeeded (NumText.ToNumber (PRICE_PER_MEAL env));
     r_lastToppedUpUTC := lastToppedUpUTC balance |}.

Definition index_response (page : Page) (weekdays : Z) : Response :=
  match IndexJs.getK6Balance page with
  | Throw e => unhandled_rejection e
  | Return balance => json_report (index_report_of balance weekdays)
  end.

(** The fuel a request needs in [src/index.js], started in [w]: for its
    two calls of [getNextPayDate] and for the count. *)
Definition index_request_fuel (w : World) (t1 : Z) : nat :=
  Nat.max (walk_fuel (holidayArray_in w))
    (Nat.max (walk_fuel (holidayArray_in (after_moment (after_payday w t1))))
             (S (rounds (clock (S (S (S (reads w))))) t1))).

End Payday.

End Trace.

(** ** The words of the specification *)

Module Spec.

Import Num Server.
Local Open Scope Z_scope.

(** The three derived numbers as the specification words them. *)
Definition computeReport (amount pricePerMeal : number)
    (weekdaysRemaining : Z) : number * number * number :=
  let balanceInMeals := floor (div amount pricePerMeal) in
  let mealsNeeded := sub (of_Z weekdaysRemaining) balanceInMeals in
  let topupNeeded := mul mealsNeeded pricePerMeal in
  (balanceInMeals, mealsNeeded, topupNeeded).

Definition derived (r : Report) : number * number * number :=
  (r_currentBalanceInNumberOfMeals r, r_mealsNeeded r, r_topupNeeded r).

End Spec.

(** ** Concrete inputs *)

Module Sample.

Import Heap Num Server.
Local Open Scope string_scope.
Local Open Scope Z_scope.

(** The public holidays of Norway in 2024 and 2025, in the shape the
    [holidays-norway] package returns them. *)
Definition norway (year : Z) : list Holiday :=
  if year =? 2024 then
    [ mkHoliday "Nyttårsdag" "2024-01-01";
      mkHoliday "Palmesøndag" "2024-03-24";
      mkHoliday "Skjærtorsdag" "2024-03-28";
      mkHoliday "Langfredag" "2024-03-29";
      mkHoliday "1. påskedag" "2024-03-31";
      mkHoliday "2. påskedag" "2024-04-01";
      mkHoliday "Arbeidernes dag" "2024-05-01";
      mkHoliday "Kristi himmelfartsdag" "2024-05-09";
      mkHoliday "Grunnlovsdag" "2024-05-17";
      mkHoliday "1. pinsedag" "2024-05-19";
      mkHoliday "2. pinsedag" "2024-05-20";
      mkHoliday "1. juledag" "2024-12-25";
      mkHoliday "2. juledag" "2024-12-26" ]
  else if year =? 2025 then
    [ mkHoliday "Nyttårsdag" "2025-01-01";
      mkHoliday "Palmesøndag" "2025-04-13";
      mkHoliday "Skjærtorsdag" "2025-04-17";
      mkHoliday "Langfredag" "2025-04-18";
      mkHoliday "1. påskedag" "2025-04-20";
      mkHoliday "2. påskedag" "2025-04-21";
      mkHoliday "Arbeidernes dag" "2025-05-01";
      mkHoliday "Grunnlovsdag" "2025-05-17";
      mkHoliday "Kristi himmelfartsdag" "2025-05-29";
      mkHoliday "1. pinsedag" "2025-06-08";
      mkHoliday "2. pinsedag" "2025-06-09";
      mkHoliday "1. juledag" "2025-12-25";
      mkHoliday "2. juledag" "2025-12-26" ]
  else [].

(** A clock that stands still at [t]. *)
Definition at_time (t : Z) : nat -> Z := fun _ => t.

(** Monday 16, Tuesday 17 and Friday 20 December 2024, at 10:00. *)
Definition monday_10h : Z := DateObj.local 2024 12 16 10 0 0 0.
Definition tuesday_10h : Z := DateObj.local 2024 12 17 10 0 0 0.
Definition friday_10h : Z := DateObj.local 2024 12 20 10 0 0 0.

(** Saturday 21 December 2024 at noon. *)
Definition saturday_noon : Z := DateObj.local 2024 12 21 12 0 0 0.

(** Monday 16 December 2024 at 23:00 and Tuesday 17 at 01:00. *)
Definition monday_23h : Z := DateObj.local 2024 12 16 23 0 0 0.
Definition tuesday_1h : Z := DateObj.local 2024 12 17 1 0 0 0.

(** Wednesday 18 December 2024 at midnight. *)
Definition wednesday_0h : Z := DateObj.local 2024 12 18 0 0 0 0.

(** No moment allocated, the clock not read yet. *)
Definition fresh : World := {| heap := []; reads := 0 |}.

(** Two moments, the arguments [from] (reference 0) and [to]
    (reference 1) of a call. *)
Definition two (from to : Z) : World :=
  {| heap := [mkMoment from; mkMoment to]; reads := 0 |}.

Definition good_page : Page :=
  {| balanceString := "Saldo: 130 NOK"; dateString := "01.02.2024 10:30" |}.

(** A page whose balance line lost its colon. *)
Definition bad_page : Page :=
  {| balanceString := "Saldo 130 NOK"; dateString := "01.02.2024 10:30" |}.

End Sample.

(** ** Shapes of texts and dates

    Predicates the properties of the second part are stated with. *)

Module Shape.

Import NumText Pattern.
Local Open Scope string_scope.
Local Open Scope Z_scope.

(** No line terminator in the text: what [.] of a pattern takes. *)
Definition no_terminator (s : string) : bool :=
  all_chars (fun c => negb (is_line_terminator c)) s.

(** A character that ends the number [parseFloat] reads after its
    integer digits: not a digit, not the point, not an exponent mark. *)
Definition ends_integer (c : ascii) : bool :=
  negb (is_digit c) && negb (Ascii.eqb c ".")
  && negb (Ascii.eqb c "e") && negb (Ascii.eqb c "E").

(** One or two digits, and four digits: what the groups of the date
    pattern take. *)
Definition one_or_two_digits (g : string) : bool :=
  ((String.length g =? 1)%nat || (String.length g =? 2)%nat)
  && all_chars is_digit g.
Definition four_digits (g : string) : bool :=
  (String.length g =? 4)%nat && all_chars is_digit g.

(** A number that is not NaN and not below zero; it may be infinite. *)
Definition not_below_zero (a : Num.number) : bool :=
  match a with
  | Num.Finite q => Qle_bool 0 q
  | Num.PosInf => true
  | _ => false
  end.

(** How many days a weekend moves a date back, to its Friday. *)
Definition weekend_shift (t : Z) : Z :=
  if DateObj.getDay t =? 6 then 1 else if DateObj.getDay t =? 0 then 2 else 0.

End Shape.

(** * Part II: facts

    First about the library functions, then about the loops, then about
    the two files. *)

Module CalendarFacts.

Import Calendar.

Lemma year_and_day_of_era_spec doe :
  0 <= doe < daysPerEra ->
  let (yoe, doy) := year_and_day_of_era doe in
  0 <= yoe <= 399 /\ 0 <= doy <= 365 /\ doe_of_yoe yoe + doy = doe.
Proof.
  unfold year_and_day_of_era, doe_of_yoe, daysPerEra, daysPerCentury,
    daysPerFourYears.
  intros H. Z.div_mod_to_equations. lia.
Qed.

Lemma month_and_date_range doy :
  0 <= doy <= 365 ->
  0 <= mp_of_doy doy <= 11
  /\ 1 <= doy - doy_of_mp (mp_of_doy doy) + 1 <= 31.
Proof.
  unfold mp_of_doy, doy_of_mp. intros H. Z.div_mod_to_equations. lia.
Qed.

Lemma era_split y yoe era :
  0 <= yoe <= 399 -> y = yoe + era * 400 -> y / 400 = era /\ y mod 400 = yoe.
Proof.
  intros Hy ->. split.
  - symmetry. apply (Z.div_unique _ _ _ yoe); lia.
  - symmetry. apply (Z.mod_unique _ _ era); lia.
Qed.

(** [days_from_civil] undoes [civil_from_days]. *)
Lemma days_from_civil_from_days z :
  let '(y, m, d) := civil_from_days z in days_from_civil y m d = z.
Proof.
  unfold civil_from_days.
  set (z' := z + epochShift).
  assert (Hdoe : 0 <= z' mod daysPerEra < daysPerEra)
    by (apply Z.mod_pos_bound; unfold daysPerEra; lia).
  pose proof (Z.div_mod z' daysPerEra ltac:(unfold daysPerEra; lia)) as Hdm.
  set (era := z' / daysPerEra) in *.
  set (doe := z' mod daysPerEra) in *.
  pose proof (year_and_day_of_era_spec doe Hdoe) as Hyd.
  destruct (year_and_day_of_era doe) as [yoe doy].
  destruct Hyd as [Hyoe [Hdoy Hrec]].
  destruct (month_and_date_range doy Hdoy) as [Hmp _].
  set (mp := mp_of_doy doy) in *.
  unfold days_from_civil.
  destruct (mp <? 10) eqn:Hlt.
  - assert (Hm : (mp + 3 <=? 2) = false) by lia. rewrite Hm.
    assert (Hm' : (2 <? mp + 3) = true) by lia. rewrite Hm'.
    destruct (era_split (yoe + era * 400) yoe era Hyoe eq_refl) as [-> ->].
    replace (mp + 3 - 3) with mp by lia.
    unfold z' in *. lia.
  - assert (Hm : (mp - 9 <=? 2) = true) by lia. rewrite Hm.
    assert (Hm' : (2 <? mp - 9) = false) by lia. rewrite Hm'.
    destruct (era_split (yoe + era * 400 + 1 - 1) yoe era Hyoe ltac:(lia))
      as [-> ->].
    replace (mp - 9 + 9) with mp by lia.
    unfold z' in *. lia.
Qed.

Lemma civil_from_days_inj z1 z2 :
  civil_from_days z1 = civil_from_days z2 -> z1 = z2.
Proof.
  intros H.
  pose proof (days_from_civil_from_days z1) as H1.
  pose proof (days_from_civil_from_days z2) as H2.
  rewrite H in H1. destruct (civil_from_days z2) as [[y m] d]. congruence.
Qed.

(** The civil date of a day is a real one. *)
Lemma civil_from_days_range z :
  let '(y, m, d) := civil_from_days z in 1 <= m <= 12 /\ 1 <= d <= 31.
Proof.
  unfold civil_from_days.
  set (z' := z + epochShift).
  assert (Hdoe : 0 <= z' mod daysPerEra < daysPerEra)
    by (apply Z.mod_pos_bound; unfold daysPerEra; lia).
  pose proof (year_and_day_of_era_spec _ Hdoe) as Hyd.
  destruct (year_and_day_of_era _) as [yoe doy].
  destruct Hyd as [_ [Hdoy _]].
  destruct (month_and_date_range doy Hdoy) as [Hmp Hd].
  destruct (mp_of_doy doy <? 10) eqn:Hlt; lia.
Qed.

(** Setting the day of the month to [date] moves the day number by the
    difference to the current day of the month. *)
Lemma MakeDay_of_day z date :
  MakeDay (year_of_day z) (month_of_day z - 1) date
  = z + (date - date_of_day z).
Proof.
  unfold MakeDay, year_of_day, month_of_day, date_of_day.
  pose proof (days_from_civil_from_days z) as Hrt.
  pose proof (civil_from_days_range z) as Hrg.
  destruct (civil_from_days z) as [[y m] d]; simpl.
  destruct Hrg as [Hm _].
  replace ((m - 1) / 12) with 0 by (symmetry; apply Z.div_small; lia).
  replace ((m - 1) mod 12 + 1) with m by (rewrite Z.mod_small; lia).
  replace (y + 0) with y by lia.
  unfold days_from_civil in *. lia.
Qed.

End CalendarFacts.

Module TextFacts.

Import Text.
Local Open Scope string_scope.

Lemma length_append (s t : string) :
  String.length (s ++ t) = (String.length s + String.length t)%nat.
Proof. induction s as [|c s IH]; simpl; [reflexivity|now rewrite IH]. Qed.

(** Two concatenations with tails of one length agree part by part. *)
Lemma append_inj_tail (s1 : string) : forall s2 t1 t2,
  String.length t1 = String.length t2 ->
  s1 ++ t1 = s2 ++ t2 -> s1 = s2 /\ t1 = t2.
Proof.
  induction s1 as [|c s1 IH]; intros [|c' s2] t1 t2 Hlen H; simpl in *.
  - split; [reflexivity|exact H].
  - exfalso. apply (f_equal String.length) in H. simpl in H.
    rewrite length_append in H. lia.
  - exfalso. apply (f_equal String.length) in H. simpl in H.
    rewrite length_append in H. lia.
  - injection H as -> H. destruct (IH _ _ _ Hlen H) as [-> ->]. now split.
Qed.

Lemma uint_of_absDigits (a : Z) :
  exists d, NilEmpty.uint_of_string (absDigits a) = Some d
            /\ N.of_uint d = Z.abs_N a.
Proof.
  unfold absDigits.
  pose proof (DecimalN.Unsigned.of_to (Z.abs_N a)) as Hot.
  destruct (N.to_uint (Z.abs_N a)) as [|u|u|u|u|u|u|u|u|u|u] eqn:Hu;
    unfold NilZero.string_of_uint;
    try (eexists; split; [apply NilEmpty.usu|exact Hot]).
  exists (Decimal.D0 Decimal.Nil). split; [reflexivity|].
  simpl in Hot. rewrite <- Hot. reflexivity.
Qed.

Lemma uint_of_zeros (k : nat) (s : string) (d : Decimal.uint) :
  NilEmpty.uint_of_string s = Some d ->
  exists d', NilEmpty.uint_of_string (zeros k ++ s) = Some d'
             /\ N.of_uint d' = N.of_uint d.
Proof.
  intros H. induction k as [|k [d' [Hd' Heq]]]; simpl.
  - exists d. now split.
  - exists (Decimal.D0 d'). rewrite Hd'. split; [reflexivity|exact Heq].
Qed.

Lemma unfill_zeroFill (number : Z) (targetLength : nat) :
  unfill (zeroFill number targetLength) = Some number.
Proof.
  unfold zeroFill.
  destruct (uint_of_absDigits number) as [d [Hd Hval]].
  destruct (uint_of_zeros (targetLength - String.length (absDigits number))
              _ _ Hd) as [d' [Hd' Hval']].
  unfold unfill. destruct (0 <=? number)%Z eqn:Hs.
  - simpl. rewrite Hd'. f_equal. rewrite Hval', Hval. lia.
  - simpl. rewrite Hd'. f_equal. rewrite Hval', Hval. lia.
Qed.

Lemma zeroFill_inj (n1 n2 : Z) (len : nat) :
  zeroFill n1 len = zeroFill n2 len -> n1 = n2.
Proof.
  intros H. apply (f_equal unfill) in H.
  rewrite !unfill_zeroFill in H. congruence.
Qed.

Lemma all_from_spec n : forall z p,
  all_from n z p = true ->
  forall x, (z <= x < z + Z.of_nat n)%Z -> p x = true.
Proof.
  induction n as [|k IH]; simpl; intros z p H x Hx; [lia|].
  apply andb_true_iff in H as [Hz Hrest].
  destruct (Z.eq_dec x z) as [->|Hne]; [exact Hz|].
  apply (IH _ _ Hrest). lia.
Qed.

(** A number below 100 padded to two places takes two characters. *)
Lemma zeroFill2_length (n : Z) :
  (0 <= n < 100)%Z -> String.length (zeroFill n 2) = 2%nat.
Proof.
  intros H.
  assert (Hall : all_from 100 0
            (fun n => Nat.eqb (String.length (zeroFill n 2)) 2) = true)
    by (vm_compute; reflexivity).
  apply Nat.eqb_eq.
  apply (all_from_spec _ _ _ Hall). lia.
Qed.

End TextFacts.

Module DateFacts.

Import Calendar CalendarFacts DateObj.
Local Open Scope string_scope.
Local Open Scope Z_scope.

Lemma Day_MakeDate day time :
  0 <= time < msPerDay -> Day (MakeDate day time) = day.
Proof.
  intros H. unfold Day, MakeDate.
  rewrite Z.add_comm, Z.div_add by (unfold msPerDay; lia).
  rewrite Z.div_small by exact H. lia.
Qed.

Lemma TimeWithinDay_range t : 0 <= TimeWithinDay t < msPerDay.
Proof. apply Z.mod_pos_bound. unfold msPerDay; lia. Qed.

Lemma MakeDate_Day t : MakeDate (Day t) (TimeWithinDay t) = t.
Proof.
  unfold MakeDate, Day, TimeWithinDay.
  pose proof (Z.div_mod t msPerDay ltac:(unfold msPerDay; lia)). lia.
Qed.

(** [setDate] keeps the time of day and moves the day number. *)
Lemma setDate_shift t date : setDate t date = t + (date - getDate t) * msPerDay.
Proof.
  unfold setDate, getFullYear, getMonth, getDate.
  rewrite MakeDay_of_day.
  pose proof (MakeDate_Day t). unfold MakeDate in *. lia.
Qed.

Lemma Day_shift t k : Day (t + k * msPerDay) = Day t + k.
Proof. unfold Day. apply Z.div_add. unfold msPerDay; lia. Qed.

Lemma Day_setDate t date : Day (setDate t date) = Day t + (date - getDate t).
Proof. rewrite setDate_shift. apply Day_shift. Qed.

(** The [YYYY-MM-DD] text of a moment determines its day. *)
Lemma format_YYYY_MM_DD_inj t1 t2 :
  format_YYYY_MM_DD t1 = format_YYYY_MM_DD t2 -> Day t1 = Day t2.
Proof.
  unfold format_YYYY_MM_DD, getFullYear, getMonth, getDate,
    year_of_day, month_of_day, date_of_day.
  intros H. apply civil_from_days_inj.
  pose proof (civil_from_days_range (Day t1)) as R1.
  pose proof (civil_from_days_range (Day t2)) as R2.
  destruct (civil_from_days (Day t1)) as [[y1 m1] d1].
  destruct (civil_from_days (Day t2)) as [[y2 m2] d2].
  simpl in H.
  replace (m1 - 1 + 1) with m1 in H by lia.
  replace (m2 - 1 + 1) with m2 in H by lia.
  apply TextFacts.append_inj_tail in H as [Hy H].
  2:{ simpl. rewrite !TextFacts.length_append. simpl.
      rewrite !TextFacts.zeroFill2_length by lia. reflexivity. }
  injection H as H.
  apply TextFacts.append_inj_tail in H as [Hm H].
  2:{ simpl. rewrite !TextFacts.zeroFill2_length by lia. reflexivity. }
  injection H as H.
  apply TextFacts.zeroFill_inj in Hy, Hm, H. congruence.
Qed.

End DateFacts.

Module WalkFacts.

Import Heap Server Walk.
Local Open Scope Z_scope.

Lemma previous_day_shift t : previous_day t = t - Calendar.msPerDay.
Proof. unfold previous_day. rewrite DateFacts.setDate_shift. lia. Qed.

Lemma walk_back_more fuel : forall k holidayArray t t',
  walk_back fuel holidayArray t = Some t' ->
  walk_back (fuel + k) holidayArray t = Some t'.
Proof.
  induction fuel as [|fuel IH]; intros k hs t t' H; simpl in *; [discriminate|].
  destruct (excluded hs t); [apply IH; exact H|exact H].
Qed.

Lemma walk_back_stops fuel : forall holidayArray t t',
  walk_back fuel holidayArray t = Some t' -> excluded holidayArray t' = false.
Proof.
  induction fuel as [|fuel IH]; intros hs t t' H; simpl in *; [discriminate|].
  destruct (excluded hs t) eqn:E; [eapply IH; exact H|congruence].
Qed.

(** Out of fuel: every day looked at was excluded. *)
Lemma walk_back_None fuel : forall holidayArray t,
  walk_back fuel holidayArray t = None ->
  forall i, 0 <= i < Z.of_nat fuel ->
  excluded holidayArray (t - i * Calendar.msPerDay) = true.
Proof.
  induction fuel as [|fuel IH]; intros hs t H i Hi; [lia|].
  simpl in H. destruct (excluded hs t) eqn:E; [|discriminate].
  destruct (Z.eq_dec i 0) as [->|Hne].
  - replace (t - 0 * Calendar.msPerDay) with t by lia. exact E.
  - rewrite previous_day_shift in H.
    specialize (IH _ _ H (i - 1) ltac:(lia)).
    replace (t - Calendar.msPerDay - (i - 1) * Calendar.msPerDay)
      with (t - i * Calendar.msPerDay) in IH by lia.
    exact IH.
Qed.

Lemma includes_str_In l x : includes_str l x = true -> In x l.
Proof.
  unfold includes_str. intros H. apply existsb_exists in H as [y [Hy He]].
  apply String.eqb_eq in He. subst. exact Hy.
Qed.

Lemma includes_str_not_In l x : includes_str l x = false -> ~ In x l.
Proof.
  unfold includes_str. intros H Hin.
  assert (existsb (String.eqb x) l = true) as E.
  { apply existsb_exists. exists x. split; [exact Hin|apply String.eqb_refl]. }
  congruence.
Qed.

Lemma wednesday_back t j :
  DateObj.getDay (t - (wednesday_offset t + 7 * j) * Calendar.msPerDay) = 3.
Proof.
  unfold DateObj.getDay, Calendar.WeekDay, wednesday_offset.
  replace (t - ((DateObj.Day t + 1) mod 7 + 7 * j) * Calendar.msPerDay)
    with (t + (- ((DateObj.Day t + 1) mod 7 + 7 * j)) * Calendar.msPerDay)
    by lia.
  rewrite DateFacts.Day_shift.
  set (D := DateObj.Day t).
  pose proof (Z.div_mod (D + 1) 7 ltac:(lia)) as Hdm.
  pose proof (Z.mod_pos_bound (D + 1) 7 ltac:(lia)) as Hb.
  replace (D + - ((D + 1) mod 7 + 7 * j) + 4)
    with (3 + ((D + 1) / 7 - j) * 7) by lia.
  rewrite Z.mod_add by lia. reflexivity.
Qed.

Lemma wednesdays_NoDup n t : List.NoDup (wednesdays n t).
Proof.
  unfold wednesdays. apply Finite.Injective_map_NoDup; [|apply List.seq_NoDup].
  intros a b H. apply DateFacts.format_YYYY_MM_DD_inj in H.
  replace (t - (wednesday_offset t + 7 * Z.of_nat a) * Calendar.msPerDay)
    with (t + (- (wednesday_offset t + 7 * Z.of_nat a)) * Calendar.msPerDay)
    in H by lia.
  replace (t - (wednesday_offset t + 7 * Z.of_nat b) * Calendar.msPerDay)
    with (t + (- (wednesday_offset t + 7 * Z.of_nat b)) * Calendar.msPerDay)
    in H by lia.
  rewrite !DateFacts.Day_shift in H. lia.
Qed.

(** A finite holiday list cannot cover every Wednesday: the walk
    stops. *)
Lemma walk_back_total holidayArray t :
  exists t', walk_back (walk_fuel holidayArray) holidayArray t = Some t'.
Proof.
  destruct (walk_back (walk_fuel holidayArray) holidayArray t) as [t'|] eqn:E;
    [eexists; reflexivity|exfalso].
  pose proof (walk_back_None _ _ _ E) as Hex.
  set (n := length holidayArray) in *.
  assert (Hincl : List.incl (wednesdays (S n) t) holidayArray).
  { intros s Hs. unfold wednesdays in Hs.
    apply in_map_iff in Hs as [j [<- Hj]]. apply in_seq in Hj.
    pose proof (Z.mod_pos_bound (DateObj.Day t + 1) 7 ltac:(lia)) as Hb.
    fold (wednesday_offset t) in Hb.
    specialize (Hex (wednesday_offset t + 7 * Z.of_nat j)).
    unfold walk_fuel in Hex. fold n in Hex.
    specialize (Hex ltac:(lia)).
    unfold excluded in Hex. rewrite wednesday_back in Hex.
    simpl in Hex. rewrite orb_false_r in Hex.
    apply includes_str_In. exact Hex. }
  pose proof (List.NoDup_incl_length (wednesdays_NoDup (S n) t) Hincl) as Hlen.
  unfold wednesdays in Hlen. rewrite length_map, length_seq in Hlen.
  fold n in Hlen. lia.
Qed.

Lemma walk_back_enough holidayArray t fuel :
  (walk_fuel holidayArray <= fuel)%nat ->
  exists t', walk_back fuel holidayArray t = Some t'.
Proof.
  intros H. destruct (walk_back_total holidayArray t) as [t' Ht'].
  exists t'. replace fuel with (walk_fuel holidayArray
                                + (fuel - walk_fuel holidayArray))%nat by lia.
  apply walk_back_more. exact Ht'.
Qed.

End WalkFacts.

(** ** The code runs the loops *)

Module Run.

Import Heap Num Server Walk WalkFacts Trace.
Local Open Scope js_scope.
Local Open Scope Z_scope.

Lemma world_eta w : {| heap := heap w; reads := reads w |} = w.
Proof. destruct w; reflexivity. Qed.

Lemma insert_at_end (l : list Moment) (x y : Moment) (l' : list Moment) :
  <[length l := y]> (l ++ x :: l') = l ++ y :: l'.
Proof. induction l as [|a l IH]; simpl; [reflexivity|now rewrite IH]. Qed.

Lemma lookup_at_end (l : list Moment) (x : Moment) (l' : list Moment) :
  (l ++ x :: l') !! length l = Some x.
Proof. induction l as [|a l IH]; simpl; [reflexivity|exact IH]. Qed.

Lemma lookup_after_end (l : list Moment) (x y : Moment) :
  (l ++ [x; y]) !! (length l + 1)%nat = Some y.
Proof. induction l as [|a l IH]; simpl; [reflexivity|exact IH]. Qed.

Lemma load_cell w r m : heap w !! r = Some m -> load r w = Some (m, w).
Proof. unfold load. intros ->. reflexivity. Qed.

Lemma update_cell w r m f :
  heap w !! r = Some m ->
  update r f w
  = Some (tt, {| heap := <[r := mkMoment (f (valueOf m))]> (heap w);
                 reads := reads w |}).
Proof.
  intros H. unfold update, bind, load, store.
  rewrite H. cbv beta iota. rewrite H. reflexivity.
Qed.

(** An update of the object allocated last. *)
Lemma update_last h n t rest f :
  update (length h) f {| heap := h ++ mkMoment t :: rest; reads := n |}
  = Some (tt, {| heap := h ++ mkMoment (f t) :: rest; reads := n |}).
Proof.
  rewrite (update_cell _ _ (mkMoment t)) by apply lookup_at_end.
  cbn [heap reads valueOf]. rewrite insert_at_end. reflexivity.
Qed.

Lemma subtract_days_cell w r t :
  heap w !! r = Some (mkMoment t) ->
  subtract_days r 1 w
  = Some (r, {| heap := <[r := mkMoment (previous_day t)]> (heap w);
                reads := reads w |}).
Proof.
  intros H. unfold subtract_days, bind.
  rewrite (update_cell _ _ _ _ H). cbv beta iota. cbn [valueOf].
  unfold ret, previous_day. reflexivity.
Qed.

Lemma day_cell w r t :
  heap w !! r = Some (mkMoment t) -> day r w = Some (DateObj.getDay t, w).
Proof. intros H. unfold day, bind. rewrite (load_cell _ _ _ H). reflexivity. Qed.

Lemma format_cell w r t :
  heap w !! r = Some (mkMoment t) ->
  format_YYYY_MM_DD r w = Some (DateObj.format_YYYY_MM_DD t, w).
Proof.
  intros H. unfold format_YYYY_MM_DD, bind.
  rewrite (load_cell _ _ _ H). reflexivity.
Qed.

Lemma while_step {S} fuel (cond : S -> M bool) (body : S -> M S) s w :
  while (Datatypes.S fuel) cond body s w
  = match cond s w with
    | Some (b, w1) =>
        if b then
          match body s w1 with
          | Some (s', w2) => while fuel cond body s' w2
          | None => None
          end
        else Some (s, w1)
    | None => None
    end.
Proof.
  cbn [while]. unfold bind at 1. destruct (cond s w) as [[[|] w1]|];
    reflexivity.
Qed.

(** The loop of [getNextPayDate] on the object [r]. *)
Lemma while_walk_back holidayArray r fuel : forall w t,
  heap w !! r = Some (mkMoment t) ->
  while fuel
    (fun _ : unit =>
       let! formatted := format_YYYY_MM_DD r in
       let! weekday := day r in
       ret (includes_str holidayArray formatted || includes [0; 6] weekday))
    (fun _ => subtract_days r 1;; ret tt)
    tt w
  = match walk_back fuel holidayArray t with
    | Some t' => Some (tt, {| heap := <[r := mkMoment t']> (heap w);
                              reads := reads w |})
    | None => None
    end.
Proof.
  set (cond := fun _ : unit => _). set (body := fun _ : unit => _).
  assert (Hcond : forall w t, heap w !! r = Some (mkMoment t) ->
            cond tt w = Some (excluded holidayArray t, w)).
  { intros w t H. unfold cond, bind.
    rewrite (format_cell _ _ _ H), (day_cell _ _ _ H). reflexivity. }
  assert (Hbody : forall w t, heap w !! r = Some (mkMoment t) ->
            body tt w
            = Some (tt, {| heap := <[r := mkMoment (previous_day t)]> (heap w);
                           reads := reads w |})).
  { intros w t H. unfold body, bind.
    rewrite (subtract_days_cell _ _ _ H). reflexivity. }
  clearbody cond body.
  induction fuel as [|fuel IH]; intros w t H; [reflexivity|].
  rewrite while_step, (Hcond _ _ H). cbn [walk_back].
  destruct (excluded holidayArray t).
  - rewrite (Hbody _ _ H).
    assert (Hlt : (r < length (heap w))%nat) by (eapply lookup_lt_Some; eauto).
    rewrite (IH _ (previous_day t));
      [|cbn [heap]; apply list_lookup_insert_eq; exact Hlt].
    destruct (walk_back fuel holidayArray (previous_day t)); [|reflexivity].
    cbn [heap reads]. rewrite list_insert_insert_eq. reflexivity.
  - rewrite list_insert_id by exact H. rewrite world_eta. reflexivity.
Qed.

(** The loop of [calculateWeekdaysBetweenDates] walking the object [r]. *)
Lemma while_count_loop r fuel : forall w dayCount daysUntilPayment t,
  heap w !! r = Some (mkMoment t) ->
  while fuel
    (fun '(_, daysUntilPayment) => ret (0 <=? daysUntilPayment))
    (fun '(dayCount, daysUntilPayment) =>
       let! weekday := day r in
       let dayCount :=
         if negb (includes [0; 6] weekday) then dayCount + 1 else dayCount in
       subtract_days r 1;;
       ret (dayCount, daysUntilPayment - 1))
    (dayCount, daysUntilPayment) w
  = match count_loop fuel dayCount daysUntilPayment t with
    | Some (dayCount', daysUntilPayment', t') =>
        Some ((dayCount', daysUntilPayment'),
              {| heap := <[r := mkMoment t']> (heap w); reads := reads w |})
    | None => None
    end.
Proof.
  set (cond := fun _ : Z * Z => _). set (body := fun _ : Z * Z => _).
  assert (Hcond : forall dc n w, cond (dc, n) w = Some (0 <=? n, w))
    by reflexivity.
  assert (Hbody : forall dc n w t, heap w !! r = Some (mkMoment t) ->
            body (dc, n) w
            = Some ((if is_weekday t then dc + 1 else dc, n - 1),
                    {| heap := <[r := mkMoment (previous_day t)]> (heap w);
                       reads := reads w |})).
  { intros dc n w t H. unfold body, bind.
    rewrite (day_cell _ _ _ H). cbv beta iota zeta.
    rewrite (subtract_days_cell _ _ _ H). reflexivity. }
  clearbody cond body.
  induction fuel as [|fuel IH]; intros w dc n t H; [reflexivity|].
  rewrite while_step, Hcond. cbn [count_loop].
  destruct (0 <=? n).
  - rewrite (Hbody _ _ _ _ H).
    assert (Hlt : (r < length (heap w))%nat) by (eapply lookup_lt_Some; eauto).
    rewrite (IH _ _ _ (previous_day t));
      [|cbn [heap]; apply list_lookup_insert_eq; exact Hlt].
    destruct (count_loop fuel _ (n - 1) (previous_day t)) as [[[dc' n'] t']|];
      [|reflexivity].
    cbn [heap reads]. rewrite list_insert_insert_eq. reflexivity.
  - rewrite list_insert_id by exact H. rewrite world_eta. reflexivity.
Qed.

(** The count loop in closed form: [k] rounds for a difference of
    [k - 1] days. *)
Lemma count_loop_closed (k : nat) : forall fuel dayCount daysUntilPayment t,
  Z.to_nat (daysUntilPayment + 1) = k ->
  (k < fuel)%nat ->
  exists rest,
    count_loop fuel dayCount daysUntilPayment t
    = Some (dayCount + weekdays_back k t, rest,
            t - Z.of_nat k * Calendar.msPerDay).
Proof.
  induction k as [|k IH]; intros fuel dc n t Hk Hf;
    (destruct fuel as [|fuel]; [lia|]); cbn [count_loop weekdays_back].
  - assert (E : (0 <=? n) = false) by lia. rewrite E.
    exists n. f_equal. f_equal; [f_equal|]; lia.
  - assert (E : (0 <=? n) = true) by lia. rewrite E.
    destruct (IH fuel (if is_weekday t then dc + 1 else dc) (n - 1)
                (previous_day t) ltac:(lia) ltac:(lia)) as [rest ->].
    exists rest. rewrite previous_day_shift.
    f_equal. f_equal; [f_equal|]; [destruct (is_weekday t)|]; lia.
Qed.

Lemma moment_run clock w :
  moment clock w
  = Some (length (heap w),
          {| heap := heap w ++ [mkMoment (clock (reads w))];
             reads := S (reads w) |}).
Proof. reflexivity. Qed.

Lemma add_months_last h n t rest :
  add_months (length h) 1 {| heap := h ++ mkMoment t :: rest; reads := n |}
  = Some (length h,
          {| heap := h ++ mkMoment (next_month t) :: rest; reads := n |}).
Proof.
  unfold add_months, bind. rewrite update_last. cbv beta iota.
  unfold ret, next_month. reflexivity.
Qed.

Lemma set_date_last h n t rest v :
  set_date (length h) v {| heap := h ++ mkMoment t :: rest; reads := n |}
  = Some (length h,
          {| heap := h ++ mkMoment (DateObj.setDate t v) :: rest;
             reads := n |}).
Proof. unfold set_date, bind. rewrite update_last. reflexivity. Qed.

Lemma set_hour_last h n t rest v :
  set_hour (length h) v {| heap := h ++ mkMoment t :: rest; reads := n |}
  = Some (length h,
          {| heap := h ++ mkMoment (DateObj.setHours t v) :: rest;
             reads := n |}).
Proof. unfold set_hour, bind. rewrite update_last. reflexivity. Qed.

Lemma set_minute_last h n t rest v :
  set_minute (length h) v {| heap := h ++ mkMoment t :: rest; reads := n |}
  = Some (length h,
          {| heap := h ++ mkMoment (DateObj.setMinutes t v) :: rest;
             reads := n |}).
Proof. unfold set_minute, bind. rewrite update_last. reflexivity. Qed.

Lemma set_second_last h n t rest v :
  set_second (length h) v {| heap := h ++ mkMoment t :: rest; reads := n |}
  = Some (length h,
          {| heap := h ++ mkMoment (DateObj.setSeconds t v) :: rest;
             reads := n |}).
Proof. unfold set_second, bind. rewrite update_last. reflexivity. Qed.

Lemma isBefore_last clock h n t rest :
  isBefore clock (length h) {| heap := h ++ mkMoment t :: rest; reads := n |}
  = Some (t <? clock n,
          {| heap := h ++ mkMoment t :: rest; reads := S n |}).
Proof.
  unfold isBefore, bind.
  rewrite (load_cell _ _ (mkMoment t)) by apply lookup_at_end.
  reflexivity.
Qed.

Lemma diff_days_cells w this that a b :
  heap w !! this = Some (mkMoment a) ->
  heap w !! that = Some (mkMoment b) ->
  diff_days this that w = Some (DateObj.diff_days a b, w).
Proof.
  intros Ha Hb. unfold diff_days, bind.
  rewrite (load_cell _ _ _ Ha). cbv beta iota.
  rewrite (load_cell _ _ _ Hb). reflexivity.
Qed.

(** The sibling's [calculateWeekdaysBetweenDates] walks [to] itself. *)
Lemma calculateWeekdaysBetweenDates_run fuel from to w tf tt :
  heap w !! from = Some (mkMoment tf) ->
  heap w !! to = Some (mkMoment tt) ->
  (rounds tf tt < fuel)%nat ->
  Part000.calculateWeekdaysBetweenDates fuel from to w
  = Some (weekdays_back (rounds tf tt) tt,
          {| heap := <[to := mkMoment
                         (tt - Z.of_nat (rounds tf tt) * Calendar.msPerDay)]>
                       (heap w);
             reads := reads w |}).
Proof.
  intros Hf Ht Hfuel. unfold Part000.calculateWeekdaysBetweenDates.
  cbv zeta. unfold bind at 1.
  rewrite (diff_days_cells _ _ _ _ _ Ht Hf). cbv beta iota.
  unfold bind at 1. rewrite (while_count_loop to fuel _ _ _ _ Ht).
  destruct (count_loop_closed (rounds tf tt) fuel 0
              (DateObj.diff_days tt tf) tt eq_refl Hfuel) as [rest ->].
  cbv beta iota. unfold ret. rewrite Z.add_0_l. reflexivity.
Qed.

Section Payday.

Variable clock : nat -> Z.
Variable holidays_default : Z -> list Holiday.
Variable env : Env.

Local Abbreviation holidayArray_in := (Trace.holidayArray_in clock holidays_default).
Local Abbreviation candidate_in := (Trace.candidate_in clock env).
Local Abbreviation after_moment := (Trace.after_moment clock).
Local Abbreviation after_payday := (Trace.after_payday clock).
Local Abbreviation payday_in := (Trace.payday_in clock holidays_default env).
Local Abbreviation report_of := (Trace.report_of env).
Local Abbreviation request_fuel := (Trace.request_fuel clock holidays_default).
Local Abbreviation index_report_of := (Trace.index_report_of env).
Local Abbreviation index_response := (Trace.index_response env).
Local Abbreviation index_request_fuel :=
  (Trace.index_request_fuel clock holidays_default).

(** [getNextPayDate] allocates two moments, the pay date and the
    [moment()] it asks the year of, reads the clock three times and
    walks the pay date back. *)
Lemma getNextPayDate_run fuel w :
  Part000.getNextPayDate clock holidays_default env fuel w
  = match walk_back fuel (holidayArray_in w) (candidate_in w) with
    | Some t' =>
        Some (length (heap w),
              {| heap := heap w ++ [mkMoment t';
                                    mkMoment (clock (S (S (reads w))))];
                 reads := S (S (S (reads w))) |})
    | None => None
    end.
Proof.
  unfold Part000.getNextPayDate, Trace.holidayArray_in, Trace.candidate_in,
    candidate.
  unfold bind at 1. rewrite moment_run. cbv beta iota.
  unfold bind at 1. rewrite set_date_last. cbv beta iota.
  unfold bind at 1. rewrite set_hour_last. cbv beta iota.
  unfold bind at 1. rewrite set_minute_last. cbv beta iota.
  unfold bind at 1. rewrite set_second_last. cbv beta iota.
  unfold Part000.paymentDayInMonth.
  generalize (DateObj.setSeconds
      (DateObj.setMinutes
         (DateObj.setHours
            (DateObj.setDate (clock (reads w)) (PAYMENT_DAY_IN_MONTH env)) 0)
         0) 0).
  intros c.
  unfold bind at 1. rewrite isBefore_last. cbv beta iota.
  unfold bind at 1.
  destruct (c <? clock (S (reads w))).
  1: rewrite add_months_last; generalize (next_month c); intros cand.
  2: unfold ret at 1; revert c; intros cand.
  all: cbv beta iota.
  all: unfold bind at 1; rewrite moment_run; cbv beta iota; cbn [heap reads].
  all: rewrite <- app_assoc; cbn [app].
  all: rewrite length_app; cbn [length].
  all: unfold bind at 1, format_Y at 1, bind at 1.
  all: rewrite (load_cell _ (length (heap w) + 1)%nat
                  (mkMoment (clock (S (S (reads w))))))
         by apply lookup_after_end.
  all: cbv beta iota; unfold ret at 1; cbn [valueOf].
  all: unfold bind at 1.
  all: rewrite (while_walk_back _ (length (heap w)) fuel _ cand)
         by apply lookup_at_end.
  all: destruct (walk_back fuel _ cand) as [t'|]; [|reflexivity].
  all: cbn [heap reads]; rewrite insert_at_end; reflexivity.
Qed.

Lemma getNextPayDate_same fuel :
  IndexJs.getNextPayDate clock holidays_default env fuel
  = Part000.getNextPayDate clock holidays_default env fuel.
Proof. reflexivity. Qed.

(** [calculateWeekdaysBetweenDates] of [src/index.js] walks a date of
    its own, the one [getNextPayDate] gives it. *)
Lemma IndexJs_calculateWeekdaysBetweenDates_run fuel from to w tf tt t' :
  heap w !! from = Some (mkMoment tf) ->
  heap w !! to = Some (mkMoment tt) ->
  walk_back fuel (holidayArray_in w) (candidate_in w) = Some t' ->
  (rounds tf tt < fuel)%nat ->
  IndexJs.calculateWeekdaysBetweenDates clock holidays_default env
    fuel from to w
  = Some (weekdays_back (rounds tf tt) t',
          {| heap := heap w ++
               [mkMoment (t' - Z.of_nat (rounds tf tt) * Calendar.msPerDay);
                mkMoment (clock (S (S (reads w))))];
             reads := S (S (S (reads w))) |}).
Proof.
  intros Hf Ht Hwalk Hfuel. unfold IndexJs.calculateWeekdaysBetweenDates.
  cbv zeta. unfold bind at 1.
  rewrite getNextPayDate_same, getNextPayDate_run, Hwalk. cbv beta iota.
  set (w1 := {| heap := heap w ++ _; reads := _ |}).
  assert (Hf1 : heap w1 !! from = Some (mkMoment tf)).
  { unfold w1. cbn [heap]. rewrite lookup_app_l; [exact Hf|].
    eapply lookup_lt_Some; eauto. }
  assert (Ht1 : heap w1 !! to = Some (mkMoment tt)).
  { unfold w1. cbn [heap]. rewrite lookup_app_l; [exact Ht|].
    eapply lookup_lt_Some; eauto. }
  assert (Hr1 : heap w1 !! length (heap w) = Some (mkMoment t'))
    by apply lookup_at_end.
  unfold bind at 1.
  rewrite (diff_days_cells _ _ _ _ _ Ht1 Hf1). cbv beta iota.
  unfold bind at 1. rewrite (while_count_loop _ fuel _ _ _ _ Hr1).
  destruct (count_loop_closed (rounds tf tt) fuel 0
              (DateObj.diff_days tt tf) t' eq_refl Hfuel) as [rest ->].
  cbv beta iota. unfold ret. rewrite Z.add_0_l.
  unfold w1. cbn [heap reads]. rewrite insert_at_end. reflexivity.
Qed.

Lemma payday_in_total w : exists t', payday_in w = Some t'.
Proof. apply walk_back_total. Qed.

Lemma payday_in_fuel w t' fuel :
  payday_in w = Some t' ->
  (walk_fuel (holidayArray_in w) <= fuel)%nat ->
  walk_back fuel (holidayArray_in w) (candidate_in w) = Some t'.
Proof.
  intros H Hf.
  replace fuel with (walk_fuel (holidayArray_in w)
                     + (fuel - walk_fuel (holidayArray_in w)))%nat by lia.
  apply walk_back_more. exact H.
Qed.

Lemma generateBalanceData_run fuel page w balance t' :
  Part000.getK6Balance page = Return (Some balance) ->
  payday_in (after_moment w) = Some t' ->
  (request_fuel w t' <= fuel)%nat ->
  exists w',
    Part000.generateBalanceData clock holidays_default env fuel page w
    = Some (Return (Some
              (report_of balance (weekdaysBetween (clock (reads w)) t'))),
            w').
Proof.
  intros Hk Hp Hfuel. unfold Trace.request_fuel in Hfuel.
  unfold Part000.generateBalanceData. rewrite Hk.
  unfold bind at 1. rewrite moment_run. cbv beta iota.
  fold (after_moment w).
  unfold bind at 1. rewrite getNextPayDate_run.
  rewrite (payday_in_fuel _ _ _ Hp) by lia. cbv beta iota.
  fold (after_payday (after_moment w) t').
  unfold bind at 1.
  rewrite (calculateWeekdaysBetweenDates_run fuel _ _ _
             (clock (reads w)) t').
  - cbv beta iota. unfold ret. eexists. reflexivity.
  - unfold Trace.after_payday, Trace.after_moment. cbn [heap].
    rewrite <- app_assoc. apply lookup_at_end.
  - unfold Trace.after_payday. cbn [heap]. apply lookup_at_end.
  - lia.
Qed.

Lemma handler_run fuel page w balance t' :
  Part000.getK6Balance page = Return (Some balance) ->
  payday_in (after_moment w) = Some t' ->
  (request_fuel w t' <= fuel)%nat ->
  exists w',
    Part000.handler clock holidays_default env fuel page w
    = Some (json_report
              (report_of balance (weekdaysBetween (clock (reads w)) t')),
            w').
Proof.
  intros Hk Hp Hfuel.
  destruct (generateBalanceData_run fuel page w balance t' Hk Hp Hfuel)
    as [w' Hrun].
  exists w'. unfold Part000.handler, bind. rewrite Hrun. reflexivity.
Qed.

(** When a pattern does not match, the sibling file answers with the
    error object, whatever the fuel, and touches nothing. *)
Lemma handler_no_balance fuel page w :
  Part000.getK6Balance page = Return None ->
  Part000.handler clock holidays_default env fuel page w
  = Some (json_error "Could not obtain account balance", w).
Proof.
  intros Hk. unfold Part000.handler, Part000.generateBalanceData, bind.
  rewrite Hk. reflexivity.
Qed.

Lemma IndexJs_handler_run fuel page w t1 t2 :
  payday_in w = Some t1 ->
  payday_in (after_moment (after_payday w t1)) = Some t2 ->
  (index_request_fuel w t1 <= fuel)%nat ->
  exists w',
    IndexJs.handler clock holidays_default env fuel page w
    = Some (index_response page
              (weekdays_back (rounds (clock (S (S (S (reads w))))) t1) t2),
            w').
Proof.
  intros H1 H2 Hfuel. unfold Trace.index_request_fuel in Hfuel.
  unfold IndexJs.handler.
  unfold bind at 1. rewrite getNextPayDate_same, getNextPayDate_run.
  rewrite (payday_in_fuel _ _ _ H1) by lia. cbv beta iota.
  fold (after_payday w t1).
  unfold bind at 1. rewrite moment_run. cbv beta iota.
  fold (after_moment (after_payday w t1)).
  unfold bind at 1.
  rewrite (IndexJs_calculateWeekdaysBetweenDates_run fuel _ _ _
             (clock (S (S (S (reads w))))) t1 t2).
  - cbv beta iota. unfold Trace.index_response, Trace.index_report_of.
    destruct (IndexJs.getK6Balance page); unfold ret; eexists; reflexivity.
  - unfold Trace.after_moment, Trace.after_payday. cbn [heap reads]. apply lookup_at_end.
  - unfold Trace.after_moment, Trace.after_payday. cbn [heap reads].
    rewrite <- !app_assoc. apply lookup_at_end.
  - apply payday_in_fuel; [exact H2|lia].
  - lia.
Qed.

End Payday.

End Run.

(** ** The properties of the specification *)

Module Properties.

Import Heap Num Server Walk WalkFacts Trace Run Spec Sample.
Local Open Scope string_scope.
Local Open Scope Z_scope.

(** *** Pay date *)

(** X1: the date [getNextPayDate] returns is not a Saturday or Sunday
    and is not in the holiday list it fetched: the list of the year of
    the clock, not of the date returned. *)
Lemma getNextPayDate_business_day clock holidays_default env fuel w r w' :
  Part000.getNextPayDate clock holidays_default env fuel w = Some (r, w') ->
  exists t',
    heap w' !! r = Some (mkMoment t')
    /\ DateObj.getDay t' <> 0 /\ DateObj.getDay t' <> 6
    /\ ~ In (DateObj.format_YYYY_MM_DD t')
            (holidayArray_in clock holidays_default w).
Proof.
  rewrite getNextPayDate_run.
  destruct (walk_back fuel _ _) as [t'|] eqn:Hw; [|discriminate].
  intros [= <- <-]. exists t'. cbn [heap].
  split; [apply lookup_at_end|].
  apply walk_back_stops in Hw. unfold excluded in Hw.
  apply orb_false_iff in Hw as [Hh Hd].
  unfold includes in Hd. cbn [existsb] in Hd.
  repeat split; [lia|lia|].
  apply includes_str_not_In. exact Hh.
Qed.

Lemma getNextPayDate_business_day_witness :
  Part000.getNextPayDate (at_time friday_10h) norway (mkEnv 25 "25") 10 fresh
  = Some (0%nat,
          {| heap := [mkMoment (DateObj.local 2024 12 24 0 0 0 0);
                      mkMoment friday_10h];
             reads := 3 |})
  /\ exists t',
       heap {| heap := [mkMoment (DateObj.local 2024 12 24 0 0 0 0);
                        mkMoment friday_10h];
               reads := 3 |} !! 0%nat = Some (mkMoment t')
       /\ DateObj.getDay t' <> 0 /\ DateObj.getDay t' <> 6
       /\ ~ In (DateObj.format_YYYY_MM_DD t')
               (holidayArray_in (at_time friday_10h) norway fresh).
Proof.
  split; [vm_compute; reflexivity|].
  apply (getNextPayDate_business_day (at_time friday_10h) norway
           (mkEnv 25 "25") 10 fresh).
  vm_compute. reflexivity.
Defined.

(** The walk only goes back, by whole days. *)
Lemma walk_back_goes_back fuel : forall holidayArray t t',
  walk_back fuel holidayArray t = Some t' ->
  exists k, (k < fuel)%nat /\ t' = t - Z.of_nat k * Calendar.msPerDay.
Proof.
  induction fuel as [|fuel IH]; intros hs t t' H; cbn in H; [discriminate|].
  destruct (excluded hs t).
  - apply IH in H as [k [Hk ->]]. exists (S k). split; [lia|].
    rewrite previous_day_shift. lia.
  - injection H as <-. exists 0%nat. split; [lia|]. lia.
Qed.

(** X2: the pay date is the candidate or a whole number of days before
    it: on or before the payment day of this month, or of the next
    month when this month's is past.  With fuel for the walk the call
    returns it. *)
Lemma getNextPayDate_on_or_before_candidate clock holidays_default env
    fuel w :
  (walk_fuel (holidayArray_in clock holidays_default w) <= fuel)%nat ->
  exists r w' t' k,
    Part000.getNextPayDate clock holidays_default env fuel w = Some (r, w')
    /\ heap w' !! r = Some (mkMoment t')
    /\ t' = candidate_in clock env w - Z.of_nat k * Calendar.msPerDay.
Proof.
  intros Hfuel. rewrite getNextPayDate_run.
  destruct (walk_back_enough _ (candidate_in clock env w) fuel Hfuel)
    as [t' Hw].
  rewrite Hw. apply walk_back_goes_back in Hw as [k [_ Hk]].
  eexists _, _, t', k. split; [reflexivity|].
  cbn [heap]. split; [apply lookup_at_end|exact Hk].
Qed.

Lemma getNextPayDate_on_or_before_candidate_witness :
  (walk_fuel (holidayArray_in (at_time friday_10h) norway fresh) <= 98)%nat
  /\ exists r w' t' k,
       Part000.getNextPayDate (at_time friday_10h) norway (mkEnv 25 "25") 98
         fresh
       = Some (r, w')
       /\ heap w' !! r = Some (mkMoment t')
       /\ t' = candidate_in (at_time friday_10h) (mkEnv 25 "25") fresh
               - Z.of_nat k * Calendar.msPerDay.
Proof.
  split; [vm_compute; lia|].
  apply (getNextPayDate_on_or_before_candidate (at_time friday_10h) norway
           (mkEnv 25 "25") 98 fresh).
  vm_compute. lia.
Defined.

(** The scenario of the specification.  On Tuesday 20 June 2023,
    with payment day 15 and no holiday near, the 15th of June is past
    and the 15th of July is a Saturday: both files return Friday
    14 July. *)
Lemma payday_before_a_saturday :
  DateObj.getDay (DateObj.local 2023 6 20 10 0 0 0) = 2
  /\ DateObj.getDay (DateObj.local 2023 7 15 0 0 0 0) = 6
  /\ Part000.getNextPayDate (at_time (DateObj.local 2023 6 20 10 0 0 0))
       norway (mkEnv 15 "25") 10 fresh
     = Some (0%nat,
             {| heap := [mkMoment (DateObj.local 2023 7 14 0 0 0 0);
                         mkMoment (DateObj.local 2023 6 20 10 0 0 0)];
                reads := 3 |})
  /\ IndexJs.getNextPayDate (at_time (DateObj.local 2023 6 20 10 0 0 0))
       norway (mkEnv 15 "25") 10 fresh
     = Part000.getNextPayDate (at_time (DateObj.local 2023 6 20 10 0 0 0))
         norway (mkEnv 15 "25") 10 fresh.
Proof.
  split; [vm_compute; reflexivity|].
  split; [vm_compute; reflexivity|].
  split; [vm_compute; reflexivity|].
  rewrite getNextPayDate_same. reflexivity.
Qed.

(** C1 (the code breaks it): on Friday 20 December 2024 with payment
    day 1 both files return 1 January 2025, a date in the holiday set
    of its year: the holidays looked up are those of 2024. *)
Theorem payday_on_next_years_holiday :
  exists r w' t',
    Part000.getNextPayDate (at_time friday_10h) norway (mkEnv 1 "25") 10 fresh
    = Some (r, w')
    /\ IndexJs.getNextPayDate (at_time friday_10h) norway (mkEnv 1 "25")
         10 fresh
       = Some (r, w')
    /\ heap w' !! r = Some (mkMoment t')
    /\ DateObj.format_YYYY_MM_DD t' = "2025-01-01"
    /\ DateObj.getFullYear t' = 2025
    /\ In (DateObj.format_YYYY_MM_DD t')
          (map date (norway (DateObj.getFullYear t'))).
Proof.
  exists 0%nat,
    {| heap := [mkMoment (DateObj.local 2025 1 1 0 0 0 0);
                mkMoment friday_10h];
       reads := 3 |},
    (DateObj.local 2025 1 1 0 0 0 0).
  split; [vm_compute; reflexivity|].
  split; [vm_compute; reflexivity|].
  split; [vm_compute; reflexivity|].
  split; [vm_compute; reflexivity|].
  split; [vm_compute; reflexivity|].
  vm_compute. left. reflexivity.
Qed.

(** C10: the walk back stops.  A list of [n] holidays cannot cover
    [n + 1] Wednesdays, so [7 * (n + 1)] rounds are enough from any
    date, and [getNextPayDate] returns in both files. *)
Theorem backward_walk_terminates clock holidays_default env
    (holidayArray : list string) (t : Z) (w : World) (fuel : nat) :
  (walk_fuel holidayArray <= fuel)%nat ->
  (walk_fuel (holidayArray_in clock holidays_default w) <= fuel)%nat ->
  (exists t', walk_back fuel holidayArray t = Some t')
  /\ (exists r w',
        Part000.getNextPayDate clock holidays_default env fuel w
        = Some (r, w'))
  /\ (exists r w',
        IndexJs.getNextPayDate clock holidays_default env fuel w
        = Some (r, w')).
Proof.
  intros Hany Hin. split; [apply walk_back_enough; exact Hany|].
  destruct (walk_back_enough (holidayArray_in clock holidays_default w)
              (candidate_in clock env w) fuel Hin) as [t' Ht'].
  split; [|rewrite getNextPayDate_same];
    rewrite getNextPayDate_run, Ht'; eauto.
Qed.

Lemma backward_walk_terminates_witness :
  ((walk_fuel ["2024-12-25"; "2024-12-24"] <= 98)%nat
   /\ (walk_fuel (holidayArray_in (at_time friday_10h) norway fresh) <= 98)%nat)
  /\ ((exists t',
         walk_back 98 ["2024-12-25"; "2024-12-24"]
           (DateObj.local 2024 12 25 0 0 0 0) = Some t')
      /\ (exists r w',
            Part000.getNextPayDate (at_time friday_10h) norway (mkEnv 25 "25")
              98 fresh = Some (r, w'))
      /\ (exists r w',
            IndexJs.getNextPayDate (at_time friday_10h) norway (mkEnv 25 "25")
              98 fresh = Some (r, w'))).
Proof.
  split; [split; vm_compute; lia|].
  apply (backward_walk_terminates (at_time friday_10h) norway (mkEnv 25 "25")
           ["2024-12-25"; "2024-12-24"] (DateObj.local 2024 12 25 0 0 0 0)
           fresh 98); vm_compute; lia.
Defined.

(** *** Weekday count *)

Lemma rounds_full_day_back tf tt :
  tt + Calendar.msPerDay <= tf -> rounds tf tt = 0%nat.
Proof.
  intros H. unfold rounds, DateObj.diff_days.
  assert (Hq : Z.quot (tt - tf) Calendar.msPerDay <= -1).
  { replace (tt - tf) with (- (tf - tt)) by lia.
    rewrite Z.quot_opp_l by (unfold Calendar.msPerDay; lia).
    rewrite Z.quot_div_nonneg by (unfold Calendar.msPerDay in *; lia).
    assert (1 <= (tf - tt) / Calendar.msPerDay); [|lia].
    apply Z.div_le_lower_bound; unfold Calendar.msPerDay in *; lia. }
  lia.
Qed.

(** X3: the sibling file counts the walk of the specification: the
    days from [to] backwards, [diff + 1] of them, each by its own
    weekday. *)
Lemma sibling_counts_the_walk fuel from to w tf tt :
  heap w !! from = Some (mkMoment tf) ->
  heap w !! to = Some (mkMoment tt) ->
  (rounds tf tt < fuel)%nat ->
  exists w',
    Part000.calculateWeekdaysBetweenDates fuel from to w
    = Some (weekdaysBetween tf tt, w').
Proof.
  intros Hf Ht Hfuel.
  rewrite (calculateWeekdaysBetweenDates_run fuel from to w tf tt Hf Ht Hfuel).
  eexists. reflexivity.
Qed.

Lemma sibling_counts_the_walk_witness :
  (heap (two monday_10h wednesday_0h) !! 0%nat = Some (mkMoment monday_10h)
   /\ heap (two monday_10h wednesday_0h) !! 1%nat
      = Some (mkMoment wednesday_0h)
   /\ (rounds monday_10h wednesday_0h < 10)%nat)
  /\ exists w',
       Part000.calculateWeekdaysBetweenDates 10 0%nat 1%nat
         (two monday_10h wednesday_0h)
       = Some (weekdaysBetween monday_10h wednesday_0h, w').
Proof.
  split.
  - split; [reflexivity|]. split; [reflexivity|]. vm_compute. lia.
  - apply (sibling_counts_the_walk 10 0%nat 1%nat
             (two monday_10h wednesday_0h) monday_10h wednesday_0h);
      [reflexivity|reflexivity|vm_compute; lia].
Defined.

Lemma getDay_range t : 0 <= DateObj.getDay t < 7.
Proof.
  unfold DateObj.getDay, Calendar.WeekDay. apply Z.mod_pos_bound. lia.
Qed.

Lemma getDay_days_back t k :
  DateObj.getDay (t - k * Calendar.msPerDay)
  = (DateObj.getDay t - k) mod 7.
Proof.
  unfold DateObj.getDay, Calendar.WeekDay.
  replace (t - k * Calendar.msPerDay) with (t + (- k) * Calendar.msPerDay)
    by lia.
  rewrite DateFacts.Day_shift.
  replace (DateObj.Day t + - k + 4) with ((DateObj.Day t + 4) - k) by lia.
  rewrite Zminus_mod_idemp_l. reflexivity.
Qed.

(** Seven days in a row hold five weekdays. *)
Lemma weekdays_back_week t : weekdays_back 7 t = 5.
Proof.
  cbn [weekdays_back]. unfold is_weekday.
  replace (t - Calendar.msPerDay) with (t - 1 * Calendar.msPerDay) by lia.
  replace (t - 1 * Calendar.msPerDay - Calendar.msPerDay)
    with (t - 2 * Calendar.msPerDay) by lia.
  replace (t - 2 * Calendar.msPerDay - Calendar.msPerDay)
    with (t - 3 * Calendar.msPerDay) by lia.
  replace (t - 3 * Calendar.msPerDay - Calendar.msPerDay)
    with (t - 4 * Calendar.msPerDay) by lia.
  replace (t - 4 * Calendar.msPerDay - Calendar.msPerDay)
    with (t - 5 * Calendar.msPerDay) by lia.
  replace (t - 5 * Calendar.msPerDay - Calendar.msPerDay)
    with (t - 6 * Calendar.msPerDay) by lia.
  rewrite !getDay_days_back.
  pose proof (getDay_range t) as Hg.
  assert (Hcases : DateObj.getDay t = 0 \/ DateObj.getDay t = 1
                   \/ DateObj.getDay t = 2 \/ DateObj.getDay t = 3
                   \/ DateObj.getDay t = 4 \/ DateObj.getDay t = 5
                   \/ DateObj.getDay t = 6) by lia.
  destruct Hcases as [-> | [-> | [-> | [-> | [-> | [-> | ->]]]]]];
    reflexivity.
Qed.

(** X4: in the sibling file a span of seven days, [to] six whole days
    after [from], counts five weekdays. *)
Lemma sibling_week_has_five_weekdays fuel from to w tf tt :
  heap w !! from = Some (mkMoment tf) ->
  heap w !! to = Some (mkMoment tt) ->
  DateObj.diff_days tt tf = 6 ->
  (7 < fuel)%nat ->
  exists w',
    Part000.calculateWeekdaysBetweenDates fuel from to w = Some (5, w').
Proof.
  intros Hf Ht Hdiff Hfuel.
  assert (Hr : rounds tf tt = 7%nat) by (unfold rounds; rewrite Hdiff; lia).
  rewrite (calculateWeekdaysBetweenDates_run fuel from to w tf tt Hf Ht)
    by lia.
  rewrite Hr, weekdays_back_week. eexists. reflexivity.
Qed.

Lemma sibling_week_has_five_weekdays_witness :
  (heap (two monday_10h (monday_10h + 6 * Calendar.msPerDay)) !! 0%nat
   = Some (mkMoment monday_10h)
   /\ heap (two monday_10h (monday_10h + 6 * Calendar.msPerDay)) !! 1%nat
      = Some (mkMoment (monday_10h + 6 * Calendar.msPerDay))
   /\ DateObj.diff_days (monday_10h + 6 * Calendar.msPerDay) monday_10h = 6
   /\ (7 < 10)%nat)
  /\ exists w',
       Part000.calculateWeekdaysBetweenDates 10 0%nat 1%nat
         (two monday_10h (monday_10h + 6 * Calendar.msPerDay))
       = Some (5, w').
Proof.
  split.
  - split; [reflexivity|]. split; [reflexivity|].
    split; [vm_compute; reflexivity|lia].
  - apply (sibling_week_has_five_weekdays 10 0%nat 1%nat
             (two monday_10h (monday_10h + 6 * Calendar.msPerDay))
             monday_10h (monday_10h + 6 * Calendar.msPerDay));
      [reflexivity|reflexivity|vm_compute; reflexivity|lia].
Defined.

(** X5: in the sibling file [from] and [to] at one instant count that day:
    1 on a weekday, 0 on a Saturday or Sunday. *)
Lemma sibling_same_instant fuel from to w t :
  heap w !! from = Some (mkMoment t) ->
  heap w !! to = Some (mkMoment t) ->
  (1 < fuel)%nat ->
  exists w',
    Part000.calculateWeekdaysBetweenDates fuel from to w
    = Some (if is_weekday t then 1 else 0, w').
Proof.
  intros Hf Ht Hfuel.
  assert (Hr : rounds t t = 1%nat).
  { unfold rounds, DateObj.diff_days. rewrite Z.sub_diag.
    rewrite Z.quot_0_l by (unfold Calendar.msPerDay; lia). reflexivity. }
  rewrite (calculateWeekdaysBetweenDates_run fuel from to w t t Hf Ht)
    by lia.
  rewrite Hr. cbn [weekdays_back]. rewrite Z.add_0_r.
  eexists. reflexivity.
Qed.

Lemma sibling_same_instant_witness :
  (heap (two saturday_noon saturday_noon) !! 0%nat
   = Some (mkMoment saturday_noon)
   /\ heap (two saturday_noon saturday_noon) !! 1%nat
      = Some (mkMoment saturday_noon)
   /\ (1 < 10)%nat)
  /\ exists w',
       Part000.calculateWeekdaysBetweenDates 10 0%nat 1%nat
         (two saturday_noon saturday_noon)
       = Some (if is_weekday saturday_noon then 1 else 0, w').
Proof.
  split.
  - split; [reflexivity|]. split; [reflexivity|lia].
  - apply (sibling_same_instant 10 0%nat 1%nat
             (two saturday_noon saturday_noon) saturday_noon);
      [reflexivity|reflexivity|lia].
Defined.

(** C2 (the code breaks it): called on a Saturday for both [from] and
    [to], [src/index.js] counts 1: it looks at the weekday of the pay
    date it resolves itself, Friday 20 December, not at [to].  The walk
    of the specification, and the sibling file, give 0. *)
Theorem index_js_counts_another_date :
  (exists w',
      IndexJs.calculateWeekdaysBetweenDates (at_time monday_10h) norway
        (mkEnv 20 "25") 10 0%nat 1%nat (two saturday_noon saturday_noon)
      = Some (1, w'))
  /\ weekdaysBetween saturday_noon saturday_noon = 0
  /\ (exists w',
        Part000.calculateWeekdaysBetweenDates 10 0%nat 1%nat
          (two saturday_noon saturday_noon)
        = Some (0, w')).
Proof.
  split; [eexists; vm_compute; reflexivity|].
  split; [vm_compute; reflexivity|].
  eexists; vm_compute; reflexivity.
Qed.

(** C8, as the code has it: when [to] is a full day or more before
    [from], the count is 0 and the loop does not run.  The sibling file
    then leaves the store as it was. *)
Theorem no_weekdays_a_full_day_back clock holidays_default env
    (from to : ref) (w : World) (tf tt : Z) :
  heap w !! from = Some (mkMoment tf) ->
  heap w !! to = Some (mkMoment tt) ->
  tt + Calendar.msPerDay <= tf ->
  (forall fuel, (0 < fuel)%nat ->
     Part000.calculateWeekdaysBetweenDates fuel from to w = Some (0, w))
  /\ (forall fuel,
        (walk_fuel (holidayArray_in clock holidays_default w) <= fuel)%nat ->
        exists w',
          IndexJs.calculateWeekdaysBetweenDates clock holidays_default env
            fuel from to w
          = Some (0, w')).
Proof.
  intros Hf Ht Hback. pose proof (rounds_full_day_back _ _ Hback) as Hr.
  split.
  - intros fuel Hfuel.
    rewrite (calculateWeekdaysBetweenDates_run fuel from to w tf tt Hf Ht)
      by lia.
    rewrite Hr. cbn [weekdays_back]. change (Z.of_nat 0) with 0.
    replace (tt - 0 * Calendar.msPerDay) with tt by lia.
    rewrite list_insert_id by exact Ht. rewrite world_eta. reflexivity.
  - intros fuel Hfuel.
    destruct (walk_back_enough _ (candidate_in clock env w) fuel Hfuel)
      as [t' Ht'].
    rewrite (IndexJs_calculateWeekdaysBetweenDates_run clock holidays_default
               env fuel from to w tf tt t' Hf Ht Ht')
      by (unfold walk_fuel in Hfuel; lia).
    rewrite Hr. eexists. reflexivity.
Qed.

Lemma no_weekdays_a_full_day_back_witness :
  (heap (two tuesday_10h monday_10h) !! 0%nat = Some (mkMoment tuesday_10h)
   /\ heap (two tuesday_10h monday_10h) !! 1%nat = Some (mkMoment monday_10h)
   /\ monday_10h + Calendar.msPerDay <= tuesday_10h)
  /\ (forall fuel, (0 < fuel)%nat ->
        Part000.calculateWeekdaysBetweenDates fuel 0%nat 1%nat
          (two tuesday_10h monday_10h)
        = Some (0, two tuesday_10h monday_10h))
  /\ (forall fuel,
        (walk_fuel (holidayArray_in (at_time friday_10h) norway
                      (two tuesday_10h monday_10h)) <= fuel)%nat ->
        exists w',
          IndexJs.calculateWeekdaysBetweenDates (at_time friday_10h) norway
            (mkEnv 25 "25") fuel 0%nat 1%nat (two tuesday_10h monday_10h)
          = Some (0, w')).
Proof.
  split.
  - split; [reflexivity|]. split; [reflexivity|]. vm_compute. discriminate.
  - apply (no_weekdays_a_full_day_back (at_time friday_10h) norway
             (mkEnv 25 "25") 0%nat 1%nat (two tuesday_10h monday_10h)
             tuesday_10h monday_10h);
      [reflexivity|reflexivity|vm_compute; discriminate].
Defined.

(** C8 as stated fails: Monday 23:00 is a calendar day before Tuesday
    01:00, but less than a full day, so the difference is cut to 0, the
    loop runs once and counts the Monday. *)
Lemma one_weekday_two_hours_back :
  DateObj.Day monday_23h < DateObj.Day tuesday_1h
  /\ exists w',
       Part000.calculateWeekdaysBetweenDates 10 0%nat 1%nat
         (two tuesday_1h monday_23h)
       = Some (1, w').
Proof.
  split; [vm_compute; reflexivity|eexists; vm_compute; reflexivity].
Qed.

(** X28: what the count does to its arguments.  Neither file writes to
    [from].  [src/index.js] walks a date of its own and leaves [to]
    alone; the sibling file walks [to] itself, which ends one day back
    for every round of the loop, and touches no other object. *)
Lemma arguments_after_the_count clock holidays_default env
    (from to : ref) (w : World) (tf tt : Z) (fuel : nat) :
  heap w !! from = Some (mkMoment tf) ->
  heap w !! to = Some (mkMoment tt) ->
  (rounds tf tt < fuel)%nat ->
  (walk_fuel (holidayArray_in clock holidays_default w) <= fuel)%nat ->
  (exists n w',
      Part000.calculateWeekdaysBetweenDates fuel from to w = Some (n, w')
      /\ heap w' !! to
         = Some (mkMoment (tt - Z.of_nat (rounds tf tt) * Calendar.msPerDay))
      /\ (forall r, r <> to -> heap w' !! r = heap w !! r))
  /\ (exists n w',
        IndexJs.calculateWeekdaysBetweenDates clock holidays_default env
          fuel from to w
        = Some (n, w')
        /\ heap w' !! from = Some (mkMoment tf)
        /\ heap w' !! to = Some (mkMoment tt)).
Proof.
  intros Hf Ht Hrounds Hwalk. split.
  - rewrite (calculateWeekdaysBetweenDates_run fuel from to w tf tt Hf Ht
               Hrounds).
    eexists _, _. split; [reflexivity|]. cbn [heap]. split.
    + apply list_lookup_insert_eq. eapply lookup_lt_Some; eauto.
    + intros r Hr. apply list_lookup_insert_ne. congruence.
  - destruct (walk_back_enough _ (candidate_in clock env w) fuel Hwalk)
      as [t' Ht'].
    rewrite (IndexJs_calculateWeekdaysBetweenDates_run clock holidays_default
               env fuel from to w tf tt t' Hf Ht Ht' Hrounds).
    eexists _, _. split; [reflexivity|]. cbn [heap].
    split; (rewrite lookup_app_l; [assumption|eapply lookup_lt_Some; eauto]).
Qed.

Lemma arguments_after_the_count_witness :
  (heap (two monday_10h wednesday_0h) !! 0%nat = Some (mkMoment monday_10h)
   /\ heap (two monday_10h wednesday_0h) !! 1%nat
      = Some (mkMoment wednesday_0h)
   /\ (rounds monday_10h wednesday_0h < 98)%nat
   /\ (walk_fuel (holidayArray_in (at_time friday_10h) norway
                    (two monday_10h wednesday_0h)) <= 98)%nat)
  /\ ((exists n w',
         Part000.calculateWeekdaysBetweenDates 98 0%nat 1%nat
           (two monday_10h wednesday_0h) = Some (n, w')
         /\ heap w' !! 1%nat
            = Some (mkMoment
                      (wednesday_0h
                       - Z.of_nat (rounds monday_10h wednesday_0h)
                         * Calendar.msPerDay))
         /\ (forall r, r <> 1%nat ->
               heap w' !! r = heap (two monday_10h wednesday_0h) !! r))
      /\ (exists n w',
            IndexJs.calculateWeekdaysBetweenDates (at_time friday_10h) norway
              (mkEnv 25 "25") 98 0%nat 1%nat (two monday_10h wednesday_0h)
            = Some (n, w')
            /\ heap w' !! 0%nat = Some (mkMoment monday_10h)
            /\ heap w' !! 1%nat = Some (mkMoment wednesday_0h))).
Proof.
  split.
  - split; [reflexivity|]. split; [reflexivity|].
    split; vm_compute; lia.
  - apply (arguments_after_the_count (at_time friday_10h) norway
             (mkEnv 25 "25") 0%nat 1%nat (two monday_10h wednesday_0h)
             monday_10h wednesday_0h 98);
      [reflexivity|reflexivity|vm_compute; lia|vm_compute; lia].
Defined.

(** C9 (the code breaks it): in the sibling file a call with [from] on
    Monday 10:00 and [to] on Wednesday 00:00 runs two rounds on [to]
    itself and leaves it on Monday 00:00: the caller's date has moved.
    [src/index.js] on the same arguments leaves both as they were. *)
Theorem sibling_moves_the_callers_date :
  heap (two monday_10h wednesday_0h) !! 0%nat = Some (mkMoment monday_10h)
  /\ heap (two monday_10h wednesday_0h) !! 1%nat
     = Some (mkMoment wednesday_0h)
  /\ (exists w',
        Part000.calculateWeekdaysBetweenDates 10 0%nat 1%nat
          (two monday_10h wednesday_0h)
        = Some (2, w')
        /\ heap w' !! 0%nat = Some (mkMoment monday_10h)
        /\ heap w' !! 1%nat
           = Some (mkMoment (DateObj.local 2024 12 16 0 0 0 0))
        /\ heap w' !! 1%nat <> heap (two monday_10h wednesday_0h) !! 1%nat)
  /\ (exists n w',
        IndexJs.calculateWeekdaysBetweenDates (at_time friday_10h) norway
          (mkEnv 25 "25") 10 0%nat 1%nat (two monday_10h wednesday_0h)
        = Some (n, w')
        /\ heap w' !! 0%nat = Some (mkMoment monday_10h)
        /\ heap w' !! 1%nat
           = Some (mkMoment wednesday_0h)).
Proof.
  split; [reflexivity|]. split; [reflexivity|]. split.
  - eexists. split; [vm_compute; reflexivity|].
    split; [vm_compute; reflexivity|].
    split; [vm_compute; reflexivity|].
    vm_compute. discriminate.
  - eexists _, _. split; [vm_compute; reflexivity|].
    split; vm_compute; reflexivity.
Qed.

(** *** Balance extraction *)

Lemma digit_value_range c :
  NumText.is_digit c = true -> 0 <= NumText.digit_value c <= 9.
Proof.
  unfold NumText.is_digit, NumText.digit_value. intros H.
  apply andb_true_iff in H as [H1 H2].
  apply N.leb_le in H1, H2. lia.
Qed.

Lemma digits_value_from_nonneg s : forall acc,
  Pattern.all_chars NumText.is_digit s = true -> 0 <= acc ->
  0 <= NumText.digits_value_from acc s.
Proof.
  induction s as [|c s IH]; intros acc H Hacc; cbn in *; [exact Hacc|].
  apply andb_true_iff in H as [Hc Hs].
  apply IH; [exact Hs|]. pose proof (digit_value_range c Hc). lia.
Qed.

Lemma span_digits_digits s :
  Pattern.all_chars NumText.is_digit (fst (NumText.span_digits s)) = true.
Proof.
  induction s as [|c s IH]; cbn; [reflexivity|].
  destruct (NumText.is_digit c) eqn:Hc; [|reflexivity].
  destruct (NumText.span_digits s) as [d rest]. cbn in *. now rewrite Hc, IH.
Qed.

Lemma all_chars_append f s t :
  Pattern.all_chars f s = true -> Pattern.all_chars f t = true ->
  Pattern.all_chars f (s ++ t) = true.
Proof.
  induction s as [|c s IH]; cbn; intros Hs Ht; [exact Ht|].
  apply andb_true_iff in Hs as [Hc Hs]. now rewrite Hc, IH.
Qed.

Lemma decimal_value_nonneg ip fp e :
  Pattern.all_chars NumText.is_digit ip = true ->
  Pattern.all_chars NumText.is_digit fp = true ->
  (0 <= NumText.decimal_value ip fp e)%Q.
Proof.
  intros Hip Hfp. unfold NumText.decimal_value. rewrite Qred_correct.
  apply Qmult_le_0_compat.
  - apply Qmult_le_0_compat.
    + unfold NumText.digits_value.
      pose proof (digits_value_from_nonneg (ip ++ fp) 0
                    (all_chars_append _ _ _ Hip Hfp) ltac:(lia)) as H.
      unfold Qle. cbn. lia.
    + apply Qinv_le_0_compat.
      assert (0 <= 10 ^ Z.of_nat (String.length fp))
        by (apply Z.pow_nonneg; lia).
      unfold Qle. cbn. lia.
  - apply Qpower_0_le. unfold Qle. cbn. lia.
Qed.

(** A text that starts with a digit is read by [parseFloat] as a finite
    number that is not negative. *)
Lemma parseFloat_digit_nonneg d rest :
  NumText.is_digit d = true ->
  exists q, NumText.parseFloat (String d rest) = Finite q /\ (0 <= q)%Q.
Proof.
  intros Hd. unfold NumText.parseFloat.
  assert (Htrim : NumText.trim_start (String d rest) = String d rest).
  { cbn [NumText.trim_start].
    assert (Hw : NumText.is_white d = false); [|rewrite Hw; reflexivity].
    unfold NumText.is_digit in Hd. apply andb_true_iff in Hd as [H1 H2].
    apply N.leb_le in H1, H2.
    unfold NumText.is_white, NumText.is_line_terminator.
    repeat (apply orb_false_iff; split); apply N.eqb_neq; lia. }
  rewrite Htrim.
  assert (Hsign : NumText.decimal_prefix (String d rest)
                  = NumText.unsigned_decimal_prefix (String d rest)).
  { destruct d as [[] [] [] [] [] [] [] []];
      try (vm_compute in Hd; discriminate Hd); reflexivity. }
  rewrite Hsign. unfold NumText.unsigned_decimal_prefix.
  assert (Hinf : NumText.starts_with "Infinity" (String d rest) = false).
  { destruct d as [[] [] [] [] [] [] [] []];
      try (vm_compute in Hd; discriminate Hd); reflexivity. }
  rewrite Hinf. cbn [NumText.span_digits]. rewrite Hd.
  pose proof (span_digits_digits rest) as Hip.
  destruct (NumText.span_digits rest) as [ds r1]. cbn [fst] in Hip.
  assert (Hip' : Pattern.all_chars NumText.is_digit (String d ds) = true)
    by (cbn; now rewrite Hd, Hip).
  assert (Hfrac : forall fp r2,
            Pattern.all_chars NumText.is_digit fp = true ->
            exists q,
              match
                match NumText.exponent_part r2 with
                | Some (e, r3) =>
                    Some (Finite (NumText.decimal_value (String d ds) fp e),
                          r3)
                | None =>
                    Some (Finite (NumText.decimal_value (String d ds) fp 0),
                          r2)
                end
              with
              | Some (v, _) => v
              | None => NaN
              end = Finite q /\ (0 <= q)%Q).
  { intros fp r2 Hfp. destruct (NumText.exponent_part r2) as [[e r3]|];
      eexists; (split; [reflexivity|]);
      apply decimal_value_nonneg; assumption. }
  destruct r1 as [|c r].
  - apply (Hfrac "" ""). reflexivity.
  - destruct (Ascii.eqb c ".") eqn:Hc.
    + apply Ascii.eqb_eq in Hc. subst c.
      pose proof (span_digits_digits r) as Hfp.
      destruct (NumText.span_digits r) as [fp r2]. cbn [fst] in Hfp.
      apply (Hfrac fp r2). exact Hfp.
    + assert (Hnot : match String c r with
                     | String "." r0 => NumText.span_digits r0
                     | _ => ("", String c r)
                     end = ("", String c r)).
      { destruct c as [[] [] [] [] [] [] [] []];
          try (cbn in Hc; discriminate Hc); reflexivity. }
      rewrite Hnot. apply (Hfrac "" (String c r)). reflexivity.
Qed.

Lemma balanceMatcher_groups s l :
  Pattern.balanceMatcher s = Some l ->
  exists whole d rest currency,
    l = [whole; String d rest; currency] /\ NumText.is_digit d = true.
Proof.
  unfold Pattern.balanceMatcher.
  destruct (Pattern.strip_prefix_ci _ s) as [[|d r]|]; try discriminate.
  destruct (NumText.is_digit d) eqn:Hd; try discriminate.
  destruct (Pattern.greedy_dots r) as [[[|c dots] cur]|]; try discriminate.
  intros [= <-]. eauto 10.
Qed.

(** X7: every balance either file extracts is a number, not NaN, and
    is not below zero: the first group of the pattern starts with a
    digit, so [parseFloat] reads a number and no sign. *)
Lemma extracted_amount_nonneg (page : Page) (b : BalanceRecord) :
  Part000.getK6Balance page = Return (Some b)
  \/ IndexJs.getK6Balance page = Return b ->
  Shape.not_below_zero (currentBalance b) = true.
Proof.
  unfold Part000.getK6Balance, IndexJs.getK6Balance, Pattern.test.
  destruct (Pattern.balanceMatcher (balanceString page)) as [l|] eqn:Hb.
  2:{ intros [H|H]; discriminate. }
  destruct (balanceMatcher_groups _ _ Hb)
    as [whole [d [rest [currency [-> Hd]]]]].
  destruct (parseFloat_digit_nonneg d rest Hd) as [q [Hq Hpos]].
  cbn [negb].
  destruct (Pattern.dateMatcher (dateString page)) as [l'|].
  2:{ intros [H|H]; discriminate. }
  cbn [negb].
  assert (Hok : Shape.not_below_zero
                  (parseFloat (item [whole; String d rest; currency] 1))
                = true).
  { change (parseFloat (item [whole; String d rest; currency] 1))
      with (NumText.parseFloat (String d rest)).
    rewrite Hq. cbn [Shape.not_below_zero]. apply Qle_bool_iff. exact Hpos. }
  intros [[= <-]|[= <-]]; exact Hok.
Qed.

(** In the sibling file a pattern that does not match gives [false]. *)
Lemma sibling_extraction_fails page :
  Pattern.balanceMatcher (balanceString page) = None
  \/ Pattern.dateMatcher (dateString page) = None ->
  Part000.getK6Balance page = Return None.
Proof.
  unfold Part000.getK6Balance, Pattern.test.
  intros [H|H].
  - rewrite H. reflexivity.
  - destruct (Pattern.balanceMatcher (balanceString page)); [|reflexivity].
    cbn [negb]. rewrite H. reflexivity.
Qed.

(** X6: the sibling file answers a page it cannot read with the error
    object, and with nothing else. *)
Lemma sibling_answers_with_error clock holidays_default env fuel page w :
  Pattern.balanceMatcher (balanceString page) = None
  \/ Pattern.dateMatcher (dateString page) = None ->
  Part000.handler clock holidays_default env fuel page w
  = Some (json_error "Could not obtain account balance", w).
Proof.
  intros H. apply handler_no_balance. apply sibling_extraction_fails. exact H.
Qed.

Lemma sibling_answers_with_error_witness :
  (Pattern.balanceMatcher (balanceString bad_page) = None
   \/ Pattern.dateMatcher (dateString bad_page) = None)
  /\ Part000.handler (at_time tuesday_10h) norway (mkEnv 21 "25") 0
       bad_page fresh
     = Some (json_error "Could not obtain account balance", fresh).
Proof.
  split; [left; vm_compute; reflexivity|].
  apply (sibling_answers_with_error (at_time tuesday_10h) norway
           (mkEnv 21 "25") 0 bad_page fresh).
  left. vm_compute. reflexivity.
Defined.

Lemma extracted_amount_nonneg_witness :
  (Part000.getK6Balance good_page
   = Return (Some {| currentBalance := Finite (130 # 1);
                     balanceCurrencyUnit := undefined;
                     lastToppedUpUTC := DateObj.local 2024 2 1 10 30 0 0 |})
   \/ IndexJs.getK6Balance good_page
      = Return {| currentBalance := Finite (130 # 1);
                  balanceCurrencyUnit := undefined;
                  lastToppedUpUTC := DateObj.local 2024 2 1 10 30 0 0 |})
  /\ Shape.not_below_zero
       (currentBalance
          {| currentBalance := Finite (130 # 1);
             balanceCurrencyUnit := undefined;
             lastToppedUpUTC := DateObj.local 2024 2 1 10 30 0 0 |})
     = true.
Proof.
  split; [left; vm_compute; reflexivity|].
  apply (extracted_amount_nonneg good_page).
  left. vm_compute. reflexivity.
Defined.

(** C3 (the code breaks it): on a page whose balance line does not
    match, [src/index.js] indexes [null]: the handler rejects with a
    TypeError and sends nothing, where the sibling file sends the error
    object. *)
Theorem index_js_rejects_without_answer :
  Pattern.balanceMatcher (balanceString bad_page) = None
  /\ (exists w',
        IndexJs.handler (at_time tuesday_10h) norway (mkEnv 21 "25") 10
          bad_page fresh
        = Some (unhandled_rejection
                  (TypeError "Cannot read properties of null (reading '1')"),
                w'))
  /\ Part000.handler (at_time tuesday_10h) norway (mkEnv 21 "25") 10
       bad_page fresh
     = Some (json_error "Could not obtain account balance", fresh).
Proof.
  split; [vm_compute; reflexivity|].
  split; [eexists; vm_compute; reflexivity|vm_compute; reflexivity].
Qed.

(** C4 (the code breaks it): every record the sibling file extracts
    has [undefined] for its currency unit: it reads index 80 of a match
    array of three. *)
Theorem sibling_currency_unit_undefined (page : Page) (b : BalanceRecord) :
  Part000.getK6Balance page = Return (Some b) ->
  balanceCurrencyUnit b = undefined.
Proof.
  unfold Part000.getK6Balance, Pattern.test.
  destruct (Pattern.balanceMatcher (balanceString page)) as [l|] eqn:Hb;
    [|discriminate].
  destruct (balanceMatcher_groups _ _ Hb)
    as [whole [d [rest [currency [-> _]]]]].
  cbn [negb].
  destruct (Pattern.dateMatcher (dateString page)) as [l'|]; [|discriminate].
  cbn [negb]. intros [= <-]. reflexivity.
Qed.

Lemma sibling_currency_unit_undefined_witness :
  Part000.getK6Balance good_page
  = Return (Some {| currentBalance := Finite (130 # 1);
                    balanceCurrencyUnit := undefined;
                    lastToppedUpUTC := DateObj.local 2024 2 1 10 30 0 0 |})
  /\ balanceCurrencyUnit
       {| currentBalance := Finite (130 # 1);
          balanceCurrencyUnit := undefined;
          lastToppedUpUTC := DateObj.local 2024 2 1 10 30 0 0 |}
     = undefined.
Proof.
  split; [vm_compute; reflexivity|].
  apply (sibling_currency_unit_undefined good_page). vm_compute. reflexivity.
Defined.

(** In [src/index.js] the currency unit is the second group, which
    the [i] flag lets be in lower case. *)
Lemma index_js_currency_unit_lower_case :
  IndexJs.getK6Balance
    {| balanceString := "Saldo: 130 kr"; dateString := "01.02.2024 10:30" |}
  = Return {| currentBalance := Finite (130 # 1);
              balanceCurrencyUnit := text "kr";
              lastToppedUpUTC := DateObj.local 2024 2 1 10 30 0 0 |}.
Proof. vm_compute. reflexivity. Qed.

(** *** The report *)

(** The sibling file computes the three numbers of the specification,
    for every balance, price and weekday count. *)
Lemma sibling_report_is_computeReport env balance weekdays :
  derived (report_of env balance weekdays)
  = computeReport (currentBalance balance) (Part000.pricePerMeal env) weekdays.
Proof. reflexivity. Qed.

(** [src/index.js] computes them too when the price text is a plain
    number, read alike by [parseFloat] and by the multiplication. *)
Lemma index_js_report_is_computeReport env balance weekdays :
  NumText.ToNumber (PRICE_PER_MEAL env)
  = NumText.parseFloat (PRICE_PER_MEAL env) ->
  derived (index_report_of env balance weekdays)
  = computeReport (currentBalance balance) (IndexJs.pricePerMeal env) weekdays.
Proof.
  intros H. unfold derived, index_report_of, computeReport.
  cbn [r_currentBalanceInNumberOfMeals r_mealsNeeded r_topupNeeded].
  rewrite H. reflexivity.
Qed.

(** Every report the sibling file sends holds the three numbers of
    the specification: the whole meals in the balance, the meals needed
    and the top-up, negative ones as they come. *)
Lemma sibling_report_formulas clock holidays_default env fuel page w r w' :
  Part000.handler clock holidays_default env fuel page w
  = Some (json_report r, w') ->
  derived r
  = computeReport (r_currentBalance r) (Part000.pricePerMeal env)
      (r_weekdaysUntilNextPayment r)
  /\ r_pricePerMeal r = Part000.pricePerMeal env.
Proof.
  unfold Part000.handler, Part000.generateBalanceData, bind.
  destruct (Part000.getK6Balance page) as [[balance|]|e];
    [|intros [= ]|intros [= ]].
  destruct (moment clock w) as [[now w1]|]; [|discriminate].
  destruct (Part000.getNextPayDate clock holidays_default env fuel w1)
    as [[nextPayDate w2]|]; [|discriminate].
  destruct (Part000.calculateWeekdaysBetweenDates fuel now nextPayDate w2)
    as [[weekdays w3]|]; [|discriminate].
  unfold ret. intros [= <- <-]. split; reflexivity.
Qed.

Lemma sibling_report_formulas_witness :
  let balance :=
    {| currentBalance := Finite (130 # 1);
       balanceCurrencyUnit := undefined;
       lastToppedUpUTC := DateObj.local 2024 2 1 10 30 0 0 |} in
  let r := report_of (mkEnv 21 "25") balance 3 in
  let w' :=
    {| heap := [mkMoment tuesday_10h;
                mkMoment (DateObj.local 2024 12 17 0 0 0 0);
                mkMoment tuesday_10h];
       reads := 4 |} in
  Part000.handler (at_time tuesday_10h) norway (mkEnv 21 "25") 10
    good_page fresh
  = Some (json_report r, w')
  /\ (derived r
      = computeReport (r_currentBalance r)
          (Part000.pricePerMeal (mkEnv 21 "25"))
          (r_weekdaysUntilNextPayment r)
      /\ r_pricePerMeal r = Part000.pricePerMeal (mkEnv 21 "25")).
Proof.
  cbv zeta. split; [vm_compute; reflexivity|].
  apply (sibling_report_formulas (at_time tuesday_10h) norway
           (mkEnv 21 "25") 10 good_page fresh _
           {| heap := [mkMoment tuesday_10h;
                       mkMoment (DateObj.local 2024 12 17 0 0 0 0);
                       mkMoment tuesday_10h];
              reads := 4 |}).
  vm_compute. reflexivity.
Defined.

(** C6 (the code breaks it): with the price written [25,50],
    [parseFloat] reads 25, the balance is 130 and three weekdays
    remain, so the three numbers should be 5, -2 and -50; [src/index.js]
    multiplies by the text itself, which is not a number, and reports
    NaN as the top-up.  The sibling file reports -50. *)
Theorem index_js_topup_from_price_text :
  IndexJs.pricePerMeal (mkEnv 21 "25,50") = Finite (25 # 1)
  /\ computeReport (Finite (130 # 1)) (Finite (25 # 1)) 3
     = (Finite (5 # 1), Finite (-2 # 1), Finite (-50 # 1))
  /\ (exists r w',
        IndexJs.handler (at_time tuesday_10h) norway (mkEnv 21 "25,50") 10
          good_page fresh
        = Some (json_report r, w')
        /\ r_currentBalance r = Finite (130 # 1)
        /\ r_weekdaysUntilNextPayment r = 3
        /\ derived r = (Finite (5 # 1), Finite (-2 # 1), NaN))
  /\ (exists r w',
        Part000.handler (at_time tuesday_10h) norway (mkEnv 21 "25,50") 10
          good_page fresh
        = Some (json_report r, w')
        /\ derived r = (Finite (5 # 1), Finite (-2 # 1), Finite (-50 # 1))).
Proof.
  split; [vm_compute; reflexivity|].
  split; [vm_compute; reflexivity|].
  split.
  - eexists _, _. split; [vm_compute; reflexivity|].
    split; [reflexivity|]. split; reflexivity.
  - eexists _, _. split; [vm_compute; reflexivity|]. reflexivity.
Qed.

(** With enough fuel the sibling file answers a page it can read with
    the report, whatever the settings are. *)
Lemma sibling_answers_with_report clock holidays_default env page w balance :
  Part000.getK6Balance page = Return (Some balance) ->
  exists fuel0, forall fuel, (fuel0 <= fuel)%nat ->
    exists weekdays w',
      Part000.handler clock holidays_default env fuel page w
      = Some (json_report (report_of env balance weekdays), w').
Proof.
  intros Hk.
  destruct (payday_in_total clock holidays_default env
              (after_moment clock w)) as [t' Ht'].
  exists (request_fuel clock holidays_default w t'). intros fuel Hfuel.
  destruct (handler_run clock holidays_default env fuel page w balance t'
              Hk Ht' Hfuel) as [w' Hrun].
  eauto.
Qed.

(** So does [src/index.js]. *)
Lemma index_js_answers_with_report clock holidays_default env page w balance :
  IndexJs.getK6Balance page = Return balance ->
  exists fuel0, forall fuel, (fuel0 <= fuel)%nat ->
    exists weekdays w',
      IndexJs.handler clock holidays_default env fuel page w
      = Some (json_report (index_report_of env balance weekdays), w').
Proof.
  intros Hk.
  destruct (payday_in_total clock holidays_default env w) as [t1 Ht1].
  destruct (payday_in_total clock holidays_default env
              (after_moment clock (after_payday clock w t1))) as [t2 Ht2].
  exists (index_request_fuel clock holidays_default w t1). intros fuel Hfuel.
  destruct (IndexJs_handler_run clock holidays_default env fuel page w t1 t2
              Ht1 Ht2 Hfuel) as [w' Hrun].
  unfold index_response in Hrun. rewrite Hk in Hrun. eauto.
Qed.

Lemma div_by_zero_not_finite (amount : number) (p : Q) :
  (p == 0)%Q -> is_finite (floor (div amount (Finite p))) = false.
Proof.
  intros Hp. apply Qeq_bool_iff in Hp.
  destruct amount as [|a| |]; cbn [div floor is_finite]; try reflexivity.
  - rewrite Hp. destruct (Qeq_bool a 0); [reflexivity|].
    destruct (Qle_bool 0 a); reflexivity.
  - destruct (Qle_bool 0 p); reflexivity.
  - destruct (Qle_bool 0 p); reflexivity.
Qed.

(** C5, as the code has it: nothing guards the division.  With a price
    of 0 or less both files still answer a readable page with a report,
    computed by the same three formulas; the price 0 gives an infinity
    or NaN for the meals in the balance. *)
Theorem report_without_price_guard clock holidays_default env
    (page : Page) (w : World) (p : Q) :
  Part000.pricePerMeal env = Finite p ->
  (p <= 0)%Q ->
  (forall balance,
     Part000.getK6Balance page = Return (Some balance) ->
     exists fuel0, forall fuel, (fuel0 <= fuel)%nat ->
       exists weekdays w',
         Part000.handler clock holidays_default env fuel page w
         = Some (json_report (report_of env balance weekdays), w')
         /\ derived (report_of env balance weekdays)
            = computeReport (currentBalance balance) (Finite p) weekdays)
  /\ (forall balance,
        IndexJs.getK6Balance page = Return balance ->
        exists fuel0, forall fuel, (fuel0 <= fuel)%nat ->
          exists weekdays w',
            IndexJs.handler clock holidays_default env fuel page w
            = Some (json_report (index_report_of env balance weekdays), w'))
  /\ ((p == 0)%Q ->
      forall amount, is_finite (floor (div amount (Finite p))) = false).
Proof.
  intros Hprice Hp. split; [|split].
  - intros balance Hk.
    destruct (sibling_answers_with_report clock holidays_default env page w
                balance Hk) as [fuel0 Hrun].
    exists fuel0. intros fuel Hfuel.
    destruct (Hrun fuel Hfuel) as [weekdays [w' Hw']].
    exists weekdays, w'. split; [exact Hw'|].
    rewrite sibling_report_is_computeReport, Hprice. reflexivity.
  - intros balance Hk.
    apply index_js_answers_with_report. exact Hk.
  - intros H0 amount. apply div_by_zero_not_finite. exact H0.
Qed.

Lemma report_without_price_guard_witness :
  (Part000.pricePerMeal (mkEnv 21 "-5") = Finite (-5 # 1)
   /\ (-5 # 1 <= 0)%Q)
  /\ ((forall balance,
         Part000.getK6Balance good_page = Return (Some balance) ->
         exists fuel0, forall fuel, (fuel0 <= fuel)%nat ->
           exists weekdays w',
             Part000.handler (at_time tuesday_10h) norway (mkEnv 21 "-5")
               fuel good_page fresh
             = Some (json_report (report_of (mkEnv 21 "-5") balance weekdays),
                     w')
             /\ derived (report_of (mkEnv 21 "-5") balance weekdays)
                = computeReport (currentBalance balance) (Finite (-5 # 1))
                    weekdays)
      /\ (forall balance,
            IndexJs.getK6Balance good_page = Return balance ->
            exists fuel0, forall fuel, (fuel0 <= fuel)%nat ->
              exists weekdays w',
                IndexJs.handler (at_time tuesday_10h) norway (mkEnv 21 "-5")
                  fuel good_page fresh
                = Some (json_report
                          (index_report_of (mkEnv 21 "-5") balance weekdays),
                        w'))
      /\ ((-5 # 1 == 0)%Q ->
          forall amount,
            is_finite (floor (div amount (Finite (-5 # 1)))) = false)).
Proof.
  split.
  - split; [vm_compute; reflexivity|]. vm_compute. discriminate.
  - apply (report_without_price_guard (at_time tuesday_10h) norway
             (mkEnv 21 "-5") good_page fresh (-5 # 1));
      [vm_compute; reflexivity|vm_compute; discriminate].
Defined.

(** C5 as stated fails: with the price -5 the sibling file answers
    with a report of -26 meals in the balance, 29 meals needed and a
    top-up of -145. *)
Lemma report_for_a_negative_price :
  Part000.pricePerMeal (mkEnv 21 "-5") = Finite (-5 # 1)
  /\ exists r w',
       Part000.handler (at_time tuesday_10h) norway (mkEnv 21 "-5") 10
         good_page fresh
       = Some (json_report r, w')
       /\ r_weekdaysUntilNextPayment r = 3
       /\ derived r = (Finite (-26 # 1), Finite (29 # 1), Finite (-145 # 1)).
Proof.
  split; [vm_compute; reflexivity|].
  eexists _, _. split; [vm_compute; reflexivity|].
  split; reflexivity.
Qed.

(** *** Start of the process *)

(** C7, as the code has it: the top-level code validates nothing.
    For every integer payment day, inside 1..31 or not, and every price
    text, a positive number or not, both files go on to listen, with
    the payment day as given and the price as [parseFloat] read it, and
    the sibling file answers every page it can read with a report that
    carries this price and the three numbers computed from it. *)
Theorem no_validation_at_start clock holidays_default (env : Env)
    (page : Page) (w : World) :
  Part000.main env
  = listening (PAYMENT_DAY_IN_MONTH env)
              (NumText.parseFloat (PRICE_PER_MEAL env))
  /\ IndexJs.main env
     = listening (PAYMENT_DAY_IN_MONTH env)
                 (NumText.parseFloat (PRICE_PER_MEAL env))
  /\ (forall message,
        Part000.main env <> exited message
        /\ IndexJs.main env <> exited message)
  /\ (forall balance,
        Part000.getK6Balance page = Return (Some balance) ->
        exists fuel0, forall fuel, (fuel0 <= fuel)%nat ->
          exists weekdays w',
            Part000.handler clock holidays_default env fuel page w
            = Some (json_report (report_of env balance weekdays), w')
            /\ r_pricePerMeal (report_of env balance weekdays)
               = NumText.parseFloat (PRICE_PER_MEAL env)
            /\ derived (report_of env balance weekdays)
               = computeReport (currentBalance balance)
                   (NumText.parseFloat (PRICE_PER_MEAL env)) weekdays).
Proof.
  split; [reflexivity|]. split; [reflexivity|]. split.
  - intros message. split; discriminate.
  - intros balance Hk.
    destruct (sibling_answers_with_report clock holidays_default env page w
                balance Hk) as [fuel0 Hrun].
    exists fuel0. intros fuel Hfuel.
    destruct (Hrun fuel Hfuel) as [weekdays [w' Hw']].
    exists weekdays, w'. split; [exact Hw'|].
    split; [reflexivity|]. apply sibling_report_is_computeReport.
Qed.

(** C7 as stated fails: with payment day 40 and price -5 both files
    listen, and the sibling file answers a request with a report that
    carries the price -5. *)
Lemma listening_with_bad_settings :
  ~ (1 <= PAYMENT_DAY_IN_MONTH (mkEnv 40 "-5") <= 31)
  /\ Part000.pricePerMeal (mkEnv 40 "-5") = Finite (-5 # 1)
  /\ Part000.main (mkEnv 40 "-5") = listening 40 (Finite (-5 # 1))
  /\ IndexJs.main (mkEnv 40 "-5") = listening 40 (Finite (-5 # 1))
  /\ exists r w',
       Part000.handler (at_time tuesday_10h) norway (mkEnv 40 "-5") 30
         good_page fresh
       = Some (json_report r, w')
       /\ r_pricePerMeal r = Finite (-5 # 1).
Proof.
  split; [cbn; lia|].
  split; [vm_compute; reflexivity|].
  split; [vm_compute; reflexivity|].
  split; [vm_compute; reflexivity|].
  eexists _, _. split; vm_compute; reflexivity.
Qed.

End Properties.

(** ** More about the calendar, the texts and the loops *)

Module CalendarInverse.
Import Calendar CalendarFacts.

Lemma year_and_day_of_era_unique yoe doy :
  0 <= yoe <= 399 ->
  0 <= doy < (if isLeapYear (yoe + 1) then 366 else 365) ->
  year_and_day_of_era (doe_of_yoe yoe + doy) = (yoe, doy).
Proof.
  intros Hy [Hd0 Hd].
  assert (Hleap : isLeapYear (yoe + 1) = true ->
                  (yoe + 1) mod 4 = 0 /\ ((yoe + 1) mod 100 <> 0 \/ yoe = 399)).
  { unfold isLeapYear. intros H. apply orb_true_iff in H as [H|H].
    - apply andb_true_iff in H as [H1 H2]. apply Z.eqb_eq in H1.
      apply negb_true_iff, Z.eqb_neq in H2. split; [exact H1|left; exact H2].
    - apply Z.eqb_eq in H. split.
      + Z.div_mod_to_equations. lia.
      + right. Z.div_mod_to_equations. lia. }
  assert (Hdoy : doy <= 364
                 \/ (doy = 365 /\ (yoe + 1) mod 4 = 0
                     /\ ((yoe + 1) mod 100 <> 0 \/ yoe = 399))).
  { destruct (isLeapYear (yoe + 1)); [|lia].
    destruct (Z.eq_dec doy 365); [|lia].
    right. split; [assumption|apply Hleap; reflexivity]. }
  clear Hleap Hd.
  unfold year_and_day_of_era, doe_of_yoe, daysPerCentury, daysPerFourYears.
  f_equal; Z.div_mod_to_equations; lia.
Qed.

Lemma month_of_doy_unique mp d :
  0 <= mp <= 11 ->
  1 <= d <= (if mp =? 11 then 29 else doy_of_mp (mp + 1) - doy_of_mp mp) ->
  mp_of_doy (doy_of_mp mp + d - 1) = mp.
Proof.
  intros Hmp Hd. unfold mp_of_doy, doy_of_mp in *.
  destruct (mp =? 11) eqn:E; Z.div_mod_to_equations; lia.
Qed.

Lemma daysInMonth_cases y m :
  1 <= m <= 12 ->
  daysInMonth y (m - 1)
  = if m =? 2 then (if isLeapYear y then 29 else 28)
    else if (m =? 4) || (m =? 6) || (m =? 9) || (m =? 11) then 30 else 31.
Proof.
  intros Hm. unfold daysInMonth.
  rewrite (Z.mod_small (m - 1) 12) by lia.
  replace ((m - 1 - (m - 1)) / 12) with 0 by (rewrite Z.sub_diag; reflexivity).
  rewrite Z.add_0_r.
  assert (Hc : m = 1 \/ m = 2 \/ m = 3 \/ m = 4 \/ m = 5 \/ m = 6 \/ m = 7
               \/ m = 8 \/ m = 9 \/ m = 10 \/ m = 11 \/ m = 12) by lia.
  destruct Hc as [->|[->|[->|[->|[->|[->|[->|[->|[->|[->|[->| ->]]]]]]]]]]];
    reflexivity.
Qed.

Lemma isLeapYear_shift y k : isLeapYear (y + 400 * k) = isLeapYear y.
Proof.
  unfold isLeapYear.
  replace ((y + 400 * k) mod 4) with (y mod 4)
    by (Z.div_mod_to_equations; lia).
  replace ((y + 400 * k) mod 100) with (y mod 100)
    by (Z.div_mod_to_equations; lia).
  replace ((y + 400 * k) mod 400) with (y mod 400)
    by (Z.div_mod_to_equations; lia).
  reflexivity.
Qed.

(** [civil_from_days] undoes [days_from_civil] on the dates of the
    calendar. *)
Lemma civil_from_days_from_civil y m d :
  1 <= m <= 12 -> 1 <= d <= daysInMonth y (m - 1) ->
  civil_from_days (days_from_civil y m d) = (y, m, d).
Proof.
  intros Hm Hd. rewrite daysInMonth_cases in Hd by exact Hm.
  unfold days_from_civil.
  set (y' := if m <=? 2 then y - 1 else y).
  set (mp := if 2 <? m then m - 3 else m + 9).
  assert (Hmp : 0 <= mp <= 11) by (unfold mp; destruct (2 <? m) eqn:E; lia).
  pose proof (Z.div_mod y' 400 ltac:(lia)) as Hdm.
  pose proof (Z.mod_pos_bound y' 400 ltac:(lia)) as Hyoe.
  set (era := y' / 400) in *. set (yoe := y' mod 400) in *.
  assert (Hleap : m = 2 -> isLeapYear y = isLeapYear (yoe + 1)).
  { intros ->. unfold y' in Hdm. cbn in Hdm.
    replace y with (yoe + 1 + 400 * era) by lia. apply isLeapYear_shift. }
  set (doy := doy_of_mp mp + d - 1).
  assert (Hlo : 0 <= doy).
  { unfold doy, doy_of_mp. Z.div_mod_to_equations. lia. }
  assert (Hhi : doy <= 364 \/ (doy <= 365 /\ m = 2 /\ isLeapYear y = true)).
  { unfold doy, mp, doy_of_mp.
    assert (Hc : m = 1 \/ m = 2 \/ m = 3 \/ m = 4 \/ m = 5 \/ m = 6 \/ m = 7
               \/ m = 8 \/ m = 9 \/ m = 10 \/ m = 11 \/ m = 12) by lia.
    destruct Hc as [->|[->|[->|[->|[->|[->|[->|[->|[->|[->|[->| ->]]]]]]]]]]];
      cbn in Hd |- *; try (left; Z.div_mod_to_equations; lia).
    destruct (isLeapYear y); [right|left]; Z.div_mod_to_equations; lia. }
  assert (Hdoy : 0 <= doy < (if isLeapYear (yoe + 1) then 366 else 365)).
  { destruct Hhi as [Hhi|[Hhi [H2 Hl]]].
    - destruct (isLeapYear (yoe + 1)); lia.
    - rewrite <- (Hleap H2), Hl. lia. }
  assert (Hunique := year_and_day_of_era_unique yoe doy ltac:(lia) Hdoy).
  assert (Hmonth : mp_of_doy doy = mp /\ doy - doy_of_mp mp + 1 = d).
  { split; [|unfold doy; lia]. unfold doy.
    apply month_of_doy_unique; [exact Hmp|].
    unfold mp, doy_of_mp.
    assert (Hc : m = 1 \/ m = 2 \/ m = 3 \/ m = 4 \/ m = 5 \/ m = 6 \/ m = 7
               \/ m = 8 \/ m = 9 \/ m = 10 \/ m = 11 \/ m = 12) by lia.
    destruct Hc as [->|[->|[->|[->|[->|[->|[->|[->|[->|[->|[->| ->]]]]]]]]]]];
      cbn in Hd;
      match goal with
      | |- _ <= _ <= ?b => let v := eval vm_compute in b in change b with v
      end;
      try lia.
    destruct (isLeapYear y); lia. }
  assert (Hdoe : 0 <= doe_of_yoe yoe + doy < daysPerEra).
  { unfold doe_of_yoe, daysPerEra.
    assert (doy <= 364 \/ (doy = 365 /\ isLeapYear (yoe + 1) = true)).
    { destruct (isLeapYear (yoe + 1)); lia. }
    destruct H as [H|[H Hl]].
    - Z.div_mod_to_equations. lia.
    - Z.div_mod_to_equations. lia. }
  unfold civil_from_days.
  replace (era * daysPerEra + (doe_of_yoe yoe + doy) - epochShift + epochShift)
    with (doe_of_yoe yoe + doy + era * daysPerEra) by lia.
  rewrite Z.div_add by (unfold daysPerEra; lia).
  rewrite Z.mod_add by (unfold daysPerEra; lia).
  rewrite (Z.div_small _ _ Hdoe), (Z.mod_small _ _ Hdoe).
  rewrite Hunique. destruct Hmonth as [-> ->].
  unfold mp, y' in *. 
  destruct (2 <? m) eqn:E.
  - assert ((m <=? 2) = false) as E' by lia. rewrite E' in *.
    destruct (m - 3 <? 10) eqn:E3.
    + replace (m - 3 + 3) with m by lia. rewrite E'. f_equal. f_equal. lia.
    + replace (m - 3 - 9) with (m - 12) by lia.
      assert ((m - 12 <=? 2) = true) as E4 by lia. lia.
  - assert ((m <=? 2) = true) as E' by lia. rewrite E' in *.
    assert ((m + 9 <? 10) = false) as E3 by lia. rewrite E3.
    replace (m + 9 - 9) with m by lia. rewrite E'. f_equal. f_equal. lia.
Qed.

End CalendarInverse.

Module DateInverse.
Import Calendar CalendarFacts CalendarInverse DateObj DateFacts.

Lemma MakeDay_civil y m d :
  1 <= m <= 12 -> MakeDay y (m - 1) d = days_from_civil y m d.
Proof.
  intros Hm. unfold MakeDay.
  replace ((m - 1) / 12) with 0 by (symmetry; apply Z.div_small; lia).
  rewrite Z.mod_small by lia.
  replace (m - 1 + 1) with m by lia. rewrite Z.add_0_r.
  unfold days_from_civil. lia.
Qed.

Lemma MakeTime_range hh mm ss ms :
  0 <= hh < 24 -> 0 <= mm < 60 -> 0 <= ss < 60 -> 0 <= ms < 1000 ->
  0 <= MakeTime hh mm ss ms < msPerDay.
Proof. unfold MakeTime, msPerDay. lia. Qed.

Lemma TimeWithinDay_MakeDate day time :
  0 <= time < msPerDay -> TimeWithinDay (MakeDate day time) = time.
Proof.
  intros H. unfold TimeWithinDay, MakeDate.
  rewrite Z.add_comm, Z.mod_add by (unfold msPerDay; lia).
  apply Z.mod_small. exact H.
Qed.

Lemma time_fields hh mm ss ms :
  0 <= hh < 24 -> 0 <= mm < 60 -> 0 <= ss < 60 -> 0 <= ms < 1000 ->
  let T := MakeTime hh mm ss ms in
  T / 3600000 = hh /\ (T / 60000) mod 60 = mm
  /\ (T / 1000) mod 60 = ss /\ T mod 1000 = ms.
Proof.
  intros Hh Hm Hs Hms. unfold MakeTime. cbv zeta.
  repeat split; Z.div_mod_to_equations; lia.
Qed.

(** The getters of a [Date] built from a date of the calendar and a
    time of day give its fields back. *)
Lemma getters_local y m d hh mm ss ms :
  1 <= m <= 12 -> 1 <= d <= daysInMonth y (m - 1) ->
  0 <= hh < 24 -> 0 <= mm < 60 -> 0 <= ss < 60 -> 0 <= ms < 1000 ->
  let t := local y m d hh mm ss ms in
  getFullYear t = y /\ getMonth t = m - 1 /\ getDate t = d
  /\ HourFromTime t = hh /\ MinFromTime t = mm /\ SecFromTime t = ss
  /\ msFromTime t = ms.
Proof.
  intros Hm Hd Hh Hmi Hs Hms. cbv zeta.
  pose proof (MakeTime_range hh mm ss ms Hh Hmi Hs Hms) as HT.
  unfold getFullYear, getMonth, getDate, HourFromTime, MinFromTime,
    SecFromTime, msFromTime, local.
  rewrite Day_MakeDate by exact HT.
  rewrite TimeWithinDay_MakeDate by exact HT.
  unfold year_of_day, month_of_day, date_of_day.
  rewrite civil_from_days_from_civil by assumption. cbn [fst snd].
  destruct (time_fields hh mm ss ms Hh Hmi Hs Hms) as [H1 [H2 [H3 H4]]].
  repeat split; try assumption; lia.
Qed.

End DateInverse.

Module PayDateFacts.

Import Calendar CalendarFacts CalendarInverse DateObj DateFacts DateInverse.
Import Heap Server Walk WalkFacts Trace Run.
Local Open Scope Z_scope.

Lemma field_ranges t :
  0 <= HourFromTime t < 24 /\ 0 <= MinFromTime t < 60
  /\ 0 <= SecFromTime t < 60 /\ 0 <= msFromTime t < 1000.
Proof.
  pose proof (TimeWithinDay_range t) as H.
  unfold HourFromTime, MinFromTime, SecFromTime, msFromTime.
  unfold msPerDay in H. repeat split; Z.div_mod_to_equations; lia.
Qed.

Lemma fields_MakeDate day hh mm ss ms :
  0 <= hh < 24 -> 0 <= mm < 60 -> 0 <= ss < 60 -> 0 <= ms < 1000 ->
  let t := MakeDate day (MakeTime hh mm ss ms) in
  Day t = day /\ HourFromTime t = hh /\ MinFromTime t = mm
  /\ SecFromTime t = ss /\ msFromTime t = ms.
Proof.
  intros Hh Hm Hs Hms. cbv zeta.
  pose proof (MakeTime_range hh mm ss ms Hh Hm Hs Hms) as HT.
  unfold HourFromTime, MinFromTime, SecFromTime, msFromTime.
  rewrite Day_MakeDate by exact HT.
  rewrite TimeWithinDay_MakeDate by exact HT.
  destruct (time_fields hh mm ss ms Hh Hm Hs Hms) as [H1 [H2 [H3 H4]]].
  repeat split; assumption.
Qed.

(** [set('hour', 0).set('minute', 0).set('second', 0)] keeps the day
    and the milliseconds. *)
Lemma start_of_day_keeps_ms t :
  setSeconds (setMinutes (setHours t 0) 0) 0
  = MakeDate (Day t) (MakeTime 0 0 0 (msFromTime t)).
Proof.
  destruct (field_ranges t) as [_ [Hm [Hs Hms]]].
  unfold setHours at 1.
  destruct (fields_MakeDate (Day t) 0 (MinFromTime t) (SecFromTime t)
              (msFromTime t) ltac:(lia) Hm Hs Hms) as [D1 [H1 [M1 [S1 MS1]]]].
  set (c1 := MakeDate (Day t) (MakeTime 0 (MinFromTime t) (SecFromTime t)
                                 (msFromTime t))) in *.
  unfold setMinutes. rewrite D1, H1, S1, MS1.
  destruct (fields_MakeDate (Day t) 0 0 (SecFromTime t)
              (msFromTime t) ltac:(lia) ltac:(lia) Hs Hms)
    as [D2 [H2 [M2 [S2 MS2]]]].
  set (c2 := MakeDate (Day t) (MakeTime 0 0 (SecFromTime t) (msFromTime t)))
    in *.
  unfold setSeconds. rewrite D2, H2, M2, MS2. reflexivity.
Qed.

Lemma msFromTime_shift t k : msFromTime (t + k * msPerDay) = msFromTime t.
Proof.
  unfold msFromTime, TimeWithinDay.
  rewrite Z.mod_add by (unfold msPerDay; lia). reflexivity.
Qed.

Lemma TimeWithinDay_shift t k :
  TimeWithinDay (t + k * msPerDay) = TimeWithinDay t.
Proof.
  unfold TimeWithinDay. apply Z.mod_add. unfold msPerDay; lia.
Qed.

Lemma month_range t : 1 <= getMonth t + 1 <= 12.
Proof.
  unfold getMonth, month_of_day.
  pose proof (civil_from_days_range (Day t)) as H.
  destruct (civil_from_days (Day t)) as [[y m] d]. cbn [fst snd]. lia.
Qed.

(** The payment day of the month of [t] at the start of the day,
    whatever the day number is: beyond the end of the month it runs over
    into the next. *)
Lemma payment_day_this_month t p :
  setSeconds (setMinutes (setHours (setDate t p) 0) 0) 0
  = local (getFullYear t) (getMonth t + 1) p 0 0 0 (msFromTime t).
Proof.
  rewrite start_of_day_keeps_ms, Day_setDate.
  rewrite setDate_shift, msFromTime_shift.
  unfold local. f_equal.
  rewrite <- MakeDay_civil by apply month_range.
  replace (getMonth t + 1 - 1) with (getMonth t) by lia.
  unfold getFullYear, getMonth, getDate. rewrite MakeDay_of_day. lia.
Qed.

Lemma daysInMonth_range y mo : 28 <= daysInMonth y mo <= 31.
Proof.
  unfold daysInMonth.
  destruct (mo mod 12 =? 1); [destruct (isLeapYear _); lia|].
  pose proof (Z.mod_pos_bound ((mo mod 12) mod 7) 2 ltac:(lia)). lia.
Qed.

Lemma days_from_civil_linear y m d :
  days_from_civil y m d = days_from_civil y m 1 + d - 1.
Proof. unfold days_from_civil. lia. Qed.

Lemma next_month_local y m p ms :
  1 <= m <= 12 -> 1 <= p <= 28 -> 0 <= ms < 1000 ->
  next_month (local y m p 0 0 0 ms)
  = local (if m =? 12 then y + 1 else y) (if m =? 12 then 1 else m + 1)
      p 0 0 0 ms.
Proof.
  intros Hm Hp Hms.
  pose proof (daysInMonth_range y (m - 1)) as Hdim.
  destruct (getters_local y m p 0 0 0 ms Hm ltac:(lia) ltac:(lia) ltac:(lia)
              ltac:(lia) Hms) as [Hy [Hmo [Hd _]]].
  unfold next_month, setMonth. rewrite !Hy, !Hmo, !Hd.
  replace (m - 1 + 1) with m by lia.
  pose proof (daysInMonth_range y m) as Hdim'.
  rewrite Z.min_l by lia.
  unfold local.
  rewrite TimeWithinDay_MakeDate
    by (apply MakeTime_range; lia).
  f_equal. unfold MakeDay.
  destruct (m =? 12) eqn:E.
  - apply Z.eqb_eq in E. subst m. change (12 / 12) with 1.
    change (12 mod 12 + 1) with 1.
    rewrite (days_from_civil_linear (y + 1) 1 p). reflexivity.
  - apply Z.eqb_neq in E.
    replace (m / 12) with 0 by (symmetry; apply Z.div_small; lia).
    rewrite Z.mod_small by lia. rewrite Z.add_0_r.
    rewrite (days_from_civil_linear y (m + 1) p). reflexivity.
Qed.

(** The date the walk of [getNextPayDate] starts from, for a payment
    day that every month has. *)
Lemma candidate_closed p t0 t1 y m ms :
  y = getFullYear t0 -> m = getMonth t0 + 1 -> ms = msFromTime t0 ->
  1 <= p <= 28 ->
  candidate p t0 t1
  = if local y m p 0 0 0 ms <? t1
    then local (if m =? 12 then y + 1 else y) (if m =? 12 then 1 else m + 1)
           p 0 0 0 ms
    else local y m p 0 0 0 ms.
Proof.
  intros -> -> -> Hp. unfold candidate.
  rewrite payment_day_this_month.
  destruct (field_ranges t0) as [_ [_ [_ Hms]]].
  rewrite next_month_local by (try apply month_range; assumption).
  reflexivity.
Qed.

End PayDateFacts.

Module MonthOrder.

Import Calendar CalendarFacts CalendarInverse DateObj DateFacts DateInverse.
Import PayDateFacts.
Local Open Scope Z_scope.

Lemma isLeapYear_cases y :
  (isLeapYear y = true /\ y mod 4 = 0 /\ (y mod 100 <> 0 \/ y mod 400 = 0))
  \/ (isLeapYear y = false
      /\ (y mod 4 <> 0 \/ (y mod 100 = 0 /\ y mod 400 <> 0))).
Proof.
  unfold isLeapYear.
  destruct (Z.eqb_spec (y mod 4) 0) as [E4|E4];
    destruct (Z.eqb_spec (y mod 100) 0) as [E100|E100];
    destruct (Z.eqb_spec (y mod 400) 0) as [E400|E400];
    cbn [andb orb negb].
  - left. split; [reflexivity|]. split; [assumption|right; assumption].
  - right. split; [reflexivity|]. right. split; assumption.
  - left. split; [reflexivity|]. split; [assumption|left; assumption].
  - left. split; [reflexivity|]. split; [assumption|left; assumption].
  - exfalso. Z.div_mod_to_equations. lia.
  - right. split; [reflexivity|]. left. assumption.
  - exfalso. Z.div_mod_to_equations. lia.
  - right. split; [reflexivity|]. left. assumption.
Qed.

(** The day after the last day of a month is the first of the next. *)
Lemma days_from_civil_next_month y m :
  1 <= m <= 12 ->
  days_from_civil y m (daysInMonth y (m - 1) + 1)
  = days_from_civil (if m =? 12 then y + 1 else y)
      (if m =? 12 then 1 else m + 1) 1.
Proof.
  intros Hm. rewrite daysInMonth_cases by exact Hm.
  assert (Hc : m = 1 \/ m = 2 \/ m = 3 \/ m = 4 \/ m = 5 \/ m = 6 \/ m = 7
               \/ m = 8 \/ m = 9 \/ m = 10 \/ m = 11 \/ m = 12) by lia.
  destruct Hc as [->|[->|[->|[->|[->|[->|[->|[->|[->|[->|[->| ->]]]]]]]]]]];
    cbv [Z.eqb Pos.eqb orb];
    repeat match goal with
      | |- context [Z.pos ?a + 1] =>
          let v := eval vm_compute in (Z.pos a + 1) in
          change (Z.pos a + 1) with v
      end;
    unfold days_from_civil, doy_of_mp, doe_of_yoe, daysPerEra, epochShift;
    cbv [Z.leb Z.ltb Z.compare Pos.compare Pos.compare_cont];
    try (Z.div_mod_to_equations; lia).
  destruct (isLeapYear_cases y) as [[-> [H4 H100]]|[-> H4]];
    Z.div_mod_to_equations; lia.
Qed.

(** The day of the month is within the length of the month. *)
Lemma date_within_month z :
  date_of_day z <= daysInMonth (year_of_day z) (month_of_day z - 1).
Proof.
  unfold date_of_day, year_of_day, month_of_day.
  pose proof (days_from_civil_from_days z) as Hrt.
  pose proof (civil_from_days_range z) as Hrg.
  destruct (civil_from_days z) as [[y m] d] eqn:Hc. cbn [fst snd].
  destruct Hrg as [Hm Hd].
  pose proof (daysInMonth_range y (m - 1)) as HL.
  destruct (Z_le_gt_dec d (daysInMonth y (m - 1))) as [Hle|Hgt];
    [exact Hle|exfalso].
  set (y2 := if m =? 12 then y + 1 else y).
  set (m2 := if m =? 12 then 1 else m + 1).
  assert (Hm2 : 1 <= m2 <= 12 /\ m2 <> m)
    by (unfold m2; destruct (m =? 12) eqn:E; lia).
  pose proof (daysInMonth_range y2 (m2 - 1)) as HL2.
  assert (Hz : z = days_from_civil y2 m2 (d - daysInMonth y (m - 1))).
  { rewrite <- Hrt.
    rewrite (days_from_civil_linear y m d).
    rewrite (days_from_civil_linear y2 m2 (d - daysInMonth y (m - 1))).
    pose proof (days_from_civil_next_month y m Hm) as Hadj.
    rewrite (days_from_civil_linear y m (daysInMonth y (m - 1) + 1)) in Hadj.
    fold y2 m2 in Hadj. lia. }
  rewrite Hz in Hc.
  rewrite civil_from_days_from_civil in Hc by lia.
  injection Hc as _ Hmm _. lia.
Qed.

(** A time in the month [m] of the year [y] is before the first day of
    the month after it. *)
Lemma before_next_month t :
  Day t < days_from_civil
            (if getMonth t + 1 =? 12 then getFullYear t + 1 else getFullYear t)
            (if getMonth t + 1 =? 12 then 1 else getMonth t + 1 + 1) 1.
Proof.
  pose proof (date_within_month (Day t)) as Hd.
  pose proof (days_from_civil_from_days (Day t)) as Hrt.
  pose proof (month_range t) as Hm.
  unfold getMonth, getFullYear in *.
  unfold date_of_day, year_of_day, month_of_day in *.
  destruct (civil_from_days (Day t)) as [[y m] d]. cbn [fst snd] in *.
  replace (m - 1 + 1) with m in * by lia.
  rewrite <- (days_from_civil_next_month y m Hm).
  rewrite <- Hrt at 1.
  rewrite (days_from_civil_linear y m d).
  rewrite (days_from_civil_linear y m (daysInMonth y (m - 1) + 1)). lia.
Qed.

Import Walk.

(** For a payment day that every month has, the date the walk starts
    from is not before the reading it was compared with when that
    reading is in the month of the first. *)
Lemma candidate_not_before p t0 t1 :
  1 <= p <= 28 ->
  getFullYear t1 = getFullYear t0 -> getMonth t1 = getMonth t0 ->
  t1 <= candidate p t0 t1.
Proof.
  intros Hp Hy Hm.
  rewrite (candidate_closed p t0 t1 _ _ _ eq_refl eq_refl eq_refl Hp).
  destruct (Z.ltb_spec (local (getFullYear t0) (getMonth t0 + 1) p 0 0 0
                          (msFromTime t0)) t1) as [Hlt|Hge]; [|exact Hge].
  pose proof (before_next_month t1) as Hnext. rewrite Hy, Hm in Hnext.
  set (y2 := if getMonth t0 + 1 =? 12 then getFullYear t0 + 1
             else getFullYear t0) in *.
  set (m2 := if getMonth t0 + 1 =? 12 then 1 else getMonth t0 + 1 + 1) in *.
  unfold local. rewrite (days_from_civil_linear y2 m2 p).
  destruct (field_ranges t0) as [_ [_ [_ Hms]]].
  pose proof (MakeDate_Day t1) as Ht1.
  pose proof (TimeWithinDay_range t1) as Hr1.
  unfold MakeDate, MakeTime in *. unfold msPerDay in *. nia.
Qed.

End MonthOrder.

Module PatternFacts.

Import NumText Pattern Shape.
Local Open Scope string_scope.
Local Open Scope Z_scope.

Lemma strip_prefix_ci_append p s : strip_prefix_ci p (p ++ s) = Some s.
Proof.
  induction p as [|c p IH]; cbn [strip_prefix_ci append]; [reflexivity|].
  rewrite Ascii.eqb_refl. exact IH.
Qed.

Lemma letter_not_space c : is_letter c = true -> Ascii.eqb c " " = false.
Proof.
  intros H. apply Ascii.eqb_neq. intros ->. vm_compute in H. discriminate.
Qed.

Lemma letter_not_terminator c :
  is_letter c = true -> is_line_terminator c = false.
Proof.
  unfold is_letter, is_line_terminator. intros H.
  apply orb_true_iff in H as [H|H]; apply andb_true_iff in H as [H1 H2];
    apply N.leb_le in H1, H2; apply orb_false_iff; split; apply N.eqb_neq; lia.
Qed.

(** A run of letters holds no space: nothing to split at. *)
Lemma greedy_dots_letters s :
  all_chars is_letter s = true -> greedy_dots s = None.
Proof.
  induction s as [|c s IH]; cbn [all_chars greedy_dots]; [reflexivity|].
  intros H. apply andb_true_iff in H as [Hc Hs].
  rewrite (letter_not_terminator c Hc), (IH Hs), (letter_not_space c Hc).
  reflexivity.
Qed.

(** The greedy run takes everything up to the last space when what
    follows it is a currency text. *)
Lemma greedy_dots_split dots cur :
  no_terminator dots = true -> currency_tail cur = true ->
  greedy_dots (dots ++ String " " cur) = Some (dots, cur).
Proof.
  intros Hd Hc. induction dots as [|c dots IH].
  - cbn [append greedy_dots].
    assert (Hl : all_chars is_letter cur = true).
    { unfold currency_tail in Hc. apply andb_true_iff in Hc as [_ Hc].
      exact Hc. }
    rewrite (greedy_dots_letters cur Hl).
    change (is_line_terminator " ") with false. cbv iota.
    rewrite Ascii.eqb_refl, Hc. reflexivity.
  - cbn [append greedy_dots]. unfold no_terminator in Hd. cbn [all_chars] in Hd.
    apply andb_true_iff in Hd as [Hc1 Hd]. apply negb_true_iff in Hc1.
    rewrite Hc1, (IH Hd). reflexivity.
Qed.

(** What a match of the greedy run says about the text. *)
Lemma greedy_dots_sound s : forall dots cur,
  greedy_dots s = Some (dots, cur) ->
  s = dots ++ String " " cur /\ currency_tail cur = true
  /\ no_terminator dots = true.
Proof.
  induction s as [|c s IH]; intros dots cur H; cbn [greedy_dots] in H;
    [discriminate|].
  destruct (is_line_terminator c) eqn:Ht.
  - destruct (Ascii.eqb c " ") eqn:Hs; [|discriminate].
    apply Ascii.eqb_eq in Hs. subst c. vm_compute in Ht. discriminate.
  - destruct (greedy_dots s) as [[dots' cur']|] eqn:Hg.
    + injection H as <- <-. destruct (IH _ _ eq_refl) as [-> [Hc Hd]].
      split; [reflexivity|]. split; [exact Hc|].
      unfold no_terminator. cbn [all_chars]. rewrite Ht. exact Hd.
    + destruct (Ascii.eqb c " ") eqn:Hs; [|discriminate].
      destruct (currency_tail s) eqn:Hc; [|discriminate].
      cbn [andb] in H. injection H as <- <-.
      apply Ascii.eqb_eq in Hs. subst c.
      split; [reflexivity|]. split; [exact Hc|reflexivity].
Qed.

(** The balance line [Saldo: <amount> <unit>] is matched with the two
    groups it was written from. *)
Lemma balanceMatcher_complete d rest cur :
  is_digit d = true -> rest <> "" -> no_terminator rest = true ->
  currency_tail cur = true ->
  balanceMatcher ("Saldo: " ++ String d rest ++ String " " cur)
  = Some ["Saldo: " ++ String d rest ++ String " " cur; String d rest; cur].
Proof.
  intros Hd Hne Hr Hc. unfold balanceMatcher.
  rewrite strip_prefix_ci_append. cbn [append]. rewrite Hd.
  rewrite (greedy_dots_split rest cur Hr Hc).
  destruct rest as [|c dots]; [contradiction|reflexivity].
Qed.

Lemma balanceMatcher_sound s l :
  balanceMatcher s = Some l ->
  exists d rest cur,
    l = [s; String d rest; cur]
    /\ strip_prefix_ci "Saldo: " s = Some (String d rest ++ String " " cur)
    /\ is_digit d = true /\ rest <> "" /\ no_terminator rest = true
    /\ currency_tail cur = true.
Proof.
  unfold balanceMatcher.
  destruct (strip_prefix_ci "Saldo: " s) as [[|d r]|] eqn:Hp; try discriminate.
  destruct (is_digit d) eqn:Hd; [|discriminate].
  destruct (greedy_dots r) as [[[|c dots] cur]|] eqn:Hg; try discriminate.
  intros [= <-]. destruct (greedy_dots_sound _ _ _ Hg) as [-> [Hc Hn]].
  exists d, (String c dots), cur. repeat split; try assumption.
  discriminate.
Qed.

(** An amount of one character leaves nothing for [.+]: no match. *)
Lemma balanceMatcher_single_character c cur :
  all_chars is_letter cur = true ->
  balanceMatcher ("Saldo: " ++ String c (String " " cur)) = None.
Proof.
  intros Hl. unfold balanceMatcher. rewrite strip_prefix_ci_append.
  destruct (is_digit c); [|reflexivity].
  cbn [greedy_dots]. rewrite (greedy_dots_letters cur Hl).
  change (is_line_terminator " ") with false. cbv iota.
  destruct (Ascii.eqb " " " " && currency_tail cur); reflexivity.
Qed.

End PatternFacts.

Module NumTextFacts.

Import Num NumText Pattern Shape.
Local Open Scope string_scope.
Local Open Scope Z_scope.

Lemma Qred_inject_Z n : Qred (inject_Z n) = inject_Z n.
Proof.
  unfold Qred, inject_Z.
  pose proof (Z.ggcd_gcd n 1) as Hg.
  pose proof (Z.ggcd_correct_divisors n 1) as Hd.
  destruct (Z.ggcd n 1) as [g [aa bb]]. cbn [fst snd] in *.
  rewrite Z.gcd_1_r in Hg. subst g. destruct Hd as [Ha Hb].
  replace aa with n by lia. replace bb with 1%Z by lia. reflexivity.
Qed.

Lemma decimal_value_integer ip :
  decimal_value ip "" 0 = inject_Z (digits_value ip).
Proof.
  unfold decimal_value.
  rewrite <- (Qred_inject_Z (digits_value ip)).
  apply Qred_complete.
  replace (ip ++ "") with ip by (induction ip as [|c s IH]; cbn; congruence).
  cbn [String.length Z.of_nat]. change (10 ^ 0)%Z with 1%Z.
  change (Qpower (10 # 1) 0) with 1%Q.
  rewrite Qmult_1_r. unfold Qdiv. change (/ inject_Z 1)%Q with 1%Q.
  rewrite Qmult_1_r. reflexivity.
Qed.

Lemma span_digits_stop ds c rest :
  all_chars is_digit ds = true -> is_digit c = false ->
  span_digits (ds ++ String c rest) = (ds, String c rest).
Proof.
  intros Hds Hc. induction ds as [|a ds IH].
  - cbn [append span_digits]. rewrite Hc. reflexivity.
  - cbn [all_chars] in Hds. apply andb_true_iff in Hds as [Ha Hds].
    cbn [append span_digits]. rewrite Ha, (IH Hds). reflexivity.
Qed.

Lemma span_digits_all ds :
  all_chars is_digit ds = true -> span_digits ds = (ds, "").
Proof.
  intros Hds. induction ds as [|a ds IH]; [reflexivity|].
  cbn [all_chars] in Hds. apply andb_true_iff in Hds as [Ha Hds].
  cbn [span_digits]. rewrite Ha, (IH Hds). reflexivity.
Qed.

Lemma digit_plain d :
  is_digit d = true ->
  is_white d = false /\ Ascii.eqb d "-" = false /\ Ascii.eqb d "+" = false
  /\ Ascii.eqb d "I" = false.
Proof.
  intros Hd. unfold is_digit in Hd. apply andb_true_iff in Hd as [H1 H2].
  apply N.leb_le in H1, H2.
  split.
  { unfold is_white, is_line_terminator.
    repeat (apply orb_false_iff; split); apply N.eqb_neq; lia. }
  repeat split; apply Ascii.eqb_neq; intros ->; vm_compute in H1, H2;
    try (apply H1; reflexivity); try (apply H2; reflexivity).
Qed.

(** [parseFloat] of a text that starts with digits and goes on with
    something else than a digit, a point or an exponent mark: the value
    of the digits; the rest is dropped. *)
Lemma parseFloat_integer_prefix d ds c rest :
  is_digit d = true -> all_chars is_digit ds = true ->
  ends_integer c = true ->
  parseFloat (String d ds ++ String c rest)
  = of_Z (digits_value (String d ds)).
Proof.
  intros Hd Hds Hc.
  unfold ends_integer in Hc.
  apply andb_true_iff in Hc as [Hc HE]. apply andb_true_iff in Hc as [Hc He].
  apply andb_true_iff in Hc as [Hc Hp].
  apply negb_true_iff in Hc, Hp, He, HE.
  destruct (digit_plain d Hd) as [Hw [Hm [Hpl HI]]].
  unfold parseFloat. cbn [append trim_start]. rewrite Hw.
  assert (Hsign : decimal_prefix (String d (ds ++ String c rest))
                  = unsigned_decimal_prefix (String d (ds ++ String c rest))).
  { unfold decimal_prefix.
    destruct d as [[] [] [] [] [] [] [] []];
      try (cbn in Hm; discriminate Hm); try (cbn in Hpl; discriminate Hpl);
      reflexivity. }
  rewrite Hsign. unfold unsigned_decimal_prefix.
  assert (Hinf : starts_with "Infinity" (String d (ds ++ String c rest))
                 = false).
  { unfold starts_with. cbn [String.prefix].
    destruct (ascii_dec "I" d) as [<-|Hne]; [discriminate HI|reflexivity]. }
  rewrite Hinf.
  change (String d (ds ++ String c rest)) with (String d ds ++ String c rest).
  rewrite (span_digits_stop (String d ds) c rest)
    by (cbn [all_chars]; rewrite Hd, Hds; reflexivity) || exact Hc.
  assert (Hfrac : match String c rest with
                  | String "." r => span_digits r
                  | _ => ("", String c rest)
                  end = ("", String c rest)).
  { destruct c as [[] [] [] [] [] [] [] []];
      try (cbn in Hp; discriminate Hp); reflexivity. }
  rewrite Hfrac.
  assert (Hexp : exponent_part (String c rest) = None).
  { unfold exponent_part.
    assert (Hcode : ((code c =? 101)%N || (code c =? 69)%N) = false).
    { destruct c as [[] [] [] [] [] [] [] []];
        try (cbn in He; discriminate He); try (cbn in HE; discriminate HE);
        reflexivity. }
    rewrite Hcode. reflexivity. }
  rewrite Hexp. rewrite decimal_value_integer. reflexivity.
Qed.

Lemma trim_end_digits s : all_chars is_digit s = true -> trim_end s = s.
Proof.
  induction s as [|c s IH]; [reflexivity|].
  cbn [all_chars]. intros H. apply andb_true_iff in H as [Hc Hs].
  cbn [trim_end]. rewrite (IH Hs).
  destruct s; [|reflexivity].
  destruct (digit_plain c Hc) as [Hw _]. rewrite Hw. reflexivity.
Qed.

Lemma decimal_prefix_digits d ds :
  is_digit d = true -> all_chars is_digit ds = true ->
  decimal_prefix (String d ds)
  = Some (of_Z (digits_value (String d ds)), "").
Proof.
  intros Hd Hds. destruct (digit_plain d Hd) as [Hw [Hm [Hpl HI]]].
  assert (Hsign : decimal_prefix (String d ds)
                  = unsigned_decimal_prefix (String d ds)).
  { unfold decimal_prefix.
    destruct d as [[] [] [] [] [] [] [] []];
      try (cbn in Hm; discriminate Hm); try (cbn in Hpl; discriminate Hpl);
      reflexivity. }
  rewrite Hsign. unfold unsigned_decimal_prefix.
  assert (Hinf : starts_with "Infinity" (String d ds) = false).
  { unfold starts_with. cbn [String.prefix].
    destruct (ascii_dec "I" d) as [<-|Hne]; [discriminate HI|reflexivity]. }
  rewrite Hinf.
  rewrite (span_digits_all (String d ds))
    by (cbn [all_chars]; rewrite Hd, Hds; reflexivity).
  cbn [exponent_part]. rewrite decimal_value_integer. reflexivity.
Qed.

(** A text of digits only is read alike by [parseFloat] and by the
    conversion a multiplication makes. *)
Lemma ToNumber_digits d ds :
  is_digit d = true -> all_chars is_digit ds = true ->
  ToNumber (String d ds) = of_Z (digits_value (String d ds))
  /\ parseFloat (String d ds) = of_Z (digits_value (String d ds)).
Proof.
  intros Hd Hds. destruct (digit_plain d Hd) as [Hw _].
  assert (Htrim : trim_start (String d ds) = String d ds)
    by (cbn [trim_start]; rewrite Hw; reflexivity).
  split.
  - unfold ToNumber. rewrite Htrim.
    rewrite trim_end_digits by (cbn [all_chars]; rewrite Hd, Hds; reflexivity).
    rewrite (decimal_prefix_digits d ds Hd Hds).
    destruct ds as [|x r];
      [destruct d as [[] [] [] [] [] [] [] []]; reflexivity|].
    cbn [all_chars] in Hds. apply andb_true_iff in Hds as [Hx _].
    assert (Hcode : forall n, (n <? 48)%N || (57 <? n)%N = true ->
                      (code x =? n)%N = false).
    { intros n Hn. unfold is_digit in Hx. apply andb_true_iff in Hx as [H1 H2].
      apply N.leb_le in H1, H2. apply N.eqb_neq. intros E. rewrite E in *.
      apply orb_true_iff in Hn as [Hn|Hn]; apply N.ltb_lt in Hn; lia. }
    rewrite !Hcode by reflexivity. cbn [orb].
    destruct d as [[] [] [] [] [] [] [] []]; reflexivity.
  - unfold parseFloat. rewrite Htrim, (decimal_prefix_digits d ds Hd Hds).
    reflexivity.
Qed.

End NumTextFacts.

Module DateTextFacts.

Import Num NumText Pattern Shape.
Local Open Scope string_scope.
Local Open Scope Z_scope.

Lemma digits_1_2_sep g c r :
  one_or_two_digits g = true -> is_digit c = false ->
  digits_1_2 (g ++ String c r) = Some (g, String c r).
Proof.
  unfold one_or_two_digits. intros Hg Hc.
  apply andb_true_iff in Hg as [Hlen Hd].
  destruct g as [|a [|b [|x g]]]; try discriminate Hlen.
  - cbn [all_chars] in Hd. apply andb_true_iff in Hd as [Ha _].
    cbn [append digits_1_2]. rewrite Ha, Hc. reflexivity.
  - cbn [all_chars] in Hd. apply andb_true_iff in Hd as [Ha Hd].
    apply andb_true_iff in Hd as [Hb _].
    cbn [append digits_1_2]. rewrite Ha, Hb. reflexivity.
Qed.

Lemma digits_1_2_end g :
  one_or_two_digits g = true -> digits_1_2 g = Some (g, "").
Proof.
  unfold one_or_two_digits. intros Hg.
  apply andb_true_iff in Hg as [Hlen Hd].
  destruct g as [|a [|b [|x g]]]; try discriminate Hlen.
  - cbn [all_chars] in Hd. apply andb_true_iff in Hd as [Ha _].
    cbn [digits_1_2]. rewrite Ha. reflexivity.
  - cbn [all_chars] in Hd. apply andb_true_iff in Hd as [Ha Hd].
    apply andb_true_iff in Hd as [Hb _].
    cbn [digits_1_2]. rewrite Ha, Hb. reflexivity.
Qed.

Lemma digits_4_sep g r :
  four_digits g = true -> digits_4 (g ++ r) = Some (g, r).
Proof.
  unfold four_digits. intros Hg.
  apply andb_true_iff in Hg as [Hlen Hd].
  destruct g as [|a [|b [|c [|d [|x g]]]]]; try discriminate Hlen.
  cbn [all_chars] in Hd.
  apply andb_true_iff in Hd as [Ha Hd]. apply andb_true_iff in Hd as [Hb Hd].
  apply andb_true_iff in Hd as [Hc Hd]. apply andb_true_iff in Hd as [Hd _].
  cbn [append digits_4]. rewrite Ha, Hb, Hc, Hd. reflexivity.
Qed.

(** The date pattern takes every text of the shape [d.m.yyyy h:m],
    whatever the numbers are. *)
Lemma dateMatcher_complete g1 g2 g3 g4 g5 :
  one_or_two_digits g1 = true -> one_or_two_digits g2 = true ->
  four_digits g3 = true ->
  one_or_two_digits g4 = true -> one_or_two_digits g5 = true ->
  dateMatcher (g1 ++ "." ++ g2 ++ "." ++ g3 ++ " " ++ g4 ++ ":" ++ g5)
  = Some [g1 ++ "." ++ g2 ++ "." ++ g3 ++ " " ++ g4 ++ ":" ++ g5;
          g1; g2; g3; g4; g5].
Proof.
  intros H1 H2 H3 H4 H5. unfold dateMatcher.
  change ("." ++ g2 ++ "." ++ g3 ++ " " ++ g4 ++ ":" ++ g5)
    with (String "."
            (g2 ++ String "." (g3 ++ String " " (g4 ++ String ":" g5)))).
  rewrite (digits_1_2_sep g1 "." _ H1 eq_refl). cbn [literal].
  rewrite Ascii.eqb_refl.
  rewrite (digits_1_2_sep g2 "." _ H2 eq_refl). cbn [literal].
  rewrite Ascii.eqb_refl.
  rewrite (digits_4_sep g3 _ H3). cbn [literal]. rewrite Ascii.eqb_refl.
  rewrite (digits_1_2_sep g4 ":" _ H4 eq_refl). cbn [literal].
  rewrite Ascii.eqb_refl.
  rewrite (digits_1_2_end g5 H5). reflexivity.
Qed.

(** A number padded to two, or to four, places is such a group, and
    [parseInt] reads the number back. *)
Lemma zeroFill_two n :
  0 <= n < 100 ->
  one_or_two_digits (Text.zeroFill n 2) = true
  /\ parseInt_digits (Text.zeroFill n 2) = n.
Proof.
  intros H.
  assert (Hall : Text.all_from 100 0
            (fun n => one_or_two_digits (Text.zeroFill n 2)
                      && (parseInt_digits (Text.zeroFill n 2) =? n)) = true)
    by (vm_compute; reflexivity).
  pose proof (TextFacts.all_from_spec _ _ _ Hall n ltac:(lia)) as Hn.
  cbv beta in Hn. apply andb_true_iff in Hn as [Hg Hv].
  apply Z.eqb_eq in Hv. split; assumption.
Qed.

Lemma zeroFill_four n :
  0 <= n < 10000 ->
  four_digits (Text.zeroFill n 4) = true
  /\ parseInt_digits (Text.zeroFill n 4) = n.
Proof.
  intros H.
  assert (Hall : Text.all_from (Z.to_nat 10000) 0
            (fun n => four_digits (Text.zeroFill n 4)
                      && (parseInt_digits (Text.zeroFill n 4) =? n)) = true)
    by (vm_compute; reflexivity).
  pose proof (TextFacts.all_from_spec _ _ _ Hall n ltac:(lia)) as Hn.
  cbv beta in Hn. apply andb_true_iff in Hn as [Hg Hv].
  apply Z.eqb_eq in Hv. split; assumption.
Qed.

End DateTextFacts.

Module CountFacts.

Import Calendar DateObj DateFacts.
Import Heap Server Walk WalkFacts Trace Run.
Local Open Scope Z_scope.

Lemma weekdays_back_app n : forall m t,
  weekdays_back (n + m) t
  = weekdays_back n t + weekdays_back m (t - Z.of_nat n * msPerDay).
Proof.
  induction n as [|n IH]; intros m t.
  - cbn [Nat.add weekdays_back].
    replace (t - Z.of_nat 0 * msPerDay) with t by lia. lia.
  - cbn [Nat.add weekdays_back]. rewrite IH.
    replace (t - msPerDay - Z.of_nat n * msPerDay)
      with (t - Z.of_nat (S n) * msPerDay) by lia.
    lia.
Qed.

Lemma is_weekday_week_before t :
  is_weekday (t - 7 * msPerDay) = is_weekday t.
Proof.
  unfold is_weekday. rewrite Properties.getDay_days_back.
  replace (getDay t - 7) with (getDay t + (-1) * 7) by lia.
  rewrite Z.mod_add by lia.
  rewrite Z.mod_small by apply Properties.getDay_range. reflexivity.
Qed.

Lemma weekdays_back_week_before n : forall t,
  weekdays_back n (t - 7 * msPerDay) = weekdays_back n t.
Proof.
  induction n as [|n IH]; intros t; cbn [weekdays_back]; [reflexivity|].
  rewrite is_weekday_week_before.
  replace (t - 7 * msPerDay - msPerDay) with (t - msPerDay - 7 * msPerDay)
    by lia.
  rewrite IH. reflexivity.
Qed.

(** Every seven days of the walk hold five weekdays. *)
Lemma weekdays_back_weeks q : forall r t,
  weekdays_back (7 * q + r) t = 5 * Z.of_nat q + weekdays_back r t.
Proof.
  induction q as [|q IH]; intros r t.
  - cbn [Nat.mul Nat.add]. lia.
  - replace (7 * S q + r)%nat with (7 + (7 * q + r))%nat by lia.
    rewrite weekdays_back_app, Properties.weekdays_back_week.
    change (Z.of_nat 7) with 7.
    rewrite weekdays_back_week_before, IH. lia.
Qed.

Lemma weekdays_back_bounds n : forall t,
  0 <= weekdays_back n t <= Z.of_nat n.
Proof.
  induction n as [|n IH]; intros t; cbn [weekdays_back]; [lia|].
  specialize (IH (t - msPerDay)). destruct (is_weekday t); lia.
Qed.

Lemma weekdays_back_part_of_week r t :
  (r <= 7)%nat -> weekdays_back r t <= 5.
Proof.
  intros Hr. pose proof (Properties.weekdays_back_week t) as H7.
  replace 7%nat with (r + (7 - r))%nat in H7 by lia.
  rewrite weekdays_back_app in H7.
  pose proof (weekdays_back_bounds (7 - r) (t - Z.of_nat r * msPerDay)).
  lia.
Qed.

(** The count over [n] days: five for every seven, and for the
    remaining days no more than five and no more than there are. *)
Lemma weekdays_back_per_week n t :
  exists rest,
    weekdays_back n t = 5 * Z.of_nat (n / 7) + rest
    /\ 0 <= rest <= 5 /\ rest <= Z.of_nat (n mod 7).
Proof.
  exists (weekdays_back (n mod 7) t).
  pose proof (Nat.div_mod_eq n 7) as Hn.
  pose proof (Nat.mod_upper_bound n 7 ltac:(lia)) as Hr.
  split.
  - rewrite Hn at 1. apply weekdays_back_weeks.
  - pose proof (weekdays_back_bounds (n mod 7) t).
    pose proof (weekdays_back_part_of_week (n mod 7) t ltac:(lia)). lia.
Qed.

End CountFacts.

Module ReportFacts.

Import Heap Num Server Walk WalkFacts Trace Run Spec.
Local Open Scope Z_scope.

(** Every report of the sibling file is made from an extracted balance
    and a weekday count. *)
Lemma sibling_report_shape clock holidays_default env fuel page w r w' :
  Part000.handler clock holidays_default env fuel page w
  = Some (json_report r, w') ->
  exists balance weekdays,
    Part000.getK6Balance page = Return (Some balance)
    /\ r = report_of env balance weekdays.
Proof.
  unfold Part000.handler, Part000.generateBalanceData, bind.
  destruct (Part000.getK6Balance page) as [[balance|]|e];
    [|intros [= ]|intros [= ]].
  destruct (moment clock w) as [[now w1]|]; [|discriminate].
  destruct (Part000.getNextPayDate clock holidays_default env fuel w1)
    as [[nextPayDate w2]|]; [|discriminate].
  destruct (Part000.calculateWeekdaysBetweenDates fuel now nextPayDate w2)
    as [[weekdays w3]|]; [|discriminate].
  unfold ret. intros [= <- <-]. exists balance, weekdays.
  split; reflexivity.
Qed.

Lemma index_js_report_shape clock holidays_default env fuel page w r w' :
  IndexJs.handler clock holidays_default env fuel page w
  = Some (json_report r, w') ->
  exists balance weekdays,
    IndexJs.getK6Balance page = Return balance
    /\ r = index_report_of env balance weekdays.
Proof.
  unfold IndexJs.handler, bind.
  destruct (IndexJs.getNextPayDate clock holidays_default env fuel w)
    as [[nextPayDate w1]|]; [|discriminate].
  destruct (moment clock w1) as [[now w2]|]; [|discriminate].
  destruct (IndexJs.calculateWeekdaysBetweenDates clock holidays_default env
              fuel now nextPayDate w2) as [[weekdays w3]|]; [|discriminate].
  destruct (IndexJs.getK6Balance page) as [balance|e]; unfold ret;
    [|intros [= ]].
  intros [= <- <-]. exists balance, weekdays. split; reflexivity.
Qed.

Local Open Scope Q_scope.

(** The three numbers for a price above zero. *)
Lemma computeReport_positive_price (a p : Q) (w : Z) :
  0 < p ->
  exists meals t : Q,
    computeReport (Finite a) (Finite p) w
    = (Finite (inject_Z (Qfloor (a / p))), Finite meals, Finite t)
    /\ meals == inject_Z w - inject_Z (Qfloor (a / p))
    /\ t == meals * p.
Proof.
  intros Hp. unfold computeReport. cbn [div].
  assert (E : Qeq_bool p 0 = false).
  { destruct (Qeq_bool p 0) eqn:E; [|reflexivity].
    apply Qeq_bool_iff in E. rewrite E in Hp.
    exfalso. exact (Qlt_irrefl 0 Hp). }
  rewrite E. cbn [floor of_Z sub mul].
  rewrite (Qfloor_comp _ _ (Qred_correct (a / p))).
  eexists _, _. split; [reflexivity|]. split.
  - apply Qred_correct.
  - apply Qred_correct.
Qed.

Lemma floor_brackets (a p : Q) :
  0 < p ->
  inject_Z (Qfloor (a / p)) * p <= a
  /\ a < (inject_Z (Qfloor (a / p)) + 1) * p.
Proof.
  intros Hp.
  assert (Hne : ~ p == 0)
    by (intros E; rewrite E in Hp; exact (Qlt_irrefl 0 Hp)).
  assert (Ha : a / p * p == a) by (field; exact Hne).
  pose proof (Qfloor_le (a / p)) as Hlo.
  pose proof (Qlt_floor (a / p)) as Hhi.
  rewrite inject_Z_plus in Hhi. change (inject_Z 1) with 1 in Hhi.
  split.
  - rewrite <- Ha at 2. apply Qmult_le_compat_r; [exact Hlo|].
    apply Qlt_le_weak. exact Hp.
  - rewrite <- Ha at 1. apply Qmult_lt_compat_r; [exact Hp|exact Hhi].
Qed.

(** After the top-up the balance pays for the remaining weekdays, and
    not for one more. *)
Lemma topup_brackets (a p : Q) (w : Z) meals t :
  0 < p ->
  meals == inject_Z w - inject_Z (Qfloor (a / p)) ->
  t == meals * p ->
  inject_Z w * p <= a + t /\ a + t < (inject_Z w + 1) * p
  /\ (0 < t <-> a < inject_Z w * p).
Proof.
  intros Hp Hm Ht. destruct (floor_brackets a p Hp) as [Hlo Hhi].
  set (f := inject_Z (Qfloor (a / p))) in *.
  assert (Et : t == inject_Z w * p - f * p) by (rewrite Ht, Hm; ring).
  split; [|split].
  - rewrite Et. lra.
  - rewrite Et. lra.
  - rewrite Et. split; intros H.
    + (* the number of meals in the balance is below the weekdays *)
      assert (Hlt : f < inject_Z w).
      { destruct (Qlt_le_dec f (inject_Z w)) as [Hl|Hg]; [exact Hl|].
        exfalso. pose proof (Qmult_le_compat_r _ _ p Hg (Qlt_le_weak _ _ Hp)).
        lra. }
      unfold f in Hlt. rewrite <- Zlt_Qlt in Hlt.
      assert (Hle : inject_Z (Qfloor (a / p) + 1) <= inject_Z w)
        by (rewrite <- Zle_Qle; lia).
      rewrite inject_Z_plus in Hle. change (inject_Z 1) with 1 in Hle.
      fold f in Hle.
      pose proof (Qmult_le_compat_r _ _ p Hle (Qlt_le_weak _ _ Hp)). lra.
    + lra.
Qed.

End ReportFacts.

Module PageFacts.

Import Num NumText Pattern Server Shape PatternFacts NumTextFacts
  DateTextFacts.
Local Open Scope string_scope.
Local Open Scope Z_scope.

(** The record [src/index.js] makes of a page both patterns match. *)
Lemma IndexJs_getK6Balance_matched page whole g1 g2 dwhole a b c d e :
  balanceMatcher (balanceString page) = Some [whole; g1; g2] ->
  dateMatcher (dateString page) = Some [dwhole; a; b; c; d; e] ->
  IndexJs.getK6Balance page
  = Return {| currentBalance := NumText.parseFloat g1;
              balanceCurrencyUnit := text g2;
              lastToppedUpUTC :=
                new_Date (parseInt_digits c) (parseInt_digits b - 1)
                  (parseInt_digits a) (parseInt_digits d)
                  (parseInt_digits e) |}.
Proof.
  intros Hb Hd. unfold IndexJs.getK6Balance. rewrite Hb, Hd. reflexivity.
Qed.

(** The record of the sibling file: the same but for the currency. *)
Lemma Part000_getK6Balance_matched page whole g1 g2 dwhole a b c d e :
  balanceMatcher (balanceString page) = Some [whole; g1; g2] ->
  dateMatcher (dateString page) = Some [dwhole; a; b; c; d; e] ->
  Part000.getK6Balance page
  = Return (Some {| currentBalance := NumText.parseFloat g1;
                    balanceCurrencyUnit := undefined;
                    lastToppedUpUTC :=
                      new_Date (parseInt_digits c) (parseInt_digits b - 1)
                        (parseInt_digits a) (parseInt_digits d)
                        (parseInt_digits e) |}).
Proof.
  intros Hb Hd. unfold Part000.getK6Balance, test. rewrite Hb, Hd.
  reflexivity.
Qed.

Lemma dateMatcher_groups s l :
  dateMatcher s = Some l -> exists a b c d e, l = [s; a; b; c; d; e].
Proof.
  unfold dateMatcher.
  destruct (digits_1_2 s) as [[g1 s1]|]; [|discriminate].
  destruct (literal "." s1) as [s2|]; [|discriminate].
  destruct (digits_1_2 s2) as [[g2 s3]|]; [|discriminate].
  destruct (literal "." s3) as [s4|]; [|discriminate].
  destruct (digits_4 s4) as [[g3 s5]|]; [|discriminate].
  destruct (literal " " s5) as [s6|]; [|discriminate].
  destruct (digits_1_2 s6) as [[g4 s7]|]; [|discriminate].
  destruct (literal ":" s7) as [s8|]; [|discriminate].
  destruct (digits_1_2 s8) as [[g5 [|x r]]|]; try discriminate.
  intros [= <-]. eauto 10.
Qed.

(** [new Date] checks no range: a day, an hour or a minute beyond its
    range runs over into the following days and hours. *)
Lemma new_Date_carries year month date hours minutes :
  new_Date year month date hours minutes
  = new_Date year month 1 0 0 + (date - 1) * Calendar.msPerDay
    + hours * 3600000 + minutes * 60000.
Proof.
  unfold new_Date, DateObj.MakeDate, DateObj.MakeTime, Calendar.MakeDay,
    Calendar.msPerDay.
  destruct ((0 <=? year) && (year <=? 99)); lia.
Qed.

(** The two files on one page: the sibling file returns [false] where
    [src/index.js] throws, and elsewhere the same record but for the
    currency unit. *)
Lemma getK6Balance_both page :
  match IndexJs.getK6Balance page with
  | Return b =>
      Part000.getK6Balance page
      = Return (Some {| currentBalance := currentBalance b;
                        balanceCurrencyUnit := undefined;
                        lastToppedUpUTC := lastToppedUpUTC b |})
  | Throw _ => Part000.getK6Balance page = Return None
  end.
Proof.
  destruct (balanceMatcher (balanceString page)) as [l|] eqn:Hb.
  - destruct (balanceMatcher_sound _ _ Hb) as [d [rest [cur [-> _]]]].
    destruct (dateMatcher (dateString page)) as [l'|] eqn:Hd.
    + destruct (dateMatcher_groups _ _ Hd) as [a [b [c [d' [e ->]]]]].
      rewrite (IndexJs_getK6Balance_matched _ _ _ _ _ _ _ _ _ _ Hb Hd).
      rewrite (Part000_getK6Balance_matched _ _ _ _ _ _ _ _ _ _ Hb Hd).
      reflexivity.
    + unfold IndexJs.getK6Balance, Part000.getK6Balance, test.
      rewrite Hb, Hd. reflexivity.
  - unfold IndexJs.getK6Balance, Part000.getK6Balance, test.
    rewrite Hb. reflexivity.
Qed.

End PageFacts.

(** ** Further properties of the two files *)

Module PayDateProperties.

Import Calendar CalendarFacts CalendarInverse DateObj DateFacts DateInverse.
Import Heap Server Walk WalkFacts Trace Run PayDateFacts MonthOrder.
Import Shape Sample.
Local Open Scope string_scope.
Local Open Scope Z_scope.


(** The walk stops at the first day, going back, that is not excluded. *)
Lemma walk_back_latest fuel : forall holidayArray t t',
  walk_back fuel holidayArray t = Some t' ->
  exists k : nat,
    t' = t - Z.of_nat k * msPerDay
    /\ excluded holidayArray t' = false
    /\ forall j : nat, (j < k)%nat ->
         excluded holidayArray (t - Z.of_nat j * msPerDay) = true.
Proof.
  induction fuel as [|fuel IH]; intros hs t t' H; cbn in H; [discriminate|].
  destruct (excluded hs t) eqn:E.
  - apply IH in H as [k [-> [Hstop Hall]]]. exists (S k).
    rewrite previous_day_shift in *.
    split; [lia|]. split.
    + replace (t - Z.of_nat (S k) * msPerDay)
        with (t - msPerDay - Z.of_nat k * msPerDay) by lia. exact Hstop.
    + intros [|j] Hj.
      * replace (t - Z.of_nat 0 * msPerDay) with t by lia. exact E.
      * replace (t - Z.of_nat (S j) * msPerDay)
          with (t - msPerDay - Z.of_nat j * msPerDay) by lia.
        apply Hall. lia.
  - injection H as <-. exists 0%nat.
    replace (t - Z.of_nat 0 * msPerDay) with t by lia.
    split; [reflexivity|]. split; [exact E|]. intros j Hj. lia.
Qed.

(** X9: with fuel for the walk, [getNextPayDate] returns the latest day
    on or before the candidate that the loop does not exclude: every
    day between the two is a Saturday, a Sunday or in the holiday list
    fetched. *)
Lemma getNextPayDate_latest_business_day clock holidays_default env
    fuel w :
  (walk_fuel (holidayArray_in clock holidays_default w) <= fuel)%nat ->
  exists r w' t' (k : nat),
    Part000.getNextPayDate clock holidays_default env fuel w = Some (r, w')
    /\ heap w' !! r = Some (mkMoment t')
    /\ t' = candidate_in clock env w - Z.of_nat k * msPerDay
    /\ excluded (holidayArray_in clock holidays_default w) t' = false
    /\ forall j : nat, (j < k)%nat ->
         excluded (holidayArray_in clock holidays_default w)
           (candidate_in clock env w - Z.of_nat j * msPerDay) = true.
Proof.
  intros Hfuel. rewrite getNextPayDate_run.
  destruct (walk_back_enough _ (candidate_in clock env w) fuel Hfuel)
    as [t' Hw].
  rewrite Hw. apply walk_back_latest in Hw as [k [Hk [Hstop Hall]]].
  eexists _, _, t', k. split; [reflexivity|].
  cbn [heap]. split; [apply lookup_at_end|].
  split; [exact Hk|]. split; [exact Hstop|exact Hall].
Qed.

Lemma getNextPayDate_latest_business_day_witness :
  (walk_fuel (holidayArray_in (at_time friday_10h) norway fresh) <= 98)%nat
  /\ exists r w' t' (k : nat),
       Part000.getNextPayDate (at_time friday_10h) norway (mkEnv 25 "25") 98
         fresh
       = Some (r, w')
       /\ heap w' !! r = Some (mkMoment t')
       /\ t' = candidate_in (at_time friday_10h) (mkEnv 25 "25") fresh
               - Z.of_nat k * msPerDay
       /\ excluded (holidayArray_in (at_time friday_10h) norway fresh) t'
          = false
       /\ forall j : nat, (j < k)%nat ->
            excluded (holidayArray_in (at_time friday_10h) norway fresh)
              (candidate_in (at_time friday_10h) (mkEnv 25 "25") fresh
               - Z.of_nat j * msPerDay) = true.
Proof.
  split; [vm_compute; lia|].
  apply (getNextPayDate_latest_business_day (at_time friday_10h) norway
           (mkEnv 25 "25") 98 fresh).
  vm_compute. lia.
Defined.

Lemma TimeWithinDay_local y m d ms :
  0 <= ms < 1000 -> TimeWithinDay (local y m d 0 0 0 ms) = ms.
Proof.
  intros H. unfold local. rewrite TimeWithinDay_MakeDate.
  - unfold MakeTime. lia.
  - apply MakeTime_range; lia.
Qed.

Lemma TimeWithinDay_next_month t :
  TimeWithinDay (next_month t) = TimeWithinDay t.
Proof.
  unfold next_month, setMonth. apply TimeWithinDay_MakeDate.
  apply TimeWithinDay_range.
Qed.

Lemma candidate_time_of_day p t0 t1 :
  TimeWithinDay (candidate p t0 t1) = msFromTime t0.
Proof.
  destruct (field_ranges t0) as [_ [_ [_ Hms]]].
  unfold candidate. rewrite payment_day_this_month.
  destruct (_ <? t1); [rewrite TimeWithinDay_next_month|];
    apply TimeWithinDay_local; exact Hms.
Qed.

(** X10: with fuel for the walk, [getNextPayDate] returns a date at
    the start of its day, with the milliseconds of the clock reading it
    was made from: [set('second', 0)] leaves them. *)
Lemma getNextPayDate_start_of_day clock holidays_default env fuel w :
  (walk_fuel (holidayArray_in clock holidays_default w) <= fuel)%nat ->
  exists r w' t',
    Part000.getNextPayDate clock holidays_default env fuel w = Some (r, w')
    /\ heap w' !! r = Some (mkMoment t')
    /\ HourFromTime t' = 0 /\ MinFromTime t' = 0 /\ SecFromTime t' = 0
    /\ msFromTime t' = msFromTime (clock (reads w)).
Proof.
  intros Hfuel. rewrite getNextPayDate_run.
  destruct (walk_back_enough _ (candidate_in clock env w) fuel Hfuel)
    as [t' Hw].
  rewrite Hw. apply walk_back_latest in Hw as [k [Hk _]].
  eexists _, _, t'. split; [reflexivity|].
  cbn [heap]. split; [apply lookup_at_end|].
  assert (HT : TimeWithinDay t' = msFromTime (clock (reads w))).
  { rewrite Hk.
    replace (candidate_in clock env w - Z.of_nat k * msPerDay)
      with (candidate_in clock env w + (- Z.of_nat k) * msPerDay) by lia.
    rewrite TimeWithinDay_shift. apply candidate_time_of_day. }
  destruct (field_ranges (clock (reads w))) as [_ [_ [_ Hms]]].
  unfold HourFromTime, MinFromTime, SecFromTime, msFromTime at 1.
  rewrite HT. repeat split; Z.div_mod_to_equations; lia.
Qed.

Lemma getNextPayDate_start_of_day_witness :
  (walk_fuel (holidayArray_in (at_time friday_10h) norway fresh) <= 98)%nat
  /\ exists r w' t',
       Part000.getNextPayDate (at_time friday_10h) norway (mkEnv 25 "25") 98
         fresh
       = Some (r, w')
       /\ heap w' !! r = Some (mkMoment t')
       /\ HourFromTime t' = 0 /\ MinFromTime t' = 0 /\ SecFromTime t' = 0
       /\ msFromTime t' = msFromTime (at_time friday_10h (reads fresh)).
Proof.
  split; [vm_compute; lia|].
  apply (getNextPayDate_start_of_day (at_time friday_10h) norway
           (mkEnv 25 "25") 98 fresh).
  vm_compute. lia.
Defined.


Lemma on_payment_day y m p ms :
  1 <= m <= 12 -> 1 <= p <= 28 -> 0 <= ms < 1000 ->
  getFullYear (local y m p 0 0 0 ms) = y
  /\ getMonth (local y m p 0 0 0 ms) = m - 1
  /\ getDate (local y m p 0 0 0 ms) = p.
Proof.
  intros Hm Hp Hms. pose proof (daysInMonth_range y (m - 1)) as Hdim.
  destruct (getters_local y m p 0 0 0 ms Hm
              ltac:(lia) ltac:(lia) ltac:(lia) ltac:(lia) Hms)
    as [Hy [Hmo [Hd _]]].
  split; [exact Hy|]. split; [exact Hmo|exact Hd].
Qed.

Lemma candidate_in_closed clock env w p y m ms :
  p = PAYMENT_DAY_IN_MONTH env ->
  y = getFullYear (clock (reads w)) ->
  m = getMonth (clock (reads w)) + 1 ->
  ms = msFromTime (clock (reads w)) ->
  1 <= p <= 28 ->
  candidate_in clock env w
  = if local y m p 0 0 0 ms <? clock (S (reads w))
    then local (if m =? 12 then y + 1 else y) (if m =? 12 then 1 else m + 1)
           p 0 0 0 ms
    else local y m p 0 0 0 ms.
Proof.
  intros -> Ey Em Ems Hp. unfold candidate_in.
  apply candidate_closed; assumption.
Qed.

(** X11: for a payment day that every month has, the walk starts on
    that day of the month of the first clock reading, or of the month
    after it when that day is before the second reading; with fuel for
    the walk the call returns that start moved back by whole days. *)
Lemma getNextPayDate_on_payment_day clock holidays_default env fuel w
    (p y m ms : Z) :
  p = PAYMENT_DAY_IN_MONTH env ->
  y = getFullYear (clock (reads w)) ->
  m = getMonth (clock (reads w)) + 1 ->
  ms = msFromTime (clock (reads w)) ->
  1 <= p <= 28 ->
  (walk_fuel (holidayArray_in clock holidays_default w) <= fuel)%nat ->
  exists r w' t' (k : nat),
    Part000.getNextPayDate clock holidays_default env fuel w = Some (r, w')
    /\ heap w' !! r = Some (mkMoment t')
    /\ t' = (if local y m p 0 0 0 ms <? clock (S (reads w))
             then local (if m =? 12 then y + 1 else y)
                        (if m =? 12 then 1 else m + 1) p 0 0 0 ms
             else local y m p 0 0 0 ms)
            - Z.of_nat k * msPerDay
    /\ getDate (local y m p 0 0 0 ms) = p
    /\ getDate (local (if m =? 12 then y + 1 else y)
                      (if m =? 12 then 1 else m + 1) p 0 0 0 ms) = p.
Proof.
  intros Ep Ey Em Ems Hp Hfuel. rewrite getNextPayDate_run.
  destruct (walk_back_enough _ (candidate_in clock env w) fuel Hfuel)
    as [t' Hw].
  rewrite Hw. apply walk_back_latest in Hw as [k [Hk _]].
  rewrite (candidate_in_closed clock env w p y m ms Ep Ey Em Ems Hp) in Hk.
  eexists _, _, t', k. split; [reflexivity|].
  cbn [heap]. split; [apply lookup_at_end|].
  split; [exact Hk|].
  assert (Hm : 1 <= m <= 12) by (rewrite Em; apply month_range).
  assert (Hms : 0 <= ms < 1000)
    by (rewrite Ems; apply (field_ranges (clock (reads w)))).
  split; [exact (proj2 (proj2 (on_payment_day y m p ms Hm Hp Hms)))|].
  assert (Hm2 : 1 <= (if m =? 12 then 1 else m + 1) <= 12)
    by (destruct (m =? 12) eqn:E; lia).
  exact (proj2 (proj2 (on_payment_day _ _ p ms Hm2 Hp Hms))).
Qed.

Lemma getNextPayDate_on_payment_day_witness :
  (25 = PAYMENT_DAY_IN_MONTH (mkEnv 25 "25")
   /\ 2024 = getFullYear (at_time friday_10h (reads fresh))
   /\ 12 = getMonth (at_time friday_10h (reads fresh)) + 1
   /\ 0 = msFromTime (at_time friday_10h (reads fresh))
   /\ 1 <= 25 <= 28
   /\ (walk_fuel (holidayArray_in (at_time friday_10h) norway fresh)
       <= 98)%nat)
  /\ exists r w' t' (k : nat),
       Part000.getNextPayDate (at_time friday_10h) norway (mkEnv 25 "25") 98
         fresh
       = Some (r, w')
       /\ heap w' !! r = Some (mkMoment t')
       /\ t' = (if local 2024 12 25 0 0 0 0
                   <? at_time friday_10h (S (reads fresh))
                then local (if 12 =? 12 then 2024 + 1 else 2024)
                           (if 12 =? 12 then 1 else 12 + 1) 25 0 0 0 0
                else local 2024 12 25 0 0 0 0)
               - Z.of_nat k * msPerDay
       /\ getDate (local 2024 12 25 0 0 0 0) = 25
       /\ getDate (local (if 12 =? 12 then 2024 + 1 else 2024)
                         (if 12 =? 12 then 1 else 12 + 1) 25 0 0 0 0) = 25.
Proof.
  split.
  - split; [reflexivity|]. split; [vm_compute; reflexivity|].
    split; [vm_compute; reflexivity|]. split; [vm_compute; reflexivity|].
    split; [lia|vm_compute; lia].
  - apply (getNextPayDate_on_payment_day (at_time friday_10h) norway
             (mkEnv 25 "25") 98 fresh 25 2024 12 0);
      [reflexivity|vm_compute; reflexivity|vm_compute; reflexivity
      |vm_compute; reflexivity|lia|vm_compute; lia].
Defined.

Lemma not_In_includes_str l x : ~ In x l -> includes_str l x = false.
Proof.
  intros H. destruct (includes_str l x) eqn:E; [|reflexivity].
  exfalso. apply H. apply includes_str_In. exact E.
Qed.


Lemma walk_back_weekend fuel holidayArray t :
  (3 <= fuel)%nat ->
  (forall j, 0 <= j <= 2 ->
     ~ In (DateObj.format_YYYY_MM_DD (t - j * msPerDay)) holidayArray) ->
  walk_back fuel holidayArray t = Some (t - weekend_shift t * msPerDay).
Proof.
  intros Hfuel Hfree.
  destruct fuel as [|[|[|fuel]]]; try lia.
  assert (Hex : forall j, 0 <= j <= 2 ->
            excluded holidayArray (t - j * msPerDay)
            = includes [0; 6] ((getDay t - j) mod 7)).
  { intros j Hj. unfold excluded.
    rewrite (not_In_includes_str _ _ (Hfree j Hj)), Properties.getDay_days_back.
    reflexivity. }
  pose proof (Hex 0 ltac:(lia)) as H0. pose proof (Hex 1 ltac:(lia)) as H1.
  pose proof (Hex 2 ltac:(lia)) as H2. clear Hex Hfree Hfuel.
  replace (t - 0 * msPerDay) with t in H0 by lia.
  replace (t - 1 * msPerDay) with (previous_day t) in H1
    by (rewrite previous_day_shift; lia).
  replace (t - 2 * msPerDay) with (previous_day (previous_day t)) in H2
    by (rewrite !previous_day_shift; lia).
  assert (Hr : 0 <= getDay t < 7)
    by (unfold getDay, WeekDay; apply Z.mod_pos_bound; lia).
  unfold weekend_shift.
  change (walk_back (S (S (S fuel))) holidayArray t)
    with (if excluded holidayArray t
          then if excluded holidayArray (previous_day t)
               then if excluded holidayArray (previous_day (previous_day t))
                    then walk_back fuel holidayArray
                           (previous_day (previous_day (previous_day t)))
                    else Some (previous_day (previous_day t))
               else Some (previous_day t)
          else Some t).
  rewrite H0, H1, H2. rewrite !previous_day_shift.
  generalize (walk_back fuel holidayArray
                (t - msPerDay - msPerDay - msPerDay)).
  intros deeper.
  assert (Hcases : getDay t = 0 \/ getDay t = 1 \/ getDay t = 2
                   \/ getDay t = 3 \/ getDay t = 4 \/ getDay t = 5
                   \/ getDay t = 6) by lia.
  clear H0 H1 H2 Hr.
  destruct Hcases as [E|[E|[E|[E|[E|[E|E]]]]]]; rewrite E.
  - change (Some (t - msPerDay - msPerDay) = Some (t - 2 * msPerDay)).
    f_equal; lia.
  - change (Some t = Some (t - 0 * msPerDay)). f_equal; lia.
  - change (Some t = Some (t - 0 * msPerDay)). f_equal; lia.
  - change (Some t = Some (t - 0 * msPerDay)). f_equal; lia.
  - change (Some t = Some (t - 0 * msPerDay)). f_equal; lia.
  - change (Some t = Some (t - 0 * msPerDay)). f_equal; lia.
  - change (Some (t - msPerDay) = Some (t - 1 * msPerDay)). f_equal; lia.
Qed.

(** X12: with no holiday on the candidate or on the two days before it,
    the pay date is the candidate, the Friday before it when it falls
    on a Saturday or a Sunday. *)
Lemma getNextPayDate_weekend_rule clock holidays_default env fuel w :
  (3 <= fuel)%nat ->
  (forall j, 0 <= j <= 2 ->
     ~ In (DateObj.format_YYYY_MM_DD (candidate_in clock env w - j * msPerDay))
          (holidayArray_in clock holidays_default w)) ->
  exists r w',
    Part000.getNextPayDate clock holidays_default env fuel w = Some (r, w')
    /\ heap w' !! r
       = Some (mkMoment
                 (candidate_in clock env w
                  - weekend_shift (candidate_in clock env w) * msPerDay)).
Proof.
  intros Hfuel Hfree. rewrite getNextPayDate_run.
  rewrite (walk_back_weekend fuel _ _ Hfuel Hfree).
  eexists _, _. split; [reflexivity|]. cbn [heap]. apply lookup_at_end.
Qed.

(** Tuesday 20 June 2023 at 10:00. *)
Lemma getNextPayDate_weekend_rule_witness :
  let clock := at_time (DateObj.local 2023 6 20 10 0 0 0) in
  ((3 <= 10)%nat
   /\ forall j, 0 <= j <= 2 ->
        ~ In (DateObj.format_YYYY_MM_DD
                (candidate_in clock (mkEnv 15 "25") fresh - j * msPerDay))
             (holidayArray_in clock norway fresh))
  /\ exists r w',
       Part000.getNextPayDate clock norway (mkEnv 15 "25") 10 fresh
       = Some (r, w')
       /\ heap w' !! r
          = Some (mkMoment
                    (candidate_in clock (mkEnv 15 "25") fresh
                     - weekend_shift (candidate_in clock (mkEnv 15 "25") fresh)
                       * msPerDay)).
Proof.
  cbv zeta.
  assert (E : holidayArray_in (at_time (DateObj.local 2023 6 20 10 0 0 0))
                norway fresh = [])
    by (vm_compute; reflexivity).
  split.
  - split; [lia|]. intros j Hj. rewrite E. apply in_nil.
  - apply (getNextPayDate_weekend_rule
             (at_time (DateObj.local 2023 6 20 10 0 0 0)) norway
             (mkEnv 15 "25") 10 fresh); [lia|].
    intros j Hj. rewrite E. apply in_nil.
Defined.

Lemma candidate_in_not_before clock env w :
  1 <= PAYMENT_DAY_IN_MONTH env <= 28 ->
  getFullYear (clock (S (reads w))) = getFullYear (clock (reads w)) ->
  getMonth (clock (S (reads w))) = getMonth (clock (reads w)) ->
  clock (S (reads w)) <= candidate_in clock env w.
Proof.
  intros Hp Hy Hm. unfold candidate_in.
  apply candidate_not_before; assumption.
Qed.

(** X13: for a payment day that every month has, and two clock
    readings in one month, [getNextPayDate] with fuel for the walk
    returns a date that is before the reading [isBefore] took only by
    days the loop walked over: Saturdays, Sundays and holidays. *)
Lemma getNextPayDate_not_in_the_past clock holidays_default env fuel w :
  1 <= PAYMENT_DAY_IN_MONTH env <= 28 ->
  getFullYear (clock (S (reads w))) = getFullYear (clock (reads w)) ->
  getMonth (clock (S (reads w))) = getMonth (clock (reads w)) ->
  (walk_fuel (holidayArray_in clock holidays_default w) <= fuel)%nat ->
  exists r w' t' (k : nat),
    Part000.getNextPayDate clock holidays_default env fuel w = Some (r, w')
    /\ heap w' !! r = Some (mkMoment t')
    /\ clock (S (reads w)) <= t' + Z.of_nat k * msPerDay
    /\ forall j : nat, (0 < j <= k)%nat ->
         excluded (holidayArray_in clock holidays_default w)
           (t' + Z.of_nat j * msPerDay) = true.
Proof.
  intros Hp Hy Hm Hfuel. rewrite getNextPayDate_run.
  pose proof (candidate_in_not_before clock env w Hp Hy Hm) as Hc.
  destruct (walk_back_enough _ (candidate_in clock env w) fuel Hfuel)
    as [t' Hw].
  rewrite Hw. clear Hfuel.
  revert Hc Hw. generalize (candidate_in clock env w).
  generalize (holidayArray_in clock holidays_default w).
  generalize (clock (S (reads w))). intros t1 hs c Hc Hw.
  apply walk_back_latest in Hw as [k [Hk [_ Hall]]].
  eexists _, _, t', k. split; [reflexivity|].
  cbn [heap]. split; [apply lookup_at_end|].
  split; [lia|].
  intros j Hj. specialize (Hall (k - j)%nat ltac:(lia)).
  replace (t' + Z.of_nat j * msPerDay)
    with (c - Z.of_nat (k - j) * msPerDay)
    by (rewrite Hk, Nat2Z.inj_sub by lia; ring).
  exact Hall.
Qed.

Lemma getNextPayDate_not_in_the_past_witness :
  (1 <= PAYMENT_DAY_IN_MONTH (mkEnv 25 "25") <= 28
   /\ getFullYear (at_time friday_10h (S (reads fresh)))
      = getFullYear (at_time friday_10h (reads fresh))
   /\ getMonth (at_time friday_10h (S (reads fresh)))
      = getMonth (at_time friday_10h (reads fresh))
   /\ (walk_fuel (holidayArray_in (at_time friday_10h) norway fresh)
       <= 98)%nat)
  /\ exists r w' t' (k : nat),
       Part000.getNextPayDate (at_time friday_10h) norway (mkEnv 25 "25") 98
         fresh
       = Some (r, w')
       /\ heap w' !! r = Some (mkMoment t')
       /\ at_time friday_10h (S (reads fresh)) <= t' + Z.of_nat k * msPerDay
       /\ forall j : nat, (0 < j <= k)%nat ->
            excluded (holidayArray_in (at_time friday_10h) norway fresh)
              (t' + Z.of_nat j * msPerDay) = true.
Proof.
  split.
  - split; [cbn; lia|]. split; [reflexivity|]. split; [reflexivity|].
    vm_compute. lia.
  - apply (getNextPayDate_not_in_the_past (at_time friday_10h) norway
             (mkEnv 25 "25") 98 fresh);
      [cbn; lia|reflexivity|reflexivity|vm_compute; lia].
Defined.

End PayDateProperties.

Module CountProperties.

Import Calendar DateObj DateFacts.
Import Heap Server Walk WalkFacts Trace Run CountFacts Sample.
Local Open Scope Z_scope.

(** X14: the sibling file counts five weekdays for every seven days
    between [from] and [to], and for the remaining days no more than
    five and no more than there are. *)
Lemma sibling_counts_five_per_week fuel from to w tf tt :
  heap w !! from = Some (mkMoment tf) ->
  heap w !! to = Some (mkMoment tt) ->
  (rounds tf tt < fuel)%nat ->
  exists rest w',
    Part000.calculateWeekdaysBetweenDates fuel from to w
    = Some (5 * Z.of_nat (rounds tf tt / 7) + rest, w')
    /\ 0 <= rest <= 5 /\ rest <= Z.of_nat (rounds tf tt mod 7).
Proof.
  intros Hf Ht Hfuel.
  rewrite (calculateWeekdaysBetweenDates_run fuel from to w tf tt Hf Ht Hfuel).
  destruct (weekdays_back_per_week (rounds tf tt) tt) as [rest [-> Hrest]].
  exists rest. eexists. split; [reflexivity|exact Hrest].
Qed.

Lemma sibling_counts_five_per_week_witness :
  (heap (two monday_10h (monday_10h + 9 * msPerDay)) !! 0%nat
   = Some (mkMoment monday_10h)
   /\ heap (two monday_10h (monday_10h + 9 * msPerDay)) !! 1%nat
      = Some (mkMoment (monday_10h + 9 * msPerDay))
   /\ (rounds monday_10h (monday_10h + 9 * msPerDay) < 20)%nat)
  /\ exists rest w',
       Part000.calculateWeekdaysBetweenDates 20 0%nat 1%nat
         (two monday_10h (monday_10h + 9 * msPerDay))
       = Some (5 * Z.of_nat
                     (rounds monday_10h (monday_10h + 9 * msPerDay) / 7)
               + rest, w')
       /\ 0 <= rest <= 5
       /\ rest <= Z.of_nat
                    (rounds monday_10h (monday_10h + 9 * msPerDay) mod 7).
Proof.
  split.
  - split; [reflexivity|]. split; [reflexivity|]. vm_compute. lia.
  - apply (sibling_counts_five_per_week 20 0%nat 1%nat
             (two monday_10h (monday_10h + 9 * msPerDay))
             monday_10h (monday_10h + 9 * msPerDay));
      [reflexivity|reflexivity|vm_compute; lia].
Defined.

(** X15: [src/index.js] counts over as many days, [to.diff(from) + 1],
    but back from the pay date its own call of [getNextPayDate]
    returns, whatever [to] is. *)
Lemma index_js_counts_from_its_pay_date clock holidays_default env
    fuel from to w tf tt :
  heap w !! from = Some (mkMoment tf) ->
  heap w !! to = Some (mkMoment tt) ->
  (rounds tf tt < fuel)%nat ->
  (walk_fuel (holidayArray_in clock holidays_default w) <= fuel)%nat ->
  exists r w1 t' w',
    IndexJs.getNextPayDate clock holidays_default env fuel w = Some (r, w1)
    /\ heap w1 !! r = Some (mkMoment t')
    /\ IndexJs.calculateWeekdaysBetweenDates clock holidays_default env
         fuel from to w
       = Some (weekdays_back (rounds tf tt) t', w').
Proof.
  intros Hf Ht Hfuel Hwalk.
  destruct (payday_in_total clock holidays_default env w) as [t' Ht'].
  pose proof (payday_in_fuel clock holidays_default env w t' fuel Ht' Hwalk)
    as Hw.
  rewrite (IndexJs_calculateWeekdaysBetweenDates_run clock holidays_default
             env fuel from to w tf tt t' Hf Ht Hw Hfuel).
  rewrite getNextPayDate_same, getNextPayDate_run, Hw.
  eexists _, _, t', _. split; [reflexivity|].
  split; [cbn [heap]; apply lookup_at_end|reflexivity].
Qed.

Lemma index_js_counts_from_its_pay_date_witness :
  (heap (two saturday_noon saturday_noon) !! 0%nat
   = Some (mkMoment saturday_noon)
   /\ heap (two saturday_noon saturday_noon) !! 1%nat
      = Some (mkMoment saturday_noon)
   /\ (rounds saturday_noon saturday_noon < 98)%nat
   /\ (walk_fuel (holidayArray_in (at_time monday_10h) norway
                    (two saturday_noon saturday_noon)) <= 98)%nat)
  /\ exists r w1 t' w',
       IndexJs.getNextPayDate (at_time monday_10h) norway (mkEnv 20 "25") 98
         (two saturday_noon saturday_noon)
       = Some (r, w1)
       /\ heap w1 !! r = Some (mkMoment t')
       /\ IndexJs.calculateWeekdaysBetweenDates (at_time monday_10h) norway
            (mkEnv 20 "25") 98 0%nat 1%nat (two saturday_noon saturday_noon)
          = Some (weekdays_back (rounds saturday_noon saturday_noon) t', w').
Proof.
  split.
  - split; [reflexivity|]. split; [reflexivity|]. split; vm_compute; lia.
  - apply (index_js_counts_from_its_pay_date (at_time monday_10h) norway
             (mkEnv 20 "25") 98 0%nat 1%nat (two saturday_noon saturday_noon)
             saturday_noon saturday_noon);
      [reflexivity|reflexivity|vm_compute; lia|vm_compute; lia].
Defined.

End CountProperties.

Module PageProperties.

Import Calendar DateObj.
Import Heap Num NumText Pattern Server Trace Run Sample.
Import Shape PatternFacts NumTextFacts DateTextFacts PageFacts DateInverse.
Local Open Scope string_scope.
Local Open Scope Z_scope.

(** X16: the sibling file never throws on a page: it returns [false]
    exactly where [src/index.js] throws, and elsewhere the record of
    [src/index.js] with the currency unit [undefined]. *)
Lemma sibling_returns_false_where_index_js_throws (page : Page) :
  (forall e, Part000.getK6Balance page <> Throw e)
  /\ ((exists e, IndexJs.getK6Balance page = Throw e)
      <-> Part000.getK6Balance page = Return None)
  /\ (forall b,
        IndexJs.getK6Balance page = Return b ->
        Part000.getK6Balance page
        = Return (Some {| currentBalance := currentBalance b;
                          balanceCurrencyUnit := undefined;
                          lastToppedUpUTC := lastToppedUpUTC b |})).
Proof.
  pose proof (getK6Balance_both page) as H.
  destruct (IndexJs.getK6Balance page) as [b|e0].
  - split; [intros e; rewrite H; discriminate|]. split.
    + split; [intros [e He]; discriminate He|].
      rewrite H. discriminate.
    + intros b' [= <-]. exact H.
  - split; [intros e; rewrite H; discriminate|]. split.
    + split; [intros _; exact H|intros _; exists e0; reflexivity].
    + intros b' Hb. discriminate Hb.
Qed.

(** X17: the promise of the handler of the sibling file rejects only
    with the browser: when the browser session threw, it rejects with
    that error before the clock is read; when the session read the two
    texts, the handler answers, with a report when both patterns match
    and with the error object when one does not. *)
Lemma sibling_always_answers clock holidays_default env
    (session : Session.Outcome) w :
  exists fuel0, forall fuel, (fuel0 <= fuel)%nat ->
    exists response w',
      Session.handler clock holidays_default env fuel session w
      = Some (response, w')
      /\ match session with
         | Throw e => response = unhandled_rejection e /\ w' = w
         | Return page =>
             if Pattern.test balanceMatcher (balanceString page)
                && Pattern.test dateMatcher (dateString page)
             then exists r, response = json_report r
             else response = json_error "Could not obtain account balance"
                  /\ w' = w
         end.
Proof.
  destruct session as [page|e].
  - cbn [Session.handler].
    pose proof (getK6Balance_both page) as H.
    unfold Pattern.test.
    destruct (balanceMatcher (balanceString page)) as [l|] eqn:Hb.
    + destruct (dateMatcher (dateString page)) as [l'|] eqn:Hd.
      * destruct (balanceMatcher_sound _ _ Hb) as [d [rest [cur [-> _]]]].
        destruct (dateMatcher_groups _ _ Hd) as [a [b [c [d' [e ->]]]]].
        pose proof (Part000_getK6Balance_matched page _ _ _ _ _ _ _ _ _
                      Hb Hd) as Hk.
        destruct (Properties.sibling_answers_with_report clock
                    holidays_default env page w _ Hk) as [fuel0 Hrun].
        exists fuel0. intros fuel Hfuel.
        destruct (Hrun fuel Hfuel) as [weekdays [w' Hw']].
        eexists _, w'. split; [exact Hw'|]. cbn [andb].
        eexists. reflexivity.
      * exists 0%nat. intros fuel _.
        exists (json_error "Could not obtain account balance"), w.
        split; [|cbn [andb]; split; reflexivity].
        apply handler_no_balance.
        apply Properties.sibling_extraction_fails. right. exact Hd.
    + exists 0%nat. intros fuel _.
      exists (json_error "Could not obtain account balance"), w.
      split; [|cbn [andb]; split; reflexivity].
      apply handler_no_balance.
      apply Properties.sibling_extraction_fails. left. exact Hb.
  - exists 0%nat. intros fuel _.
    exists (unhandled_rejection e), w. split; [reflexivity|].
    split; reflexivity.
Qed.

(** X18: an amount of one character is not read: the pattern asks for a
    digit and at least one more character before the space.  The
    sibling file answers with the error object, [src/index.js] throws. *)
Lemma single_character_amount_is_not_read clock holidays_default env fuel w
    (c : ascii) (cur date : string) :
  all_chars is_letter cur = true ->
  let page := {| balanceString := "Saldo: " ++ String c (" " ++ cur);
                 dateString := date |} in
  balanceMatcher (balanceString page) = None
  /\ IndexJs.getK6Balance page
     = Throw (TypeError "Cannot read properties of null (reading '1')")
  /\ Part000.handler clock holidays_default env fuel page w
     = Some (json_error "Could not obtain account balance", w).
Proof.
  intros Hl page.
  assert (Hb : balanceMatcher (balanceString page) = None)
    by (apply balanceMatcher_single_character; exact Hl).
  split; [exact Hb|]. split.
  - unfold IndexJs.getK6Balance. rewrite Hb. reflexivity.
  - apply handler_no_balance. unfold Part000.getK6Balance, test.
    rewrite Hb. reflexivity.
Qed.

Lemma single_character_amount_is_not_read_witness :
  all_chars is_letter "NOK" = true
  /\ (let page := {| balanceString := "Saldo: " ++ String "5" (" " ++ "NOK");
                     dateString := "01.02.2024 10:30" |} in
      balanceMatcher (balanceString page) = None
      /\ IndexJs.getK6Balance page
         = Throw (TypeError "Cannot read properties of null (reading '1')")
      /\ Part000.handler (at_time tuesday_10h) norway (mkEnv 21 "25") 10
           page fresh
         = Some (json_error "Could not obtain account balance", fresh)).
Proof.
  split; [reflexivity|].
  apply (single_character_amount_is_not_read (at_time tuesday_10h) norway
           (mkEnv 21 "25") 10 fresh "5" "NOK" "01.02.2024 10:30").
  reflexivity.
Defined.

(** X19: a balance line [Saldo: <amount> <unit>] is read back by
    [src/index.js]: the amount through [parseFloat], the unit as
    written. *)
Lemma balance_line_read_back (d : ascii) (rest cur date : string) l :
  is_digit d = true -> rest <> "" -> no_terminator rest = true ->
  currency_tail cur = true ->
  dateMatcher date = Some l ->
  exists b,
    IndexJs.getK6Balance
      {| balanceString := "Saldo: " ++ String d rest ++ " " ++ cur;
         dateString := date |}
    = Return b
    /\ currentBalance b = NumText.parseFloat (String d rest)
    /\ balanceCurrencyUnit b = text cur.
Proof.
  intros Hd Hne Hr Hc Hdate.
  destruct (dateMatcher_groups _ _ Hdate) as [a [b [c [d' [e ->]]]]].
  eexists. split.
  - eapply IndexJs_getK6Balance_matched; cbn [balanceString dateString].
    + apply (balanceMatcher_complete d rest cur Hd Hne Hr Hc).
    + exact Hdate.
  - split; reflexivity.
Qed.

Lemma balance_line_read_back_witness :
  (is_digit "1" = true /\ "30,50" <> "" /\ no_terminator "30,50" = true
   /\ currency_tail "kr" = true
   /\ dateMatcher "01.02.2024 10:30"
      = Some ["01.02.2024 10:30"; "01"; "02"; "2024"; "10"; "30"])
  /\ exists b,
       IndexJs.getK6Balance
         {| balanceString := "Saldo: " ++ String "1" "30,50" ++ " " ++ "kr";
            dateString := "01.02.2024 10:30" |}
       = Return b
       /\ currentBalance b = NumText.parseFloat (String "1" "30,50")
       /\ balanceCurrencyUnit b = text "kr".
Proof.
  split.
  - split; [reflexivity|]. split; [discriminate|].
    split; [reflexivity|]. split; reflexivity.
  - apply (balance_line_read_back "1" "30,50" "kr" "01.02.2024 10:30"
             ["01.02.2024 10:30"; "01"; "02"; "2024"; "10"; "30"]);
      [reflexivity|discriminate|reflexivity|reflexivity|reflexivity].
Defined.

(** X20: every record [src/index.js] extracts has for currency unit the
    one to five letters after the last space of the balance line, and
    for amount what [parseFloat] reads of the text between [Saldo: ]
    and that space. *)
Lemma index_js_currency_unit_letters (page : Page) (b : BalanceRecord) :
  IndexJs.getK6Balance page = Return b ->
  exists amount cur,
    balanceCurrencyUnit b = text cur
    /\ (1 <= String.length cur <= 5)%nat
    /\ all_chars is_letter cur = true
    /\ currentBalance b = NumText.parseFloat amount
    /\ strip_prefix_ci "Saldo: " (balanceString page)
       = Some (amount ++ " " ++ cur).
Proof.
  unfold IndexJs.getK6Balance.
  destruct (balanceMatcher (balanceString page)) as [l|] eqn:Hb;
    [|discriminate].
  destruct (balanceMatcher_sound _ _ Hb)
    as [d [rest [cur [-> [Hp [Hd [Hne [Hr Hc]]]]]]]].
  destruct (dateMatcher (dateString page)) as [l'|]; [|discriminate].
  intros [= <-]. exists (String d rest), cur.
  unfold currency_tail in Hc.
  apply andb_true_iff in Hc as [Hlen Hl].
  apply andb_true_iff in Hlen as [H1 H5].
  apply Nat.leb_le in H1, H5.
  split; [reflexivity|]. split; [lia|]. split; [exact Hl|].
  split; [reflexivity|exact Hp].
Qed.

Lemma index_js_currency_unit_letters_witness :
  IndexJs.getK6Balance good_page
  = Return {| currentBalance := Finite (130 # 1);
              balanceCurrencyUnit := text "NOK";
              lastToppedUpUTC := DateObj.local 2024 2 1 10 30 0 0 |}
  /\ exists amount cur,
       balanceCurrencyUnit
         {| currentBalance := Finite (130 # 1);
            balanceCurrencyUnit := text "NOK";
            lastToppedUpUTC := DateObj.local 2024 2 1 10 30 0 0 |}
       = text cur
       /\ (1 <= String.length cur <= 5)%nat
       /\ all_chars is_letter cur = true
       /\ currentBalance
            {| currentBalance := Finite (130 # 1);
               balanceCurrencyUnit := text "NOK";
               lastToppedUpUTC := DateObj.local 2024 2 1 10 30 0 0 |}
          = NumText.parseFloat amount
       /\ strip_prefix_ci "Saldo: " (balanceString good_page)
          = Some (amount ++ " " ++ cur).
Proof.
  split; [vm_compute; reflexivity|].
  apply (index_js_currency_unit_letters good_page).
  vm_compute. reflexivity.
Defined.

Lemma no_terminator_digits ds :
  all_chars is_digit ds = true -> no_terminator ds = true.
Proof.
  unfold no_terminator. induction ds as [|c ds IH]; [reflexivity|].
  cbn [all_chars]. intros H. apply andb_true_iff in H as [Hc Hds].
  rewrite (IH Hds), andb_true_r. apply negb_true_iff.
  unfold is_digit in Hc. apply andb_true_iff in Hc as [H1 H2].
  apply N.leb_le in H1, H2. unfold is_line_terminator.
  apply orb_false_iff; split; apply N.eqb_neq; lia.
Qed.

Lemma no_terminator_append s t :
  no_terminator s = true -> no_terminator t = true ->
  no_terminator (s ++ t) = true.
Proof. apply Properties.all_chars_append. Qed.

(** X21: of an amount that goes on after its digits with anything but
    a digit, a point or an exponent mark (a decimal comma, a space
    between thousands), both files keep what [parseFloat] reads of the
    leading digits alone. *)
Lemma amount_cut_after_the_digits (d c : ascii) (ds rest cur date : string) l :
  is_digit d = true -> all_chars is_digit ds = true ->
  ends_integer c = true -> no_terminator (String c rest) = true ->
  currency_tail cur = true ->
  dateMatcher date = Some l ->
  let page :=
    {| balanceString := "Saldo: " ++ String d ds ++ String c rest ++ " " ++ cur;
       dateString := date |} in
  exists bi bs,
    IndexJs.getK6Balance page = Return bi
    /\ Part000.getK6Balance page = Return (Some bs)
    /\ currentBalance bi = NumText.parseFloat (String d ds)
    /\ currentBalance bs = NumText.parseFloat (String d ds).
Proof.
  intros Hd Hds Hc Hr Hcur Hdate page.
  destruct (dateMatcher_groups _ _ Hdate) as [a [b [c' [d' [e ->]]]]].
  assert (Hb : balanceMatcher (balanceString page)
               = Some [balanceString page;
                       String d (ds ++ String c rest); cur]).
  { unfold page. cbn [balanceString].
    replace ("Saldo: " ++ String d ds ++ String c rest ++ " " ++ cur)
      with ("Saldo: " ++ String d (ds ++ String c rest) ++ String " " cur).
    - apply balanceMatcher_complete; try assumption.
      + destruct ds; discriminate.
      + apply no_terminator_append; [|exact Hr].
        apply no_terminator_digits. exact Hds.
    - f_equal. cbn [append]. f_equal.
      clear. induction ds as [|x ds IH]; cbn [append]; congruence. }
  eexists _, _.
  split;
    [exact (IndexJs_getK6Balance_matched page _ _ _ _ _ _ _ _ _ Hb Hdate)|].
  split;
    [exact (Part000_getK6Balance_matched page _ _ _ _ _ _ _ _ _ Hb Hdate)|].
  cbn [currentBalance].
  change (String d (ds ++ String c rest)) with (String d ds ++ String c rest).
  rewrite (parseFloat_integer_prefix d ds c rest Hd Hds Hc).
  destruct (ToNumber_digits d ds Hd Hds) as [_ ->].
  split; reflexivity.
Qed.

Lemma amount_cut_after_the_digits_witness :
  (is_digit "1" = true /\ all_chars is_digit "234" = true
   /\ ends_integer "," = true /\ no_terminator (String "," "50") = true
   /\ currency_tail "NOK" = true
   /\ dateMatcher "01.02.2024 10:30"
      = Some ["01.02.2024 10:30"; "01"; "02"; "2024"; "10"; "30"])
  /\ (let page :=
        {| balanceString :=
             "Saldo: " ++ String "1" "234" ++ String "," "50" ++ " " ++ "NOK";
           dateString := "01.02.2024 10:30" |} in
      exists bi bs,
        IndexJs.getK6Balance page = Return bi
        /\ Part000.getK6Balance page = Return (Some bs)
        /\ currentBalance bi = NumText.parseFloat (String "1" "234")
        /\ currentBalance bs = NumText.parseFloat (String "1" "234")).
Proof.
  split.
  - split; [reflexivity|]. split; [reflexivity|]. split; [reflexivity|].
    split; [reflexivity|]. split; reflexivity.
  - apply (amount_cut_after_the_digits "1" "," "234" "50" "NOK"
             "01.02.2024 10:30"
             ["01.02.2024 10:30"; "01"; "02"; "2024"; "10"; "30"]);
      reflexivity.
Defined.

(** X22: the date pattern checks the shape of the text, not the numbers:
    whatever one or two digits stand for day, month, hour and minute,
    both files take them and hand them to [new Date], which carries
    what is out of range over: the date is the first of the month plus
    the days, hours and minutes written. *)
Lemma date_line_taken_as_written (page : Page) (g1 g2 g3 g4 g5 : string) l :
  balanceMatcher (balanceString page) = Some l ->
  one_or_two_digits g1 = true -> one_or_two_digits g2 = true ->
  four_digits g3 = true ->
  one_or_two_digits g4 = true -> one_or_two_digits g5 = true ->
  dateString page = g1 ++ "." ++ g2 ++ "." ++ g3 ++ " " ++ g4 ++ ":" ++ g5 ->
  exists bi bs,
    IndexJs.getK6Balance page = Return bi
    /\ Part000.getK6Balance page = Return (Some bs)
    /\ lastToppedUpUTC bi
       = new_Date (parseInt_digits g3) (parseInt_digits g2 - 1)
           (parseInt_digits g1) (parseInt_digits g4) (parseInt_digits g5)
    /\ lastToppedUpUTC bi
       = new_Date (parseInt_digits g3) (parseInt_digits g2 - 1) 1 0 0
         + (parseInt_digits g1 - 1) * Calendar.msPerDay
         + parseInt_digits g4 * 3600000 + parseInt_digits g5 * 60000
    /\ lastToppedUpUTC bs = lastToppedUpUTC bi.
Proof.
  intros Hb H1 H2 H3 H4 H5 Hs.
  destruct (balanceMatcher_sound _ _ Hb) as [d [rest [cur [-> _]]]].
  pose proof (dateMatcher_complete g1 g2 g3 g4 g5 H1 H2 H3 H4 H5) as Hd.
  rewrite <- Hs in Hd.
  eexists _, _.
  split; [exact (IndexJs_getK6Balance_matched page _ _ _ _ _ _ _ _ _ Hb Hd)|].
  split; [exact (Part000_getK6Balance_matched page _ _ _ _ _ _ _ _ _ Hb Hd)|].
  cbn [lastToppedUpUTC]. split; [reflexivity|].
  split; [apply new_Date_carries|reflexivity].
Qed.

Lemma date_line_taken_as_written_witness :
  (balanceMatcher
     (balanceString {| balanceString := "Saldo: 130 NOK";
                       dateString := "31.2.2024 25:61" |})
   = Some ["Saldo: 130 NOK"; "130"; "NOK"]
   /\ one_or_two_digits "31" = true /\ one_or_two_digits "2" = true
   /\ four_digits "2024" = true
   /\ one_or_two_digits "25" = true /\ one_or_two_digits "61" = true
   /\ dateString {| balanceString := "Saldo: 130 NOK";
                    dateString := "31.2.2024 25:61" |}
      = "31" ++ "." ++ "2" ++ "." ++ "2024" ++ " " ++ "25" ++ ":" ++ "61")
  /\ exists bi bs,
       IndexJs.getK6Balance {| balanceString := "Saldo: 130 NOK";
                               dateString := "31.2.2024 25:61" |}
       = Return bi
       /\ Part000.getK6Balance {| balanceString := "Saldo: 130 NOK";
                                  dateString := "31.2.2024 25:61" |}
          = Return (Some bs)
       /\ lastToppedUpUTC bi
          = new_Date (parseInt_digits "2024") (parseInt_digits "2" - 1)
              (parseInt_digits "31") (parseInt_digits "25")
              (parseInt_digits "61")
       /\ lastToppedUpUTC bi
          = new_Date (parseInt_digits "2024") (parseInt_digits "2" - 1) 1 0 0
            + (parseInt_digits "31" - 1) * Calendar.msPerDay
            + parseInt_digits "25" * 3600000 + parseInt_digits "61" * 60000
       /\ lastToppedUpUTC bs = lastToppedUpUTC bi.
Proof.
  split.
  - split; [reflexivity|]. split; [reflexivity|]. split; [reflexivity|].
    split; [reflexivity|]. split; [reflexivity|]. split; reflexivity.
  - apply (date_line_taken_as_written
             {| balanceString := "Saldo: 130 NOK";
                dateString := "31.2.2024 25:61" |}
             "31" "2" "2024" "25" "61" ["Saldo: 130 NOK"; "130"; "NOK"]);
      reflexivity.
Defined.

(** X23: a date of the calendar written [dd.mm.yyyy hh:mm] with its
    zeros is read back field by field, as a local time with no seconds;
    a year below 100 lands in the twentieth century. *)
Lemma date_line_read_back (page : Page) (y m d hh mi : Z) l :
  balanceMatcher (balanceString page) = Some l ->
  0 <= y <= 9999 -> 1 <= m <= 12 ->
  1 <= d <= daysInMonth (if y <=? 99 then 1900 + y else y) (m - 1) ->
  0 <= hh < 24 -> 0 <= mi < 60 ->
  dateString page
  = Text.zeroFill d 2 ++ "." ++ Text.zeroFill m 2 ++ "."
    ++ Text.zeroFill y 4 ++ " " ++ Text.zeroFill hh 2 ++ ":"
    ++ Text.zeroFill mi 2 ->
  exists bi bs,
    IndexJs.getK6Balance page = Return bi
    /\ Part000.getK6Balance page = Return (Some bs)
    /\ lastToppedUpUTC bs = lastToppedUpUTC bi
    /\ lastToppedUpUTC bi
       = local (if y <=? 99 then 1900 + y else y) m d hh mi 0 0
    /\ getFullYear (lastToppedUpUTC bi) = (if y <=? 99 then 1900 + y else y)
    /\ getMonth (lastToppedUpUTC bi) = m - 1
    /\ getDate (lastToppedUpUTC bi) = d
    /\ HourFromTime (lastToppedUpUTC bi) = hh
    /\ MinFromTime (lastToppedUpUTC bi) = mi
    /\ SecFromTime (lastToppedUpUTC bi) = 0.
Proof.
  intros Hb Hy Hm Hd Hh Hmi Hs.
  destruct (zeroFill_two d) as [Gd Vd].
  { pose proof (CalendarInverse.daysInMonth_cases
                  (if y <=? 99 then 1900 + y else y) m Hm) as Hc.
    rewrite Hc in Hd.
    destruct (m =? 2); [destruct (isLeapYear _); lia|].
    destruct ((m =? 4) || (m =? 6) || (m =? 9) || (m =? 11)); lia. }
  destruct (zeroFill_two m ltac:(lia)) as [Gm Vm].
  destruct (zeroFill_four y ltac:(lia)) as [Gy Vy].
  destruct (zeroFill_two hh ltac:(lia)) as [Gh Vh].
  destruct (zeroFill_two mi ltac:(lia)) as [Gmi Vmi].
  destruct (balanceMatcher_sound _ _ Hb) as [c [rest [cur [-> _]]]].
  pose proof (dateMatcher_complete _ _ _ _ _ Gd Gm Gy Gh Gmi) as Hdm.
  rewrite <- Hs in Hdm.
  eexists _, _.
  split; [exact (IndexJs_getK6Balance_matched page _ _ _ _ _ _ _ _ _ Hb Hdm)|].
  split; [exact (Part000_getK6Balance_matched page _ _ _ _ _ _ _ _ _ Hb Hdm)|].
  split; [reflexivity|].
  cbn [lastToppedUpUTC]. rewrite Vd, Vm, Vy, Vh, Vmi.
  assert (Hnew : new_Date y (m - 1) d hh mi
                 = local (if y <=? 99 then 1900 + y else y) m d hh mi 0 0).
  { unfold new_Date, local.
    assert (H0 : (0 <=? y) = true) by lia. rewrite H0. cbn [andb].
    rewrite MakeDay_civil by exact Hm. reflexivity. }
  rewrite Hnew. split; [reflexivity|].
  destruct (getters_local (if y <=? 99 then 1900 + y else y) m d hh mi 0 0
              Hm Hd Hh Hmi ltac:(lia) ltac:(lia))
    as [G1 [G2 [G3 [G4 [G5 [G6 _]]]]]].
  split; [exact G1|]. split; [exact G2|]. split; [exact G3|].
  split; [exact G4|]. split; [exact G5|exact G6].
Qed.

Lemma date_line_read_back_witness :
  (balanceMatcher
     (balanceString {| balanceString := "Saldo: 130 NOK";
                       dateString := "29.02.2024 09:05" |})
   = Some ["Saldo: 130 NOK"; "130"; "NOK"]
   /\ 0 <= 2024 <= 9999 /\ 1 <= 2 <= 12
   /\ 1 <= 29 <= daysInMonth (if 2024 <=? 99 then 1900 + 2024 else 2024)
                   (2 - 1)
   /\ 0 <= 9 < 24 /\ 0 <= 5 < 60
   /\ dateString {| balanceString := "Saldo: 130 NOK";
                    dateString := "29.02.2024 09:05" |}
      = Text.zeroFill 29 2 ++ "." ++ Text.zeroFill 2 2 ++ "."
        ++ Text.zeroFill 2024 4 ++ " " ++ Text.zeroFill 9 2 ++ ":"
        ++ Text.zeroFill 5 2)
  /\ exists bi bs,
       IndexJs.getK6Balance {| balanceString := "Saldo: 130 NOK";
                               dateString := "29.02.2024 09:05" |}
       = Return bi
       /\ Part000.getK6Balance {| balanceString := "Saldo: 130 NOK";
                                  dateString := "29.02.2024 09:05" |}
          = Return (Some bs)
       /\ lastToppedUpUTC bs = lastToppedUpUTC bi
       /\ lastToppedUpUTC bi
          = local (if 2024 <=? 99 then 1900 + 2024 else 2024) 2 29 9 5 0 0
       /\ getFullYear (lastToppedUpUTC bi)
          = (if 2024 <=? 99 then 1900 + 2024 else 2024)
       /\ getMonth (lastToppedUpUTC bi) = 2 - 1
       /\ getDate (lastToppedUpUTC bi) = 29
       /\ HourFromTime (lastToppedUpUTC bi) = 9
       /\ MinFromTime (lastToppedUpUTC bi) = 5
       /\ SecFromTime (lastToppedUpUTC bi) = 0.
Proof.
  split.
  - split; [reflexivity|]. split; [lia|]. split; [lia|].
    split; [vm_compute; split; discriminate|]. split; [lia|].
    split; [lia|reflexivity].
  - apply (date_line_read_back
             {| balanceString := "Saldo: 130 NOK";
                dateString := "29.02.2024 09:05" |}
             2024 2 29 9 5 ["Saldo: 130 NOK"; "130"; "NOK"]);
      [reflexivity|lia|lia|vm_compute; split; discriminate|lia|lia
      |reflexivity].
Defined.

End PageProperties.

Module ReportProperties.

Import Heap Num NumText Pattern Server Walk Trace Run Spec Sample.
Import NumTextFacts PageFacts ReportFacts.
Local Open Scope string_scope.
Local Open Scope Z_scope.




Lemma div_NaN a : div a NaN = NaN.
Proof. destruct a; reflexivity. Qed.

(** X25: a price text [parseFloat] cannot read makes the three derived
    numbers of every report NaN, in both files. *)
Lemma unreadable_price_gives_NaN clock holidays_default env fuel page w :
  NumText.parseFloat (PRICE_PER_MEAL env) = NaN ->
  (forall r w',
     Part000.handler clock holidays_default env fuel page w
     = Some (json_report r, w') ->
     r_pricePerMeal r = NaN /\ derived r = (NaN, NaN, NaN))
  /\ (forall r w',
        IndexJs.handler clock holidays_default env fuel page w
        = Some (json_report r, w') ->
        r_pricePerMeal r = NaN /\ derived r = (NaN, NaN, NaN)).
Proof.
  intros Hprice. split; intros r w' Hrun.
  - destruct (sibling_report_shape _ _ _ _ _ _ _ _ Hrun)
      as [balance [weekdays [_ ->]]].
    unfold derived, report_of, Part000.pricePerMeal.
    cbn [r_pricePerMeal r_currentBalanceInNumberOfMeals r_mealsNeeded
         r_topupNeeded].
    rewrite Hprice, div_NaN. split; reflexivity.
  - destruct (index_js_report_shape _ _ _ _ _ _ _ _ Hrun)
      as [balance [weekdays [_ ->]]].
    unfold derived, index_report_of, IndexJs.pricePerMeal.
    cbn [r_pricePerMeal r_currentBalanceInNumberOfMeals r_mealsNeeded
         r_topupNeeded].
    rewrite Hprice, div_NaN. split; reflexivity.
Qed.

Lemma unreadable_price_gives_NaN_witness :
  NumText.parseFloat (PRICE_PER_MEAL (mkEnv 21 "kr 25")) = NaN
  /\ ((forall r w',
         Part000.handler (at_time tuesday_10h) norway (mkEnv 21 "kr 25") 10
           good_page fresh
         = Some (json_report r, w') ->
         r_pricePerMeal r = NaN /\ derived r = (NaN, NaN, NaN))
      /\ (forall r w',
            IndexJs.handler (at_time tuesday_10h) norway (mkEnv 21 "kr 25") 10
              good_page fresh
            = Some (json_report r, w') ->
            r_pricePerMeal r = NaN /\ derived r = (NaN, NaN, NaN))).
Proof.
  split; [vm_compute; reflexivity|].
  apply (unreadable_price_gives_NaN (at_time tuesday_10h) norway
           (mkEnv 21 "kr 25") 10 good_page fresh).
  vm_compute. reflexivity.
Defined.

(** X26: every report [src/index.js] sends holds the whole meals in the
    balance and the meals needed as the sibling file computes them, and
    for top-up the meals needed times the price text converted as a
    whole; with a price written in digits only that is the product the
    sibling file reports. *)
Lemma index_js_report_formulas clock holidays_default env fuel page w r w' :
  IndexJs.handler clock holidays_default env fuel page w
  = Some (json_report r, w') ->
  r_pricePerMeal r = NumText.parseFloat (PRICE_PER_MEAL env)
  /\ r_currentBalanceInNumberOfMeals r
     = floor (div (r_currentBalance r) (r_pricePerMeal r))
  /\ r_mealsNeeded r
     = sub (of_Z (r_weekdaysUntilNextPayment r))
         (r_currentBalanceInNumberOfMeals r)
  /\ r_topupNeeded r
     = mul (r_mealsNeeded r) (NumText.ToNumber (PRICE_PER_MEAL env))
  /\ (forall d ds,
        PRICE_PER_MEAL env = String d ds ->
        is_digit d = true -> all_chars is_digit ds = true ->
        derived r
        = computeReport (r_currentBalance r) (r_pricePerMeal r)
            (r_weekdaysUntilNextPayment r)).
Proof.
  intros Hrun.
  destruct (index_js_report_shape _ _ _ _ _ _ _ _ Hrun)
    as [balance [weekdays [_ ->]]].
  unfold index_report_of, IndexJs.pricePerMeal.
  cbn [r_pricePerMeal r_currentBalanceInNumberOfMeals r_mealsNeeded
       r_topupNeeded r_currentBalance r_weekdaysUntilNextPayment].
  split; [reflexivity|]. split; [reflexivity|]. split; [reflexivity|].
  split; [reflexivity|].
  intros d ds Hprice Hd Hds. unfold derived, computeReport.
  cbn [r_currentBalanceInNumberOfMeals r_mealsNeeded r_topupNeeded].
  rewrite Hprice.
  destruct (ToNumber_digits d ds Hd Hds) as [-> ->]. reflexivity.
Qed.

Lemma index_js_report_formulas_witness :
  exists r w',
    IndexJs.handler (at_time tuesday_10h) norway (mkEnv 21 "25") 10
      good_page fresh
    = Some (json_report r, w')
    /\ (r_pricePerMeal r = NumText.parseFloat (PRICE_PER_MEAL (mkEnv 21 "25"))
        /\ r_currentBalanceInNumberOfMeals r
           = floor (div (r_currentBalance r) (r_pricePerMeal r))
        /\ r_mealsNeeded r
           = sub (of_Z (r_weekdaysUntilNextPayment r))
               (r_currentBalanceInNumberOfMeals r)
        /\ r_topupNeeded r
           = mul (r_mealsNeeded r)
               (NumText.ToNumber (PRICE_PER_MEAL (mkEnv 21 "25")))
        /\ (forall d ds,
              PRICE_PER_MEAL (mkEnv 21 "25") = String d ds ->
              is_digit d = true -> all_chars is_digit ds = true ->
              derived r
              = computeReport (r_currentBalance r) (r_pricePerMeal r)
                  (r_weekdaysUntilNextPayment r))).
Proof.
  eexists _, _. split; [vm_compute; reflexivity|].
  eapply (index_js_report_formulas (at_time tuesday_10h) norway
            (mkEnv 21 "25") 10 good_page fresh).
  vm_compute. reflexivity.
Defined.

End ReportProperties.

Module AgreementProperties.

Import Heap Num NumText Pattern Server Walk WalkFacts Trace Run Spec Sample.
Import PageFacts ReportFacts.
Local Open Scope string_scope.
Local Open Scope Z_scope.

(** With a clock that stands still every call of [getNextPayDate]
    resolves the same date. *)
Lemma payday_in_still clock t holidays_default env w w0 :
  (forall n, clock n = t) ->
  payday_in clock holidays_default env w
  = payday_in clock holidays_default env w0.
Proof.
  intros Hstill. unfold payday_in, holidayArray_in, candidate_in.
  rewrite !Hstill. reflexivity.
Qed.

(** X27: while the clock stands still, the two files answer a page they
    can read with reports that agree on the weekday count, the balance,
    the price, the whole meals, the meals needed and the date: they
    differ in the currency unit, and in the top-up where the price text
    is not a plain number. *)
Lemma files_agree_with_a_still_clock clock t holidays_default env
    (page : Page) w bi :
  (forall n, clock n = t) ->
  IndexJs.getK6Balance page = Return bi ->
  exists fuel0, forall fuel, (fuel0 <= fuel)%nat ->
    exists ri wi rs ws,
      IndexJs.handler clock holidays_default env fuel page w
      = Some (json_report ri, wi)
      /\ Part000.handler clock holidays_default env fuel page w
         = Some (json_report rs, ws)
      /\ r_weekdaysUntilNextPayment ri = r_weekdaysUntilNextPayment rs
      /\ r_currentBalance ri = r_currentBalance rs
      /\ r_pricePerMeal ri = r_pricePerMeal rs
      /\ r_currentBalanceInNumberOfMeals ri
         = r_currentBalanceInNumberOfMeals rs
      /\ r_mealsNeeded ri = r_mealsNeeded rs
      /\ r_lastToppedUpUTC ri = r_lastToppedUpUTC rs
      /\ r_balanceCurrencyUnit ri = balanceCurrencyUnit bi
      /\ r_balanceCurrencyUnit rs = undefined.
Proof.
  intros Hstill Hi.
  pose proof (getK6Balance_both page) as Hs. rewrite Hi in Hs.
  destruct (payday_in_total clock holidays_default env w) as [P HP].
  pose proof HP as HP1.
  rewrite (payday_in_still clock t holidays_default env w
             (after_moment clock (after_payday clock w P)) Hstill) in HP1.
  pose proof HP as HP2.
  rewrite (payday_in_still clock t holidays_default env w
             (after_moment clock w) Hstill) in HP2.
  exists (Nat.max (index_request_fuel clock holidays_default w P)
                  (request_fuel clock holidays_default w P)).
  intros fuel Hfuel.
  destruct (IndexJs_handler_run clock holidays_default env fuel page w P P
              HP HP1 ltac:(lia)) as [wi Hri].
  destruct (handler_run clock holidays_default env fuel page w _ P
              Hs HP2 ltac:(lia)) as [ws Hrs].
  unfold index_response in Hri. rewrite Hi in Hri.
  rewrite !Hstill in Hri, Hrs.
  eexists _, wi, _, ws.
  split; [exact Hri|]. split; [exact Hrs|].
  unfold index_report_of, report_of, IndexJs.pricePerMeal,
    Part000.pricePerMeal, weekdaysBetween, rounds.
  cbn [r_weekdaysUntilNextPayment r_currentBalance r_pricePerMeal
       r_currentBalanceInNumberOfMeals r_mealsNeeded r_lastToppedUpUTC
       r_balanceCurrencyUnit currentBalance lastToppedUpUTC
       balanceCurrencyUnit].
  repeat (split; [reflexivity|]). reflexivity.
Qed.

Lemma files_agree_with_a_still_clock_witness :
  ((forall n, at_time tuesday_10h n = tuesday_10h)
   /\ IndexJs.getK6Balance good_page
      = Return {| currentBalance := Finite (130 # 1);
                  balanceCurrencyUnit := text "NOK";
                  lastToppedUpUTC := DateObj.local 2024 2 1 10 30 0 0 |})
  /\ exists fuel0, forall fuel, (fuel0 <= fuel)%nat ->
       exists ri wi rs ws,
         IndexJs.handler (at_time tuesday_10h) norway (mkEnv 21 "25") fuel
           good_page fresh
         = Some (json_report ri, wi)
         /\ Part000.handler (at_time tuesday_10h) norway (mkEnv 21 "25") fuel
              good_page fresh
            = Some (json_report rs, ws)
         /\ r_weekdaysUntilNextPayment ri = r_weekdaysUntilNextPayment rs
         /\ r_currentBalance ri = r_currentBalance rs
         /\ r_pricePerMeal ri = r_pricePerMeal rs
         /\ r_currentBalanceInNumberOfMeals ri
            = r_currentBalanceInNumberOfMeals rs
         /\ r_mealsNeeded ri = r_mealsNeeded rs
         /\ r_lastToppedUpUTC ri = r_lastToppedUpUTC rs
         /\ r_balanceCurrencyUnit ri
            = balanceCurrencyUnit
                {| currentBalance := Finite (130 # 1);
                   balanceCurrencyUnit := text "NOK";
                   lastToppedUpUTC := DateObj.local 2024 2 1 10 30 0 0 |}
         /\ r_balanceCurrencyUnit rs = undefined.
Proof.
  split.
  - split; [intros n; reflexivity|vm_compute; reflexivity].
  - apply (files_agree_with_a_still_clock (at_time tuesday_10h) tuesday_10h
             norway (mkEnv 21 "25") good_page fresh);
      [intros n; reflexivity|vm_compute; reflexivity].
Defined.

End AgreementProperties.
